(** * Access-control and integrity layer of the social-media backend

    A shallow embedding of the TypeScript sources
    (middleware/auth.middleware.ts, middleware/error-handler.middleware.ts,
    types/error.ts, config/env.ts, utils/jwt.ts, the like, rating and comment
    services, prisma/schema.prisma and the context builder of index.ts),
    followed by the properties proved about them.

    Conventions.
    - A JavaScript [string] is a [string]; [undefined]/[null] is [None].
    - An [async] method that reads or writes the database, or calls the
      logger, is a computation in the monad [M] over the [World]
      (database tables and the log written so far); [throw] is the [Throw]
      outcome and keeps the writes made before it.
    - Values that the database or the runtime generate during a call (a
      uuid primary key, the current time) are passed in explicitly. *)

From Stdlib Require Import String Ascii List ZArith Bool Lia.
Import ListNotations.

Local Open Scope string_scope.
Local Open Scope Z_scope.

(* ------------------------------------------------------------------ *)
(** ** JavaScript idioms used by the sources *)

(** Truthiness of a string: every string but the empty one. *)
Definition truthy (s : string) : bool := negb (String.eqb s "").

(** Truthiness of [string | undefined]. *)
Definition truthy_opt (o : option string) : bool :=
  match o with
  | Some s => truthy s
  | None => false
  end.

(** [a || d] for [a : string | undefined] and a string literal [d]. *)
Definition or_else (a : option string) (d : string) : string :=
  match a with
  | Some s => if truthy s then s else d
  | None => d
  end.

(** [a === b] for [a : string | undefined] and a string [b]. *)
Definition opt_is (a : option string) (b : string) : bool :=
  match a with
  | Some s => String.eqb s b
  | None => false
  end.

(** [hay.includes(needle)]. *)
Fixpoint includes (hay needle : string) : bool :=
  String.prefix needle hay
  || match hay with
     | EmptyString => false
     | String _ rest => includes rest needle
     end.

(* ------------------------------------------------------------------ *)
(** ** types/error.ts *)

Module ErrorCodes.
Definition NOT_FOUND := "NOT_FOUND".
Definition UNAUTHORIZED := "UNAUTHORIZED".
Definition UNAUTHENTICATED := "UNAUTHENTICATED".
Definition CONFLICT := "CONFLICT".
Definition BAD_USER_INPUT := "BAD_USER_INPUT".
Definition INTERNAL_SERVER_ERROR := "INTERNAL_SERVER_ERROR".
End ErrorCodes.

(** [class ServiceError extends Error]: message, code, statusCode and the
    optional details, with the [name] and [stack] every [Error] has. *)
Record ServiceError : Type := mkServiceError {
  se_name : string;
  se_message : string;
  se_code : string;
  se_statusCode : Z;
  se_details : option string;
  se_stack : string
}.

(** The subclasses of [ServiceError], as their constructors build them. *)
Definition NotFoundError (resource : string) (details : option string)
    (stack : string) : ServiceError :=
  mkServiceError "NotFoundError" (resource ++ " not found")
    ErrorCodes.NOT_FOUND 404 details stack.







(** The [GraphQLError] that [ErrorHandler.handle] returns: a message and the
    [extensions] object with its three possible keys. *)
Record GraphQLError : Type := mkGraphQLError {
  gql_message : string;
  ext_code : option string;
  ext_statusCode : option Z;
  ext_details : option string
}.

(** What the running code throws.  [instanceof] is a match on the
    constructor; the three jsonwebtoken classes and the Prisma class are the
    ones the sources test for. *)
Inductive Exn : Type :=
| PlainError (message : string)
    (* new Error(message) *)
| GraphQLErr (message code : string)
    (* new GraphQLError(message, { extensions: { code } }) *)
| JsonWebTokenError (message : string)
| TokenExpiredError (message : string)
    (* extends JsonWebTokenError *)
| NotBeforeError (message : string)
    (* extends JsonWebTokenError *)
| TypeError (message : string)
| PrismaClientKnownRequestError (code message : string).

Definition instanceof_TokenExpiredError (e : Exn) : bool :=
  match e with
  | TokenExpiredError _ => true
  | _ => false
  end.

Definition instanceof_JsonWebTokenError (e : Exn) : bool :=
  match e with
  | JsonWebTokenError _ | TokenExpiredError _ | NotBeforeError _ => true
  | _ => false
  end.

(* ------------------------------------------------------------------ *)
(** ** prisma/schema.prisma: the tables *)

Inductive Role : Type := USER | ADMIN.

Definition role_string (r : Role) : string :=
  match r with
  | USER => "USER"
  | ADMIN => "ADMIN"
  end.

(** The rows keep the columns that the modelled operations read or write;
    [password], [bio], [profilePicture], [mediaFile], [caption] and the
    timestamps of users and posts are left out. *)
Record UserRow : Type := mkUser {
  user_id : string;
  user_username : string;
  user_email : string;
  user_role : Role
}.

Record PostRow : Type := mkPost {
  post_id : string;
  post_userId : string
}.

Record Comment : Type := mkComment {
  comment_id : string;
  comment_userId : string;
  comment_postId : string;
  comment_content : string;
  comment_parentId : option string;
  comment_createdAt : Z;
  comment_updatedAt : Z
}.

Record Like : Type := mkLike {
  like_id : string;
  like_userId : string;
  like_postId : string;
  like_createdAt : Z
}.

Record Rating : Type := mkRating {
  rating_id : string;
  rating_userId : string;
  rating_postId : string;
  rating_value : Z;
  rating_createdAt : Z;
  rating_updatedAt : Z
}.

Record Db : Type := mkDb {
  users : list UserRow;
  posts : list PostRow;
  comments : list Comment;
  likes : list Like;
  ratings : list Rating
}.

(* ------------------------------------------------------------------ *)
(** ** utils/logger.ts and the monad of the services *)

Inductive Level : Type := info | warn | error.

(** A log line: level and message (the metadata object that some calls pass
    as a second argument is not recorded). *)
Definition LogEntry : Type := (Level * string)%type.

Record World : Type := mkWorld {
  db : Db;
  log : list LogEntry
}.

Inductive outcome (A : Type) : Type :=
| Ok (a : A)
| Throw (e : Exn).
Arguments Ok {A} a.
Arguments Throw {A} e.

Definition M (A : Type) : Type := World -> outcome A * World.

Definition ret {A} (a : A) : M A := fun w => (Ok a, w).

Definition bind {A B} (m : M A) (k : A -> M B) : M B :=
  fun w =>
    match m w with
    | (Ok a, w') => k a w'
    | (Throw e, w') => (Throw e, w')
    end.

Definition throw {A} (e : Exn) : M A := fun w => (Throw e, w).

(** [try { body } catch (error) { handler }]. *)
Definition try_catch {A} (body : M A) (handler : Exn -> M A) : M A :=
  fun w =>
    match body w with
    | (Ok a, w') => (Ok a, w')
    | (Throw e, w') => handler e w'
    end.

(** A synchronous library call that returns or throws. *)
Definition lift {A} (o : outcome A) : M A := fun w => (o, w).

Definition get_db : M Db := fun w => (Ok (db w), w).

Definition put_db (d : Db) : M unit := fun w => (Ok tt, mkWorld d (log w)).

Definition logger (l : Level) (message : string) : M unit :=
  fun w => (Ok tt, mkWorld (db w) (log w ++ [(l, message)])).

Notation "x <- m ;; k" := (bind m (fun x => k))
  (at level 61, m at next level, right associativity).
Notation "m ;;; k" := (bind m (fun _ => k))
  (at level 61, right associativity).

(** The error an outcome carries, if it is a failure. *)
Definition error_of {A} (o : outcome A) : option Exn :=
  match o with
  | Ok _ => None
  | Throw e => Some e
  end.

(** The result and the final world of a run. *)
Definition result_of {A} (r : outcome A * World) : outcome A := fst r.
Definition world_of {A} (r : outcome A * World) : World := snd r.

(* ------------------------------------------------------------------ *)
(** ** types/context.ts *)

Record User : Type := mkCtxUser {
  id : string;
  username : string;
  email : string;
  role : string
}.

Record Context : Type := mkContext {
  user : option User;
  requestId : string
}.

(* ------------------------------------------------------------------ *)
(** ** middleware/auth.middleware.ts *)

Module AuthMiddleware.

Definition authenticate (context : Context) : M User :=
  match user context with
  | None => throw (GraphQLErr "Not authenticated" ErrorCodes.UNAUTHENTICATED)
  | Some u => ret u
  end.

(** [role] is the optional third parameter. *)
Definition authorize (userId resourceUserId : string) (role : option string)
    : M unit :=
  if negb (String.eqb userId resourceUserId) && negb (opt_is role "ADMIN")
  then throw (GraphQLErr "Not authorized" ErrorCodes.UNAUTHORIZED)
  else ret tt.

Definition isAdmin (context : Context) : M User :=
  u <- authenticate context ;;
  if negb (String.eqb (role u) "ADMIN")
  then throw (GraphQLErr "Admin access required" ErrorCodes.UNAUTHORIZED)
  else ret u.

End AuthMiddleware.

(* ------------------------------------------------------------------ *)
(** ** middleware/error-handler.middleware.ts *)

(** The argument of [handle] has type [unknown].  It is seen through the
    tests that [handle] makes: whether it is a [ServiceError], and otherwise
    whether it is an [Error] at all, with which [name] and [message]; an
    [Error] also carries the [stack] it was created with. *)
Inductive Unknown : Type :=
| AServiceError (e : ServiceError)
| AnError (name message stack : string)
    (* instanceof Error, not instanceof ServiceError *)
| NotAnError (repr : string).
    (* any other value, by its printed form *)

Module ErrorHandler.

Definition isPrismaKnownRequestError (x : Unknown) : bool :=
  match x with
  | AnError name _ _ => String.eqb name "PrismaClientKnownRequestError"
  | _ => false
  end.

Definition isValidationError (x : Unknown) : bool :=
  match x with
  | AnError name _ _ => String.eqb name "ValidationError"
  | _ => false
  end.

Definition message_of (x : Unknown) : string :=
  match x with
  | AServiceError e => se_message e
  | AnError _ message _ => message
  | NotAnError _ => ""
  end.

Definition conflict : GraphQLError :=
  mkGraphQLError "Resource already exists"
    (Some ErrorCodes.CONFLICT) (Some 409) None.

Definition notFound : GraphQLError :=
  mkGraphQLError "Resource not found"
    (Some ErrorCodes.NOT_FOUND) (Some 404) None.

Definition validationFailed (details : string) : GraphQLError :=
  mkGraphQLError "Validation failed"
    (Some ErrorCodes.BAD_USER_INPUT) (Some 400) (Some details).

Definition internalServerError : GraphQLError :=
  mkGraphQLError "Internal server error"
    (Some ErrorCodes.INTERNAL_SERVER_ERROR) (Some 500) None.

(** The two last steps of [handle], shared by every path that leaves the
    Prisma block without returning. *)
Definition handle_rest (x : Unknown) : M GraphQLError :=
  if isValidationError x then
    logger warn "Validation error" ;;;
    ret (validationFailed (message_of x))
  else
    logger error "Unexpected error" ;;;
    ret internalServerError.

Definition handle (x : Unknown) : M GraphQLError :=
  match x with
  | AServiceError e =>
      logger warn ("Service error: " ++ se_message e) ;;;
      ret (mkGraphQLError (se_message e)
             (Some (se_code e)) (Some (se_statusCode e)) (se_details e))
  | _ =>
      if isPrismaKnownRequestError x then
        logger error "Database error" ;;;
        if includes (message_of x) "Unique constraint failed" then
          ret conflict
        else if includes (message_of x) "Record to update not found" then
          ret notFound
        else handle_rest x
      else handle_rest x
  end.

(** The shapes that [handle] recognizes, read off its tests: the failures
    for which one of the first four [return]s is reached. *)
Definition recognized (x : Unknown) : bool :=
  match x with
  | AServiceError _ => true
  | _ =>
      (isPrismaKnownRequestError x
       && (includes (message_of x) "Unique constraint failed"
           || includes (message_of x) "Record to update not found"))
      || isValidationError x
  end.

(** The class name and the message of an error that the services, the
    credential codec or the Prisma client throw, as [handle] reads them.
    None of them is a [ServiceError]. *)
Definition exn_name (e : Exn) : string :=
  match e with
  | PlainError _ => "Error"
  | GraphQLErr _ _ => "GraphQLError"
  | JsonWebTokenError _ => "JsonWebTokenError"
  | TokenExpiredError _ => "TokenExpiredError"
  | NotBeforeError _ => "NotBeforeError"
  | TypeError _ => "TypeError"
  | PrismaClientKnownRequestError _ _ => "PrismaClientKnownRequestError"
  end.

Definition exn_message (e : Exn) : string :=
  match e with
  | PlainError m | GraphQLErr m _ | JsonWebTokenError m
  | TokenExpiredError m | NotBeforeError m | TypeError m
  | PrismaClientKnownRequestError _ m => m
  end.

(** A caught error as the [unknown] argument of [handle]; [stack_of] gives
    the stack trace it was created with. *)
Definition as_unknown (stack_of : Exn -> string) (e : Exn) : Unknown :=
  AnError (exn_name e) (exn_message e) (stack_of e).

(** How a call of [withErrorHandling] ends: [fn] returned, or the
    [GraphQLError] built by [handle] was thrown, or [handle] itself threw. *)
Inductive Handled (A : Type) : Type :=
| Returned (a : A)
| Rethrown (e : GraphQLError)
| Escaped (e : Exn).
Arguments Returned {A} a.
Arguments Rethrown {A} e.
Arguments Escaped {A} e.

Definition withErrorHandling {A} (stack_of : Exn -> string) (fn : M A)
    : World -> Handled A * World :=
  fun w =>
    match fn w with
    | (Ok a, w') => (Returned a, w')
    | (Throw e, w') =>
        match handle (as_unknown stack_of e) w' with
        | (Ok classified, w'') => (Rethrown classified, w'')
        | (Throw e', w'') => (Escaped e', w'')
        end
    end.

End ErrorHandler.

(* ------------------------------------------------------------------ *)
(** ** config/env.ts *)

(** The four variables of the process environment that the credential
    codec depends on, and the [config] object built from them. *)
Record ProcessEnv : Type := mkProcessEnv {
  JWT_SECRET : option string;
  JWT_EXPIRES_IN : option string;
  JWT_ISSUER : option string;
  JWT_AUDIENCE : option string
}.

Record Config : Type := mkConfig {
  jwtSecret : option string;
  jwtExpiresIn : string;
  jwtIssuer : option string;
  jwtAudience : option string
}.

Definition config_of (env : ProcessEnv) : Config :=
  mkConfig (JWT_SECRET env)
           (or_else (JWT_EXPIRES_IN env) "1hr")
           (JWT_ISSUER env)
           (JWT_AUDIENCE env).

(* ------------------------------------------------------------------ *)
(** ** The jsonwebtoken package

    utils/jwt.ts delegates signing and verification to the npm package
    jsonwebtoken (version 9 in package.json).  This module is a model of
    the two entry points it calls, [jwt.sign] and [jwt.verify] with the
    options that utils/jwt.ts passes: the checks the package makes, in the
    order it makes them, and the class of the error each one throws.

    A token string is seen after [jwt.decode]: either it is the compact
    serialization of a header and a payload with a signature part, or it is
    some other string.  Of the header only [alg] is kept; of the payload the
    claims of the interface [JwtPayload] and the registered claims [nbf],
    [iss] and [aud] (a single audience).  The keyed hash and the timespan
    parser of the package [ms] are parameters. *)
Module Jsonwebtoken.

Record Payload : Type := mkPayload {
  userId : option string;
  username : option string;
  role : option string;
  iat : option Z;
  exp : option Z;
  nbf : option Z;
  iss : option string;
  aud : option string
}.

Record Jws : Type := mkJws {
  alg : string;
  payload : Payload;
  signature : string
}.

Inductive Token : Type :=
| NotJws (s : string)
| Compact (j : Jws).

(** [!token] is false for every string but the empty one. *)
Definition token_truthy (t : Token) : bool :=
  match t with
  | NotJws s => truthy s
  | Compact _ => true
  end.

Section Primitives.

(** HMAC with SHA-256 of the signing input (header and payload) under a
    key, base64url-encoded. *)
Variable hmacSHA256 : string -> string -> Payload -> string.

(** The package [ms]: the number of milliseconds a timespan string such
    as ["1hr"] or ["7d"] denotes, if it denotes one. *)
Variable ms : string -> option Z.

(** [jwt.sign(payload, secretOrPrivateKey,
              { expiresIn, issuer, audience, algorithm: "HS256" })]
    at the clock reading [now] (seconds).  The payload that
    generateToken passes has no [iat], [exp], [iss] or [aud] of its
    own. *)
Definition sign (userId username role : option string)
    (secretOrPrivateKey : option string)
    (expiresIn issuer audience : string) (now : Z) : outcome Token :=
  match secretOrPrivateKey with
  | Some key =>
      if negb (truthy key) then
        Throw (PlainError "secretOrPrivateKey must have a value")
      else if negb (truthy expiresIn) then
        Throw (PlainError
          "expiresIn should be a number of seconds or string representing a timespan")
      else
        match ms expiresIn with
        | None =>
            Throw (PlainError
              "expiresIn should be a number of seconds or string representing a timespan")
        | Some milliseconds =>
            let body :=
              mkPayload userId username role
                (Some now) (Some (now + milliseconds / 1000)) None
                (Some issuer) (Some audience) in
            Ok (Compact (mkJws "HS256" body (hmacSHA256 key "HS256" body)))
        end
  | None => Throw (PlainError "secretOrPrivateKey must have a value")
  end.

(** The checks on the claims, made once the signature has been
    accepted: not-before, expiry, audience, issuer, in this order. *)
Definition verify_claims (p : Payload) (issuer audience : string)
    (now : Z) : outcome Payload :=
  if match nbf p with Some n => now <? n | None => false end then
    Throw (NotBeforeError "jwt not active")
  else if match exp p with Some e => e <=? now | None => false end then
    Throw (TokenExpiredError "jwt expired")
  else if truthy audience && negb (opt_is (aud p) audience) then
    Throw (JsonWebTokenError "jwt audience invalid")
  else if truthy issuer && negb (opt_is (iss p) issuer) then
    Throw (JsonWebTokenError "jwt issuer invalid")
  else Ok p.

(** [jwt.verify(token, secretOrPublicKey,
                { algorithms: ["HS256"], issuer, audience })]
    at the clock reading [now] (seconds). *)
Definition verify (token : Token) (secretOrPublicKey : option string)
    (issuer audience : string) (now : Z) : outcome Payload :=
  match token with
  | NotJws s =>
      if truthy s then Throw (JsonWebTokenError "jwt malformed")
      else Throw (JsonWebTokenError "jwt must be provided")
  | Compact j =>
      let hasSignature := truthy (signature j) in
      let hasKey := truthy_opt secretOrPublicKey in
      if negb hasSignature && hasKey then
        Throw (JsonWebTokenError "jwt signature is required")
      else if hasSignature && negb hasKey then
        Throw (JsonWebTokenError "secret or public key must be provided")
      else if negb (String.eqb (alg j) "HS256") then
        Throw (JsonWebTokenError "invalid algorithm")
      else
        match secretOrPublicKey with
        | Some key =>
            if negb hasKey then
              Throw (TypeError "Cannot read properties of undefined")
            else if String.eqb (signature j)
                      (hmacSHA256 key (alg j) (payload j)) then
              verify_claims (payload j) issuer audience now
            else Throw (JsonWebTokenError "invalid signature")
        | None => Throw (TypeError "Cannot read properties of undefined")
        end
  end.

(** [jwt.decode(token)]: the payload without any check, or [null]. *)
Definition decode (token : Token) : option Payload :=
  match token with
  | NotJws _ => None
  | Compact j => Some (payload j)
  end.

End Primitives.

End Jsonwebtoken.

(* ------------------------------------------------------------------ *)
(** ** utils/jwt.ts *)

Module JwtUtils.

Import Jsonwebtoken.

(** [interface JwtPayload]. *)
Record JwtPayload : Type := mkJwtPayload {
  userId : option string;
  username : option string;
  role : option string;
  iat : option Z;
  exp : option Z
}.

(** [Omit<JwtPayload, "iat" | "exp">], the argument of generateToken. *)
Record Claims : Type := mkClaims {
  claim_userId : option string;
  claim_username : option string;
  claim_role : option string
}.

Definition claims_of (p : JwtPayload) : Claims :=
  mkClaims (userId p) (username p) (role p).

(** [interface TokenOptions]. *)
Record TokenOptions : Type := mkTokenOptions {
  expiresIn : option string;
  issuer : option string;
  audience : option string
}.

(** The default argument [{}]. *)
Definition no_options : TokenOptions := mkTokenOptions None None None.

(** The cast [as JwtPayload]: the decoded payload read at the interface,
    whose fields are the only ones the callers of verifyToken read (the
    registered claims [nbf], [iss] and [aud] of the decoded object are not
    fields of [JwtPayload]). *)
Definition as_JwtPayload (p : Payload) : JwtPayload :=
  mkJwtPayload (Jsonwebtoken.userId p) (Jsonwebtoken.username p)
    (Jsonwebtoken.role p) (Jsonwebtoken.iat p) (Jsonwebtoken.exp p).

Section WithConfig.

Variable hmacSHA256 : string -> string -> Payload -> string.
Variable ms : string -> option Z.
Variable config : Config.

(** [private static readonly defaultOptions]. *)
Definition default_expiresIn : string :=
  or_else (Some (jwtExpiresIn config)) "7d".
Definition default_issuer : string :=
  or_else (jwtIssuer config) "your-app-name".
Definition default_audience : string :=
  or_else (jwtAudience config) "your-app-client".

(** A field of [{ ...this.defaultOptions, ...options }]. *)
Definition merged (option_field : option string) (default : string)
    : string :=
  match option_field with
  | Some v => v
  | None => default
  end.

Definition generateToken (payload : Claims) (options : TokenOptions)
    (now : Z) : M Token :=
  try_catch
    (lift (sign hmacSHA256 ms
             (claim_userId payload) (claim_username payload)
             (claim_role payload)
             (jwtSecret config)
             (merged (expiresIn options) default_expiresIn)
             (merged (issuer options) default_issuer)
             (merged (audience options) default_audience)
             now))
    (fun _ =>
       logger error "Error generating JWT token" ;;;
       throw (PlainError "Failed to generate authentication token")).

Definition verifyToken (token : Token) (now : Z) : M JwtPayload :=
  try_catch
    (if negb (token_truthy token) then
       throw (PlainError "No token provided")
     else
       p <- lift (verify hmacSHA256 token (jwtSecret config)
                    default_issuer default_audience now) ;;
       ret (as_JwtPayload p))
    (fun e =>
       logger error "JWT verification failed" ;;;
       if instanceof_TokenExpiredError e then
         throw (PlainError "Authentication token expired")
       else if instanceof_JsonWebTokenError e then
         throw (PlainError "Invalid authentication token")
       else throw (PlainError "Authentication verification failed")).

Definition decodeToken (token : Token) : M (option JwtPayload) :=
  ret (option_map as_JwtPayload (decode token)).

Definition refreshToken (token : Token) (newExpiry : option string)
    (now : Z) : M Token :=
  try_catch
    (payload <- verifyToken token now ;;
     generateToken
       (mkClaims (userId payload) (username payload) (role payload))
       (mkTokenOptions (Some (or_else newExpiry default_expiresIn))
          None None)
       now)
    (fun _ =>
       logger error "Token refresh failed" ;;;
       throw (PlainError "Failed to refresh token")).

(** The signature part of a token is one that [jwt.verify] accepts
    under the configured secret: a key is configured, the header names
    HS256, and the signature part is the (non-empty) keyed hash of
    header and payload. *)
Definition signature_accepted (j : Jws) : bool :=
  match jwtSecret config with
  | Some key =>
      truthy key && truthy (signature j) && String.eqb (alg j) "HS256"
      && String.eqb (signature j) (hmacSHA256 key (alg j) (payload j))
  | None => false
  end.

End WithConfig.

End JwtUtils.

(* ------------------------------------------------------------------ *)
(** ** The Prisma client over the tables of schema.prisma

    The operations that the services call, with the constraints that the
    schema declares: primary keys, the two [@@unique([userId, postId])]
    constraints, the foreign keys of the relations, and the referential
    action [onDelete: SetNull] of the relation CommentReplies.  The values
    of [@default(uuid())], [@default(now())] and [@updatedAt] come from
    the [Generated] argument of the call. *)

Record Generated : Type := mkGenerated {
  uuid : string;
  now : Z
}.

Definition with_comments (d : Db) (cs : list Comment) : Db :=
  mkDb (users d) (posts d) cs (likes d) (ratings d).

Definition with_likes (d : Db) (ls : list Like) : Db :=
  mkDb (users d) (posts d) (comments d) ls (ratings d).

Definition with_ratings (d : Db) (rs : list Rating) : Db :=
  mkDb (users d) (posts d) (comments d) (likes d) rs.

Module Prisma.

Definition uniqueConstraintFailed (constraint : string) : Exn :=
  PrismaClientKnownRequestError "P2002"
    ("Unique constraint failed on the constraint: `" ++ constraint ++ "`").

Definition foreignKeyFailed (field : string) : Exn :=
  PrismaClientKnownRequestError "P2003"
    ("Foreign key constraint failed on the field: `" ++ field ++ "`").

Definition recordNotFound (cause : string) : Exn :=
  PrismaClientKnownRequestError "P2025"
    ("An operation failed because it depends on one or more records that were required but not found. "
     ++ cause).

Definition user_exists (d : Db) (userId : string) : bool :=
  existsb (fun u => String.eqb (user_id u) userId) (users d).

Definition post_exists (d : Db) (postId : string) : bool :=
  existsb (fun p => String.eqb (post_id p) postId) (posts d).

Definition comment_exists (d : Db) (commentId : string) : bool :=
  existsb (fun c => String.eqb (comment_id c) commentId) (comments d).

(** The comment table after the rows selected by [gone] have been deleted
    by a cascade: they are removed, and [onDelete: SetNull] clears the
    parent reference of every remaining reply to one of them. *)
Definition cascade_comments (gone : Comment -> bool) (cs : list Comment)
    : list Comment :=
  let deleted := map comment_id (filter gone cs) in
  map (fun c =>
         if match comment_parentId c with
            | Some parent => existsb (String.eqb parent) deleted
            | None => false
            end
         then mkComment (comment_id c) (comment_userId c) (comment_postId c)
                (comment_content c) None
                (comment_createdAt c) (comment_updatedAt c)
         else c)
    (filter (fun c => negb (gone c)) cs).

Module user.
(** [findUnique({ where: { id },
                  select: { id, username, email, role } })]. *)
Definition findUnique (userId : string) : M (option User) :=
  d <- get_db ;;
  ret (option_map
         (fun u => mkCtxUser (user_id u) (user_username u)
                     (user_email u) (role_string (user_role u)))
         (find (fun u => String.eqb (user_id u) userId) (users d))).

(** [findMany()]: the rows of the table. *)
Definition findMany : M (list UserRow) :=
  d <- get_db ;;
  ret (users d).

(** [delete({ where: { id } })], with the cascades of the schema: the
    posts of the user, the comments, likes and ratings of the user and of
    those posts ([onDelete: Cascade]), and the parent references to the
    deleted comments ([onDelete: SetNull]). *)
Definition delete (userId : string) : M UserRow :=
  d <- get_db ;;
  match find (fun u => String.eqb (user_id u) userId) (users d) with
  | None => throw (recordNotFound "Record to delete does not exist.")
  | Some u =>
      let gone_post := fun p => String.eqb (post_userId p) userId in
      let gone_posts := map post_id (filter gone_post (posts d)) in
      let gone := fun owner postId =>
        String.eqb owner userId || existsb (String.eqb postId) gone_posts in
      put_db
        (mkDb
           (filter (fun u' => negb (String.eqb (user_id u') userId)) (users d))
           (filter (fun p => negb (gone_post p)) (posts d))
           (cascade_comments
              (fun c => gone (comment_userId c) (comment_postId c))
              (comments d))
           (filter (fun l => negb (gone (like_userId l) (like_postId l)))
              (likes d))
           (filter (fun r => negb (gone (rating_userId r) (rating_postId r)))
              (ratings d))) ;;;
      ret u
  end.
End user.

Module post.
(** [findUnique({ where: { id } })]. *)
Definition findUnique (postId : string) : M (option PostRow) :=
  d <- get_db ;;
  ret (find (fun p => String.eqb (post_id p) postId) (posts d)).

(** [delete({ where: { id } })], with the cascades of the schema: the
    comments, likes and ratings of the post ([onDelete: Cascade]) and the
    parent references to the deleted comments ([onDelete: SetNull]). *)
Definition delete (postId : string) : M PostRow :=
  d <- get_db ;;
  match find (fun p => String.eqb (post_id p) postId) (posts d) with
  | None => throw (recordNotFound "Record to delete does not exist.")
  | Some p =>
      put_db
        (mkDb
           (users d)
           (filter (fun p' => negb (String.eqb (post_id p') postId)) (posts d))
           (cascade_comments
              (fun c => String.eqb (comment_postId c) postId) (comments d))
           (filter (fun l => negb (String.eqb (like_postId l) postId))
              (likes d))
           (filter (fun r => negb (String.eqb (rating_postId r) postId))
              (ratings d))) ;;;
      ret p
  end.
End post.

Module like.
Definition matches (userId postId : string) (l : Like) : bool :=
  String.eqb (like_userId l) userId && String.eqb (like_postId l) postId.

(** [findFirst({ where: { userId, postId } })]. *)
Definition findFirst (userId postId : string) : M (option Like) :=
  d <- get_db ;;
  ret (find (matches userId postId) (likes d)).

(** The row that [create] inserts: the data and the generated columns. *)
Definition new_row (g : Generated) (userId postId : string) : Like :=
  mkLike (uuid g) userId postId (now g).

(** [create({ data: { userId, postId } })]. *)
Definition create (g : Generated) (userId postId : string) : M Like :=
  d <- get_db ;;
  if existsb (fun l => String.eqb (like_id l) (uuid g)) (likes d) then
    throw (uniqueConstraintFailed "PRIMARY")
  else if existsb (matches userId postId) (likes d) then
    throw (uniqueConstraintFailed "Like_userId_postId_key")
  else if negb (user_exists d userId) then
    throw (foreignKeyFailed "userId")
  else if negb (post_exists d postId) then
    throw (foreignKeyFailed "postId")
  else
    let l := new_row g userId postId in
    put_db (with_likes d (likes d ++ [l])) ;;;
    ret l.

(** [delete({ where: { id } })]. *)
Definition delete (likeId : string) : M Like :=
  d <- get_db ;;
  match find (fun l => String.eqb (like_id l) likeId) (likes d) with
  | None => throw (recordNotFound "Record to delete does not exist.")
  | Some l =>
      put_db (with_likes d
                (filter (fun l' => negb (String.eqb (like_id l') likeId))
                   (likes d))) ;;;
      ret l
  end.

(** [count({ where: { postId } })]. *)
Definition count (postId : string) : M nat :=
  d <- get_db ;;
  ret (length (filter (fun l => String.eqb (like_postId l) postId) (likes d))).
End like.

Module rating.
Definition matches (userId postId : string) (r : Rating) : bool :=
  String.eqb (rating_userId r) userId
  && String.eqb (rating_postId r) postId.

Definition set_value (value updatedAt : Z) (r : Rating) : Rating :=
  mkRating (rating_id r) (rating_userId r) (rating_postId r)
    value (rating_createdAt r) updatedAt.

(** The table after [data] has been written to the rows selected by
    [where: { id }]. *)
Definition updated_rows (ratingId : string) (value updatedAt : Z)
    (rs : list Rating) : list Rating :=
  map (fun r' =>
         if String.eqb (rating_id r') ratingId
         then set_value value updatedAt r' else r')
    rs.

(** [findFirst({ where: { userId, postId } })]. *)
Definition findFirst (userId postId : string) : M (option Rating) :=
  d <- get_db ;;
  ret (find (matches userId postId) (ratings d)).

(** [update({ where: { id }, data: { value } })]. *)
Definition update (g : Generated) (ratingId : string) (value : Z)
    : M Rating :=
  d <- get_db ;;
  match find (fun r => String.eqb (rating_id r) ratingId) (ratings d) with
  | None => throw (recordNotFound "Record to update not found.")
  | Some r =>
      put_db (with_ratings d
                (updated_rows ratingId value (now g) (ratings d))) ;;;
      ret (set_value value (now g) r)
  end.

(** The row that [create] inserts: the data and the generated columns. *)
Definition new_row (g : Generated) (userId postId : string) (value : Z)
    : Rating :=
  mkRating (uuid g) userId postId value (now g) (now g).

(** [create({ data: { userId, postId, value } })]. *)
Definition create (g : Generated) (userId postId : string) (value : Z)
    : M Rating :=
  d <- get_db ;;
  if existsb (fun r => String.eqb (rating_id r) (uuid g)) (ratings d) then
    throw (uniqueConstraintFailed "PRIMARY")
  else if existsb (matches userId postId) (ratings d) then
    throw (uniqueConstraintFailed "Rating_userId_postId_key")
  else if negb (user_exists d userId) then
    throw (foreignKeyFailed "userId")
  else if negb (post_exists d postId) then
    throw (foreignKeyFailed "postId")
  else
    let r := new_row g userId postId value in
    put_db (with_ratings d (ratings d ++ [r])) ;;;
    ret r.
End rating.

Module comment.
(** [findUnique({ where: { id } })]. *)
Definition findUnique (commentId : string) : M (option Comment) :=
  d <- get_db ;;
  ret (find (fun c => String.eqb (comment_id c) commentId) (comments d)).

(** The row that [create] inserts: the data and the generated columns. *)
Definition new_row (g : Generated) (userId postId content : string)
    (parentId : option string) : Comment :=
  mkComment (uuid g) userId postId content parentId (now g) (now g).

(** [create({ data: { userId, postId, content, parentId } })]. *)
Definition create (g : Generated) (userId postId content : string)
    (parentId : option string) : M Comment :=
  d <- get_db ;;
  if comment_exists d (uuid g) then
    throw (uniqueConstraintFailed "PRIMARY")
  else if negb (user_exists d userId) then
    throw (foreignKeyFailed "userId")
  else if negb (post_exists d postId) then
    throw (foreignKeyFailed "postId")
  else if match parentId with
          | Some parent => negb (comment_exists d parent)
          | None => false
          end then
    throw (foreignKeyFailed "parentId")
  else
    let c := new_row g userId postId content parentId in
    put_db (with_comments d (comments d ++ [c])) ;;;
    ret c.

(** [onDelete: SetNull] on a row that may reference the deleted one. *)
Definition set_null (deletedId : string) (c : Comment) : Comment :=
  if opt_is (comment_parentId c) deletedId then
    mkComment (comment_id c) (comment_userId c) (comment_postId c)
      (comment_content c) None (comment_createdAt c) (comment_updatedAt c)
  else c.

(** [delete({ where: { id } })]. *)
Definition delete (commentId : string) : M Comment :=
  d <- get_db ;;
  match find (fun c => String.eqb (comment_id c) commentId)
          (comments d) with
  | None => throw (recordNotFound "Record to delete does not exist.")
  | Some c =>
      put_db (with_comments d
                (map (set_null commentId)
                   (filter
                      (fun c' => negb (String.eqb (comment_id c') commentId))
                      (comments d)))) ;;;
      ret c
  end.

(** [count({ where: { parentId } })]. *)
Definition count (parentId : string) : M nat :=
  d <- get_db ;;
  ret (length (filter (fun c => opt_is (comment_parentId c) parentId)
                 (comments d))).

Definition set_content (content : string) (updatedAt : Z) (c : Comment)
    : Comment :=
  mkComment (comment_id c) (comment_userId c) (comment_postId c)
    content (comment_parentId c) (comment_createdAt c) updatedAt.

(** [update({ where: { id }, data: { content } })]. *)
Definition update (g : Generated) (commentId content : string) : M Comment :=
  d <- get_db ;;
  match find (fun c => String.eqb (comment_id c) commentId) (comments d) with
  | None => throw (recordNotFound "Record to update not found.")
  | Some c =>
      put_db (with_comments d
                (map (fun c' =>
                        if String.eqb (comment_id c') commentId
                        then set_content content (now g) c' else c')
                   (comments d))) ;;;
      ret (set_content content (now g) c)
  end.
End comment.

End Prisma.

(* ------------------------------------------------------------------ *)
(** ** graphql/services/like.service.ts *)

Module LikeService.

Definition likePost (g : Generated) (postId userId : string) : M Like :=
  post <- Prisma.post.findUnique postId ;;
  match post with
  | None => throw (GraphQLErr "Post not found" ErrorCodes.NOT_FOUND)
  | Some _ =>
      existingLike <- Prisma.like.findFirst userId postId ;;
      match existingLike with
      | Some l => ret l
      | None =>
          like <- Prisma.like.create g userId postId ;;
          logger info ("Post liked: " ++ postId ++ " by user: " ++ userId) ;;;
          ret like
      end
  end.

Definition unlikePost (postId userId : string) : M bool :=
  like <- Prisma.like.findFirst userId postId ;;
  match like with
  | None => throw (GraphQLErr "Like not found" ErrorCodes.NOT_FOUND)
  | Some l =>
      Prisma.like.delete (like_id l) ;;;
      logger info ("Post unliked: " ++ postId ++ " by user: " ++ userId) ;;;
      ret true
  end.

End LikeService.

(* ------------------------------------------------------------------ *)
(** ** graphql/services/rating.service.ts *)

Module RatingService.

(** The decimal digit of a validated rating value, for the log line. *)
Definition show_value (value : Z) : string :=
  match value with
  | 1 => "1" | 2 => "2" | 3 => "3" | 4 => "4" | 5 => "5"
  | _ => "?"
  end.

Definition ratePost (g : Generated) (postId userId : string) (value : Z)
    : M Rating :=
  if (value <? 1) || (5 <? value) then
    throw (GraphQLErr "Rating must be between 1 and 5"
             ErrorCodes.BAD_USER_INPUT)
  else
    post <- Prisma.post.findUnique postId ;;
    match post with
    | None => throw (GraphQLErr "Post not found" ErrorCodes.NOT_FOUND)
    | Some _ =>
        existingRating <- Prisma.rating.findFirst userId postId ;;
        match existingRating with
        | Some existing =>
            updatedRating <-
              Prisma.rating.update g (rating_id existing) value ;;
            logger info ("Rating updated for post: " ++ postId
                         ++ " by user: " ++ userId
                         ++ ", value: " ++ show_value value) ;;;
            ret updatedRating
        | None =>
            rating <- Prisma.rating.create g userId postId value ;;
            logger info ("Post rated: " ++ postId ++ " by user: " ++ userId
                         ++ ", value: " ++ show_value value) ;;;
            ret rating
        end
    end.

End RatingService.

(* ------------------------------------------------------------------ *)
(** ** graphql/services/comment.service.ts *)

Module CommentService.

(** The [input] argument of createComment. *)
Record CreateCommentInput : Type := mkCreateCommentInput {
  postId : string;
  content : string;
  parentId : option string
}.

Definition createComment (g : Generated) (input : CreateCommentInput)
    (userId : string) : M Comment :=
  post <- Prisma.post.findUnique (postId input) ;;
  match post with
  | None => throw (GraphQLErr "Post not found" ErrorCodes.NOT_FOUND)
  | Some _ =>
      (if truthy_opt (parentId input) then
         parentComment <-
           Prisma.comment.findUnique
             (match parentId input with Some p => p | None => "" end) ;;
         match parentComment with
         | None =>
             throw (GraphQLErr "Parent comment not found"
                      ErrorCodes.NOT_FOUND)
         | Some parent =>
             if negb (String.eqb (comment_postId parent) (postId input))
             then throw (GraphQLErr
                           "Parent comment does not belong to this post"
                           ErrorCodes.BAD_USER_INPUT)
             else ret tt
         end
       else ret tt) ;;;
      comment <-
        Prisma.comment.create g userId (postId input) (content input)
          (parentId input) ;;
      logger info ("Comment created: " ++ comment_id comment
                   ++ " by user: " ++ userId) ;;;
      ret comment
  end.

Definition deleteComment (commentId userId userRole : string) : M bool :=
  comment <- Prisma.comment.findUnique commentId ;;
  match comment with
  | None => throw (GraphQLErr "Comment not found" ErrorCodes.NOT_FOUND)
  | Some c =>
      AuthMiddleware.authorize userId (comment_userId c) (Some userRole) ;;;
      Prisma.comment.delete commentId ;;;
      logger info ("Comment deleted: " ++ commentId
                   ++ " by user: " ++ userId) ;;;
      ret true
  end.


Definition getCommentById (commentId : string) : M (option Comment) :=
  Prisma.comment.findUnique commentId.

(** [input] is the [UpdateCommentInput] of the schema, whose only field
    is [content]. *)
Definition updateComment (g : Generated) (commentId content userId
    userRole : string) : M Comment :=
  comment <- Prisma.comment.findUnique commentId ;;
  match comment with
  | None => throw (GraphQLErr "Comment not found" ErrorCodes.NOT_FOUND)
  | Some c =>
      AuthMiddleware.authorize userId (comment_userId c) (Some userRole) ;;;
      updatedComment <- Prisma.comment.update g commentId content ;;
      logger info ("Comment updated: " ++ commentId
                   ++ " by user: " ++ userId) ;;;
      ret updatedComment
  end.

(** [parentId] is [string | null]. *)
Definition getParentComment (parent : option string) : M (option Comment) :=
  if negb (truthy_opt parent) then ret None
  else Prisma.comment.findUnique
         (match parent with Some p => p | None => "" end).

Definition getNestedCommentCount (commentId : string) : M nat :=
  Prisma.comment.count commentId.
End CommentService.

(* ------------------------------------------------------------------ *)
(** ** graphql/services/post.service.ts *)

Module PostService.

Definition getPostById (postId : string) : M PostRow :=
  post <- Prisma.post.findUnique postId ;;
  match post with
  | None => throw (GraphQLErr "Post not found" ErrorCodes.NOT_FOUND)
  | Some p => ret p
  end.

Definition deletePost (postId userId userRole : string) : M bool :=
  post <- Prisma.post.findUnique postId ;;
  match post with
  | None => throw (GraphQLErr "Post not found" ErrorCodes.NOT_FOUND)
  | Some p =>
      AuthMiddleware.authorize userId (post_userId p) (Some userRole) ;;;
      Prisma.post.delete postId ;;;
      logger info ("Post deleted: " ++ postId ++ " by user: " ++ userId) ;;;
      ret true
  end.

Definition getLikesCountForPost (postId : string) : M nat :=
  Prisma.like.count postId.

End PostService.

(* ------------------------------------------------------------------ *)
(** ** graphql/services/user.service.ts *)

Module UserService.

Definition getAllUsers (requesterRole : string) : M (list UserRow) :=
  if negb (String.eqb requesterRole "ADMIN") then
    throw (GraphQLErr "Not authorized" ErrorCodes.UNAUTHORIZED)
  else Prisma.user.findMany.

Definition deleteUser (userId : string) : M bool :=
  Prisma.user.delete userId ;;;
  logger info ("User deleted: " ++ userId) ;;;
  ret true.

End UserService.

(* ------------------------------------------------------------------ *)
(** ** graphql/resolvers: the mutations and the admin query

    Each resolver gets the arguments of the operation and the context of
    the request; the parent argument is unused. *)

Module Resolvers.

Definition likePost (g : Generated) (postId : string) (context : Context)
    : M Like :=
  user <- AuthMiddleware.authenticate context ;;
  LikeService.likePost g postId (id user).

Definition unlikePost (postId : string) (context : Context) : M bool :=
  user <- AuthMiddleware.authenticate context ;;
  LikeService.unlikePost postId (id user).

(** [input] is the [RatePostInput] of the schema. *)
Definition ratePost (g : Generated) (postId : string) (value : Z)
    (context : Context) : M Rating :=
  user <- AuthMiddleware.authenticate context ;;
  RatingService.ratePost g postId (id user) value.

Definition createComment (g : Generated)
    (input : CommentService.CreateCommentInput) (context : Context)
    : M Comment :=
  user <- AuthMiddleware.authenticate context ;;
  CommentService.createComment g input (id user).

Definition updateComment (g : Generated) (commentId content : string)
    (context : Context) : M Comment :=
  user <- AuthMiddleware.authenticate context ;;
  CommentService.updateComment g commentId content (id user) (role user).

Definition deleteComment (commentId : string) (context : Context) : M bool :=
  user <- AuthMiddleware.authenticate context ;;
  CommentService.deleteComment commentId (id user) (role user).

Definition deletePost (postId : string) (context : Context) : M bool :=
  user <- AuthMiddleware.authenticate context ;;
  PostService.deletePost postId (id user) (role user).

Definition deleteUser (context : Context) : M bool :=
  user <- AuthMiddleware.authenticate context ;;
  UserService.deleteUser (id user).

Definition users (context : Context) : M (list UserRow) :=
  user <- AuthMiddleware.authenticate context ;;
  UserService.getAllUsers (role user).

End Resolvers.

(* ------------------------------------------------------------------ *)
(** ** index.ts: the context builder of startServer *)

Module Server.

Import Jsonwebtoken.

(** The headers of the request that the builder reads.  The
    authorization header is given as its pieces between spaces
    ([split(" ")]), each piece seen as [jwt.decode] sees it. *)
Record Headers : Type := mkHeaders {
  authorization : option (list Token);
  x_request_id : option string
}.

(** [req.headers.authorization?.split(" ")[1] || ""]. *)
Definition bearer (h : Headers) : Token :=
  match authorization h with
  | Some pieces =>
      match nth_error pieces 1 with
      | Some t => if token_truthy t then t else NotJws ""
      | None => NotJws ""
      end
  | None => NotJws ""
  end.

Section WithConfig.

Variable hmacSHA256 : string -> string -> Payload -> string.
Variable config : Config.

(** [randomUUID] is the value [crypto.randomUUID()] would return,
    [clock] the reading of the clock in seconds. *)
Definition context (h : Headers) (randomUUID : string) (clock : Z)
    : M Context :=
  let token := bearer h in
  user <-
    (if token_truthy token then
       try_catch
         (decoded <- JwtUtils.verifyToken hmacSHA256 config token clock ;;
          if negb (truthy_opt (JwtUtils.userId decoded)) then
            throw (PlainError "Invalid token payload")
          else
            user <-
              Prisma.user.findUnique
                (match JwtUtils.userId decoded with
                 | Some u => u
                 | None => ""
                 end) ;;
            match user with
            | None =>
                logger warn "User not found for valid token" ;;;
                ret None
            | Some u => ret (Some u)
            end)
         (fun _ =>
            logger warn "Invalid authentication token" ;;;
            ret None)
     else ret None) ;;
  ret (mkContext user (or_else (x_request_id h) randomUUID)).

End WithConfig.

End Server.

(* ------------------------------------------------------------------ *)
(** ** The uniqueness constraints of the schema, as predicates *)

(** The number of stored likes of a user on a post. *)
Definition like_count (userId postId : string) (d : Db) : nat :=
  length (filter (Prisma.like.matches userId postId) (likes d)).

(** [@@unique([userId, postId])] on Like. *)
Definition likes_unique (d : Db) : Prop :=
  forall userId postId, (like_count userId postId d <= 1)%nat.

(** The number of stored ratings of a user on a post. *)
Definition rating_count (userId postId : string) (d : Db) : nat :=
  length (filter (Prisma.rating.matches userId postId) (ratings d)).

(** [@@unique([userId, postId])] on Rating. *)
Definition ratings_unique (d : Db) : Prop :=
  forall userId postId, (rating_count userId postId d <= 1)%nat.

(** The stored like, or rating, of a user on a post, if there is one. *)
Definition stored_like (userId postId : string) (d : Db) : option Like :=
  find (Prisma.like.matches userId postId) (likes d).

Definition stored_rating (userId postId : string) (d : Db) : option Rating :=
  find (Prisma.rating.matches userId postId) (ratings d).

(** The parent reference of a comment request passes the checks of
    createComment: it is absent, or it is the non-empty id of a stored
    comment of the target post. *)
Definition parent_admissible (input : CommentService.CreateCommentInput)
    (d : Db) : Prop :=
  match CommentService.parentId input with
  | None => True
  | Some parent =>
      parent <> ""
      /\ exists parentComment,
           find (fun c => String.eqb (comment_id c) parent) (comments d)
           = Some parentComment
           /\ comment_postId parentComment = CommentService.postId input
  end.

(** A stored comment as it is after the comment it replied to has been
    deleted: the same row without the parent reference. *)
Definition orphaned (c : Comment) : Comment :=
  mkComment (comment_id c) (comment_userId c) (comment_postId c)
    (comment_content c) None (comment_createdAt c) (comment_updatedAt c).

(* ------------------------------------------------------------------ *)
(** ** Further constraints of the schema, as predicates *)


Definition rating_ids_unique (d : Db) : Prop :=
  NoDup (map rating_id (ratings d)).

(** Every stored rating has a value from 1 to 5 (the comment on the
    column [value] of the schema). *)
Definition ratings_in_range (d : Db) : Prop :=
  forall r, In r (ratings d) -> 1 <= rating_value r <= 5.

(** [@id] on Comment. *)
Definition comment_ids_unique (d : Db) : Prop :=
  NoDup (map comment_id (comments d)).

(** Every parent reference names a stored comment of the same post. *)
Definition comment_parents_ok (d : Db) : Prop :=
  forall c parent,
    In c (comments d) -> comment_parentId c = Some parent ->
    exists parentComment,
      In parentComment (comments d)
      /\ comment_id parentComment = parent
      /\ comment_postId parentComment = comment_postId c.

(** The parent references have no cycle: the comments can be ranked so
    that every parent ranks below its replies. *)
Definition comments_acyclic (d : Db) : Prop :=
  exists rank : string -> nat,
    forall c parent,
      In c (comments d) -> comment_parentId c = Some parent ->
      (rank parent < rank (comment_id c))%nat.

(** The foreign keys towards Post: every comment, like and rating is on a
    stored post. *)
Definition post_references_ok (d : Db) : Prop :=
  (forall c, In c (comments d) ->
     Prisma.post_exists d (comment_postId c) = true)
  /\ (forall l, In l (likes d) -> Prisma.post_exists d (like_postId l) = true)
  /\ (forall r, In r (ratings d) ->
        Prisma.post_exists d (rating_postId r) = true).

(** The number of replies to a comment, and of likes of a post. *)
Definition reply_count (commentId : string) (d : Db) : nat :=
  length (filter (fun c => opt_is (comment_parentId c) commentId)
            (comments d)).


(* ------------------------------------------------------------------ *)
(** ** Sample data of the worked examples *)

Module Sample.

(** A stand-in for the keyed hash: it separates keys, algorithms and
    subjects, which is all the examples need. *)
Definition hmac (key alg : string) (p : Jsonwebtoken.Payload) : string :=
  "hs256:" ++ key ++ ":" ++ alg ++ ":"
  ++ match Jsonwebtoken.userId p with Some u => u | None => "" end.

(** The two timespans that the sources name. *)
Definition ms (s : string) : option Z :=
  if String.eqb s "1hr" then Some 3600000
  else if String.eqb s "7d" then Some 604800000
  else None.

(** [JWT_SECRET] set, the other variables unset. *)
Definition config : Config :=
  config_of (mkProcessEnv (Some "s3cret") None None None).

Definition empty_world : World := mkWorld (mkDb [] [] [] [] []) [].

Definition alice_claims : JwtUtils.Claims :=
  JwtUtils.mkClaims (Some "u-alice") (Some "alice") (Some "USER").

(** A token for alice issued at 0 that expired at 1000, with the
    signature the configured secret gives. *)
Definition expired_payload : Jsonwebtoken.Payload :=
  Jsonwebtoken.mkPayload (Some "u-alice") (Some "alice") (Some "USER")
    (Some 0) (Some 1000) None
    (Some "your-app-name") (Some "your-app-client").

Definition expired_signed : Jsonwebtoken.Token :=
  Jsonwebtoken.Compact
    (Jsonwebtoken.mkJws "HS256" expired_payload
       (hmac "s3cret" "HS256" expired_payload)).

(** The same header and payload with a signature part that is not the
    keyed hash. *)
Definition expired_forged : Jsonwebtoken.Token :=
  Jsonwebtoken.Compact
    (Jsonwebtoken.mkJws "HS256" expired_payload "forged").

(** Two users, one of them an administrator, two posts, and a comment
    thread on the first post: a root, two replies to it and a reply to
    the first reply. *)
Definition alice : UserRow := mkUser "u-alice" "alice" "alice@example.com" USER.
Definition bob : UserRow := mkUser "u-bob" "bob" "bob@example.com" USER.
Definition carol : UserRow := mkUser "u-carol" "carol" "carol@example.com" ADMIN.

Definition root_comment : Comment :=
  mkComment "c-root" "u-alice" "p-1" "first" None 10 10.
Definition reply_one : Comment :=
  mkComment "c-r1" "u-bob" "p-1" "reply one" (Some "c-root") 11 11.
Definition reply_two : Comment :=
  mkComment "c-r2" "u-carol" "p-1" "reply two" (Some "c-root") 12 13.
Definition nested_reply : Comment :=
  mkComment "c-r1a" "u-alice" "p-1" "nested" (Some "c-r1") 14 14.

(** A token with an accepted signature, valid until 5000, whose subject
    is not (or no longer) a stored user; and one without a subject. *)
Definition dave_payload : Jsonwebtoken.Payload :=
  Jsonwebtoken.mkPayload (Some "u-dave") (Some "dave") (Some "USER")
    (Some 0) (Some 5000) None
    (Some "your-app-name") (Some "your-app-client").

Definition dave_token : Jsonwebtoken.Token :=
  Jsonwebtoken.Compact
    (Jsonwebtoken.mkJws "HS256" dave_payload
       (hmac "s3cret" "HS256" dave_payload)).

Definition bob_payload : Jsonwebtoken.Payload :=
  Jsonwebtoken.mkPayload (Some "u-bob") (Some "bob") (Some "USER")
    (Some 0) (Some 5000) None
    (Some "your-app-name") (Some "your-app-client").

Definition bob_token : Jsonwebtoken.Token :=
  Jsonwebtoken.Compact
    (Jsonwebtoken.mkJws "HS256" bob_payload
       (hmac "s3cret" "HS256" bob_payload)).

Definition bearer_header (t : Jsonwebtoken.Token) : Server.Headers :=
  Server.mkHeaders (Some [Jsonwebtoken.NotJws "Bearer"; t]) None.

Definition database : Db :=
  mkDb [alice; bob; carol]
       [mkPost "p-1" "u-alice"; mkPost "p-2" "u-bob"]
       [root_comment; reply_one; reply_two; nested_reply]
       [mkLike "l-1" "u-bob" "p-1" 20]
       [mkRating "r-1" "u-bob" "p-1" 3 21 21].

Definition world : World := mkWorld database [].

End Sample.

(* ================================================================== *)
(** * Properties *)

(** ** Authorization policy *)

(** C1. [authorize(u, v, r)] succeeds exactly when [u = v] or [r] is
    ["ADMIN"]; in every other case it throws the error whose code is
    [UNAUTHORIZED]; and whatever the outcome, the world (database and log)
    after the call is the world before it. *)
Theorem authorize_decision :
  forall (u v : string) (r : option string) (w : World),
    (result_of (AuthMiddleware.authorize u v r w) = Ok tt
       <-> (u = v \/ r = Some "ADMIN"))
    /\ (~ (u = v \/ r = Some "ADMIN") ->
        result_of (AuthMiddleware.authorize u v r w)
        = Throw (GraphQLErr "Not authorized" ErrorCodes.UNAUTHORIZED))
    /\ world_of (AuthMiddleware.authorize u v r w) = w.
Proof.
  intros u v r w. unfold AuthMiddleware.authorize, opt_is.
  destruct (String.eqb_spec u v) as [Huv | Huv].
  - cbn. repeat split; auto. intros H; exfalso; apply H; now left.
  - destruct r as [s |].
    + destruct (String.eqb_spec s "ADMIN") as [Hs | Hs]; cbn.
      * subst s. repeat split; auto.
        intros H; exfalso; apply H; now right.
      * repeat split; auto; try discriminate.
        intros [H | H]; [contradiction | congruence].
    + cbn. repeat split; auto; try discriminate.
      intros [H | H]; [contradiction | discriminate].
Qed.

(** bob may not act on a resource of alice; carol, an administrator, may;
    alice may act on her own. *)
Lemma authorize_decision_witness :
  result_of (AuthMiddleware.authorize "u-bob" "u-alice" (Some "USER")
               Sample.world)
  = Throw (GraphQLErr "Not authorized" "UNAUTHORIZED")
  /\ result_of (AuthMiddleware.authorize "u-carol" "u-alice" (Some "ADMIN")
                  Sample.world) = Ok tt
  /\ result_of (AuthMiddleware.authorize "u-alice" "u-alice" None
                  Sample.world) = Ok tt.
Proof.
  split; [| split].
  - apply (proj1 (proj2 (authorize_decision "u-bob" "u-alice" (Some "USER")
                           Sample.world))).
    intros [H | H]; discriminate H.
  - apply (proj2 (proj1 (authorize_decision "u-carol" "u-alice"
                           (Some "ADMIN") Sample.world))).
    right. reflexivity.
  - apply (proj2 (proj1 (authorize_decision "u-alice" "u-alice" None
                           Sample.world))).
    left. reflexivity.
Defined.

(** ** Error classifier *)

Section Classifier.

Import ErrorHandler.

(** The fallback branch: an unrecognized failure yields the fixed
    [internalServerError], and the only effect is one log line. *)
Lemma handle_unrecognized (x : Unknown) (w : World) :
  recognized x = false ->
  handle x w
  = (Ok internalServerError,
     mkWorld (db w)
       ((if isPrismaKnownRequestError x
         then log w ++ [(error, "Database error")]
         else log w) ++ [(error, "Unexpected error")])).
Proof.
  unfold recognized, handle, handle_rest.
  destruct x as [e | name message stack | repr]; try discriminate.
  - cbn.
    destruct (String.eqb name "PrismaClientKnownRequestError");
      destruct (String.eqb name "ValidationError");
      destruct (includes message "Unique constraint failed");
      destruct (includes message "Record to update not found");
      cbn; intros H; try discriminate H; reflexivity.
  - intros _. reflexivity.
Qed.

End Classifier.

(** C5. A failure that is none of the recognized shapes is classified as
    the fixed internal error: code [INTERNAL_SERVER_ERROR], status 500, the
    message ["Internal server error"] and no details.  Two such failures,
    whatever their names, messages, stacks or printed forms, and whatever
    the worlds they are handled in, get the same result. *)
Theorem handle_fallback_generic :
  forall (x1 x2 : Unknown) (w1 w2 : World),
    ErrorHandler.recognized x1 = false ->
    ErrorHandler.recognized x2 = false ->
    result_of (ErrorHandler.handle x1 w1)
    = Ok (mkGraphQLError "Internal server error"
            (Some "INTERNAL_SERVER_ERROR") (Some 500) None)
    /\ result_of (ErrorHandler.handle x1 w1)
       = result_of (ErrorHandler.handle x2 w2)
    /\ db (world_of (ErrorHandler.handle x1 w1)) = db w1.
Proof.
  intros x1 x2 w1 w2 H1 H2.
  rewrite (handle_unrecognized x1 w1 H1), (handle_unrecognized x2 w2 H2).
  repeat split.
Qed.

Lemma handle_fallback_generic_witness :
  result_of (ErrorHandler.handle
               (AnError "TypeError" "Cannot read properties of undefined"
                  "TypeError: at PostService.getPostById (post.service.ts:31)")
               (mkWorld (mkDb [] [] [] [] []) []))
  = Ok (mkGraphQLError "Internal server error"
          (Some "INTERNAL_SERVER_ERROR") (Some 500) None)
  /\ result_of (ErrorHandler.handle
               (AnError "TypeError" "Cannot read properties of undefined"
                  "TypeError: at PostService.getPostById (post.service.ts:31)")
               (mkWorld (mkDb [] [] [] [] []) []))
     = result_of (ErrorHandler.handle
               (AnError "PrismaClientKnownRequestError"
                  "Foreign key constraint failed on the field: `userId`"
                  "PrismaClientKnownRequestError: at like.create")
               (mkWorld (mkDb [] [] [] [] []) [(info, "started")]))
  /\ db (world_of (ErrorHandler.handle
               (AnError "TypeError" "Cannot read properties of undefined"
                  "TypeError: at PostService.getPostById (post.service.ts:31)")
               (mkWorld (mkDb [] [] [] [] []) [])))
     = mkDb [] [] [] [] [].
Proof.
  apply (handle_fallback_generic
           (AnError "TypeError" "Cannot read properties of undefined"
              "TypeError: at PostService.getPostById (post.service.ts:31)")
           (AnError "PrismaClientKnownRequestError"
              "Foreign key constraint failed on the field: `userId`"
              "PrismaClientKnownRequestError: at like.create")
           (mkWorld (mkDb [] [] [] [] []) [])
           (mkWorld (mkDb [] [] [] [] []) [(info, "started")]));
    vm_compute; reflexivity.
Defined.

(** ** Credential codec *)

Lemma truthy_or_else (a : option string) (d : string) :
  truthy d = true -> truthy (or_else a d) = true.
Proof.
  intros Hd. unfold or_else. destruct a as [s |]; [| exact Hd].
  destruct (truthy s) eqn:Hs; [exact Hs | exact Hd].
Qed.

Section CredentialCodec.

Import Jsonwebtoken JwtUtils.

Variable hmacSHA256 : string -> string -> Payload -> string.
Variable ms : string -> option Z.
Variable config : Config.

Lemma default_issuer_truthy : truthy (default_issuer config) = true.
Proof. apply truthy_or_else. reflexivity. Qed.

Lemma default_audience_truthy : truthy (default_audience config) = true.
Proof. apply truthy_or_else. reflexivity. Qed.

Lemma default_expiresIn_truthy : truthy (default_expiresIn config) = true.
Proof. apply truthy_or_else. reflexivity. Qed.

(** With an accepted signature, [jwt.verify] is the check of the claims. *)
Lemma verify_accepted (j : Jws) (issuer audience : string) (now : Z) :
  signature_accepted hmacSHA256 config j = true ->
  verify hmacSHA256 (Compact j) (jwtSecret config) issuer audience now
  = verify_claims (payload j) issuer audience now.
Proof.
  unfold signature_accepted, verify.
  destruct (jwtSecret config) as [key |]; [| discriminate].
  intros H. repeat (apply andb_true_iff in H as [H ?]).
  cbn. rewrite H, H0, H1, H2. reflexivity.
Qed.

(** Without one, [jwt.verify] throws before it looks at the claims, and
    what it throws is not a [TokenExpiredError]. *)
Lemma verify_not_accepted (j : Jws) (issuer audience : string) (now : Z) :
  signature_accepted hmacSHA256 config j = false ->
  exists e,
    verify hmacSHA256 (Compact j) (jwtSecret config) issuer audience now
    = Throw e
    /\ instanceof_TokenExpiredError e = false.
Proof.
  unfold signature_accepted, verify.
  destruct (jwtSecret config) as [key |]; cbn.
  - destruct (truthy key), (truthy (signature j)),
      (String.eqb (alg j) "HS256"); cbn; intros H; try rewrite H;
      eauto; discriminate.
  - intros _.
    destruct (truthy (signature j)), (String.eqb (alg j) "HS256"); cbn;
      eauto.
Qed.

(** A payload whose expiry has been reached never passes the claims. *)
Lemma verify_claims_expired (p : Payload) (issuer audience : string)
    (e now : Z) :
  Jsonwebtoken.exp p = Some e -> e <= now ->
  exists x, verify_claims p issuer audience now = Throw x.
Proof.
  intros He Hle. unfold verify_claims. rewrite He.
  destruct (match nbf p with Some n => now <? n | None => false end);
    [eauto |].
  replace (e <=? now) with true by (symmetry; apply Z.leb_le; exact Hle).
  eauto.
Qed.

(** verifyToken turns every error of its body into one of its three
    errors, after one log line. *)
Lemma verifyToken_throws (token : Token) (now : Z) (w : World) :
  forall e,
    (if negb (token_truthy token) then Throw (PlainError "No token provided")
     else verify hmacSHA256 token (jwtSecret config)
            (default_issuer config) (default_audience config) now)
    = Throw e ->
    verifyToken hmacSHA256 config token now w
    = (Throw (PlainError
                (if instanceof_TokenExpiredError e
                 then "Authentication token expired"
                 else if instanceof_JsonWebTokenError e
                      then "Invalid authentication token"
                      else "Authentication verification failed")),
       mkWorld (db w) (log w ++ [(error, "JWT verification failed")])).
Proof.
  intros e He. unfold verifyToken, try_catch.
  destruct (negb (token_truthy token)).
  - inversion He; subst e. reflexivity.
  - unfold bind, lift. rewrite He. cbn.
    destruct (instanceof_TokenExpiredError e);
      [| destruct (instanceof_JsonWebTokenError e)]; reflexivity.
Qed.

Lemma verifyToken_returns (token : Token) (now : Z) (w : World) :
  forall p,
    token_truthy token = true ->
    verify hmacSHA256 token (jwtSecret config)
      (default_issuer config) (default_audience config) now = Ok p ->
    verifyToken hmacSHA256 config token now w = (Ok (as_JwtPayload p), w).
Proof.
  intros p Ht Hp. unfold verifyToken, try_catch, bind, lift.
  rewrite Ht, Hp. reflexivity.
Qed.

(** A token whose expiry has been reached is rejected by verifyToken,
    whatever else is true of it. *)
Lemma expired_token_rejected (j : Jws) (e now : Z) (w : World) :
  Jsonwebtoken.exp (payload j) = Some e -> e <= now ->
  exists x, result_of (verifyToken hmacSHA256 config (Compact j) now w)
            = Throw x.
Proof.
  intros He Hle.
  destruct (signature_accepted hmacSHA256 config j) eqn:Hacc.
  - destruct (verify_claims_expired (payload j) (default_issuer config)
                (default_audience config) e now He Hle) as [x Hx].
    rewrite (verifyToken_throws (Compact j) now w x).
    + eexists; reflexivity.
    + cbn [token_truthy negb]. rewrite verify_accepted by exact Hacc.
      exact Hx.
  - destruct (verify_not_accepted j (default_issuer config)
                (default_audience config) now Hacc) as [x [Hx _]].
    rewrite (verifyToken_throws (Compact j) now w x);
      [eexists; reflexivity | exact Hx].
Qed.

(** generateToken with the default options, when a secret is configured
    and the configured lifetime is a timespan. *)
Lemma generateToken_default (claims : Claims) (secret : string)
    (span now : Z) (w : World) :
  jwtSecret config = Some secret ->
  truthy secret = true ->
  ms (default_expiresIn config) = Some span ->
  generateToken hmacSHA256 ms config claims no_options now w
  = (Ok (Compact
           (mkJws "HS256"
              (mkPayload (claim_userId claims) (claim_username claims)
                 (claim_role claims) (Some now) (Some (now + span / 1000))
                 None (Some (default_issuer config))
                 (Some (default_audience config)))
              (hmacSHA256 secret "HS256"
                 (mkPayload (claim_userId claims) (claim_username claims)
                    (claim_role claims) (Some now)
                    (Some (now + span / 1000))
                    None (Some (default_issuer config))
                    (Some (default_audience config)))))),
     w).
Proof.
  intros Hsecret Htruthy Hms.
  unfold generateToken, try_catch, lift, sign, no_options, merged.
  cbn [expiresIn issuer audience].
  rewrite Hsecret, Htruthy, default_expiresIn_truthy, Hms. reflexivity.
Qed.

(** C2. With a signing secret configured (and a configured lifetime that
    is a timespan), generateToken issues a credential for any claims, in
    particular for claims with a subject id, and verifyToken, at any
    moment before the expiry of that credential, accepts it and returns
    the claims it was issued from: the same subject id, username and
    role, with nothing but the issued-at and expires-at fields added.
    Neither call changes the world. *)
Theorem verify_generate_roundtrip :
  forall (claims : Claims) (secret : string) (span now now' : Z)
         (w : World),
    (forall key a p, truthy (hmacSHA256 key a p) = true) ->
    jwtSecret config = Some secret ->
    truthy secret = true ->
    ms (default_expiresIn config) = Some span ->
    now' < now + span / 1000 ->
    exists (token : Token) (verified : JwtPayload),
      generateToken hmacSHA256 ms config claims no_options now w
      = (Ok token, w)
      /\ verifyToken hmacSHA256 config token now' w = (Ok verified, w)
      /\ claims_of verified = claims
      /\ verified
         = mkJwtPayload (claim_userId claims) (claim_username claims)
             (claim_role claims) (Some now) (Some (now + span / 1000)).
Proof.
  intros claims secret span now now' w Hmac Hsecret Htruthy Hms Hfresh.
  eexists. eexists. split.
  - apply (generateToken_default claims secret span now w); assumption.
  - split; [| split].
    + apply verifyToken_returns; [reflexivity |].
      rewrite verify_accepted.
      * unfold verify_claims. cbn.
        replace (now + span / 1000 <=? now') with false
          by (symmetry; apply Z.leb_gt; exact Hfresh).
        rewrite default_audience_truthy, default_issuer_truthy.
        rewrite !String.eqb_refl. cbn. reflexivity.
      * unfold signature_accepted. rewrite Hsecret, Htruthy. cbn.
        rewrite Hmac, String.eqb_refl. reflexivity.
    + destruct claims; reflexivity.
    + reflexivity.
Qed.

(** C3, amended.  A credential whose expires-at has been reached is
    always rejected by verifyToken.  When its signature is accepted
    (HS256 under the configured secret) and it carries no not-before
    claim in the future, the error is the expired one, whatever its
    issuer and audience are.  When its signature is not accepted, the
    error is one of the two other errors of verifyToken, never the
    expired one: the signature is checked before the expiry. *)
Theorem verifyToken_expired :
  forall (j : Jws) (e now : Z) (w : World),
    Jsonwebtoken.exp (payload j) = Some e ->
    e <= now ->
    (exists x,
       result_of (verifyToken hmacSHA256 config (Compact j) now w)
       = Throw x)
    /\ (signature_accepted hmacSHA256 config j = true ->
        match nbf (payload j) with Some n => n <= now | None => True end ->
        result_of (verifyToken hmacSHA256 config (Compact j) now w)
        = Throw (PlainError "Authentication token expired"))
    /\ (signature_accepted hmacSHA256 config j = false ->
        result_of (verifyToken hmacSHA256 config (Compact j) now w)
        = Throw (PlainError "Invalid authentication token")
        \/ result_of (verifyToken hmacSHA256 config (Compact j) now w)
           = Throw (PlainError "Authentication verification failed")).
Proof.
  intros j e now w He Hle. split; [| split].
  - exact (expired_token_rejected j e now w He Hle).
  - intros Hacc Hnbf.
    rewrite (verifyToken_throws (Compact j) now w
               (TokenExpiredError "jwt expired")); [reflexivity |].
    cbn [token_truthy negb]. rewrite verify_accepted by exact Hacc.
    unfold verify_claims. rewrite He.
    replace (e <=? now) with true by (symmetry; apply Z.leb_le; exact Hle).
    destruct (nbf (payload j)) as [n |]; [| reflexivity].
    replace (now <? n) with false
      by (symmetry; apply Z.ltb_ge; exact Hnbf).
    reflexivity.
  - intros Hacc.
    destruct (verify_not_accepted j (default_issuer config)
                (default_audience config) now Hacc) as [x [Hx Hnot]].
    rewrite (verifyToken_throws (Compact j) now w x) by exact Hx.
    rewrite Hnot. cbn.
    destruct (instanceof_JsonWebTokenError x); [left | right]; reflexivity.
Qed.

(** C4, amended.  Whenever verifyToken rejects the input credential,
    refreshToken fails as well, and its error is always the one error
    ["Failed to refresh token"], not the error of verifyToken.  In
    particular a credential whose expires-at has been reached is never
    refreshed. *)
Theorem refreshToken_rejects :
  forall (token : Token) (newExpiry : option string) (now : Z)
         (w : World),
    (forall x,
       result_of (verifyToken hmacSHA256 config token now w) = Throw x ->
       result_of (refreshToken hmacSHA256 ms config token newExpiry now w)
       = Throw (PlainError "Failed to refresh token"))
    /\ (forall j e,
          token = Compact j ->
          Jsonwebtoken.exp (payload j) = Some e ->
          e <= now ->
          result_of
            (refreshToken hmacSHA256 ms config token newExpiry now w)
          = Throw (PlainError "Failed to refresh token")).
Proof.
  intros token newExpiry now w.
  assert (Hfail : forall x,
    result_of (verifyToken hmacSHA256 config token now w) = Throw x ->
    result_of (refreshToken hmacSHA256 ms config token newExpiry now w)
    = Throw (PlainError "Failed to refresh token")).
  { intros x Hx. unfold refreshToken, try_catch, bind.
    destruct (verifyToken hmacSHA256 config token now w) as [o w'].
    cbn in Hx. subst o. reflexivity. }
  split; [exact Hfail |].
  intros j e -> He Hle.
  destruct (expired_token_rejected j e now w He Hle) as [x Hx].
  exact (Hfail x Hx).
Qed.

End CredentialCodec.

Lemma verify_generate_roundtrip_witness :
  exists (token : Jsonwebtoken.Token) (verified : JwtUtils.JwtPayload),
    JwtUtils.generateToken Sample.hmac Sample.ms Sample.config
      Sample.alice_claims JwtUtils.no_options 1700000000 Sample.empty_world
    = (Ok token, Sample.empty_world)
    /\ JwtUtils.verifyToken Sample.hmac Sample.config token 1700003599
         Sample.empty_world
       = (Ok verified, Sample.empty_world)
    /\ JwtUtils.claims_of verified = Sample.alice_claims
    /\ verified
       = JwtUtils.mkJwtPayload (Some "u-alice") (Some "alice") (Some "USER")
           (Some 1700000000) (Some (1700000000 + 3600000 / 1000)).
Proof.
  apply (verify_generate_roundtrip Sample.hmac Sample.ms Sample.config
           Sample.alice_claims "s3cret" 3600000 1700000000 1700003599
           Sample.empty_world).
  - intros key a p. reflexivity.
  - reflexivity.
  - reflexivity.
  - reflexivity.
  - reflexivity.
Defined.

(** C3 as stated fails: the sample token expired at 1000 and is verified
    at 2000, but its signature part is not the keyed hash, and verifyToken
    reports an invalid token, not an expired one. *)
Lemma forged_expired_token_counterexample :
  Jsonwebtoken.exp Sample.expired_payload = Some 1000
  /\ 1000 < 2000
  /\ result_of (JwtUtils.verifyToken Sample.hmac Sample.config
                  Sample.expired_forged 2000 Sample.empty_world)
     = Throw (PlainError "Invalid authentication token")
  /\ result_of (JwtUtils.verifyToken Sample.hmac Sample.config
                  Sample.expired_forged 2000 Sample.empty_world)
     <> Throw (PlainError "Authentication token expired").
Proof.
  repeat split; try reflexivity. vm_compute. discriminate.
Qed.

Lemma verifyToken_expired_witness :
  (exists x,
     result_of (JwtUtils.verifyToken Sample.hmac Sample.config
                  Sample.expired_signed 2000 Sample.empty_world)
     = Throw x)
  /\ result_of (JwtUtils.verifyToken Sample.hmac Sample.config
                  Sample.expired_signed 2000 Sample.empty_world)
     = Throw (PlainError "Authentication token expired").
Proof.
  destruct (verifyToken_expired Sample.hmac Sample.config
              (Jsonwebtoken.mkJws "HS256" Sample.expired_payload
                 (Sample.hmac "s3cret" "HS256" Sample.expired_payload))
              1000 2000 Sample.empty_world)
    as [Hfails [Hexpired _]].
  - reflexivity.
  - lia.
  - split; [exact Hfails |].
    apply Hexpired; [reflexivity | exact I].
Defined.

(** C4 as stated fails: for the expired sample token verifyToken fails
    with its expired error, and refreshToken fails with a different
    error. *)
Lemma refreshToken_error_counterexample :
  error_of (result_of (JwtUtils.verifyToken Sample.hmac Sample.config
                         Sample.expired_signed 2000 Sample.empty_world))
  = Some (PlainError "Authentication token expired")
  /\ error_of (result_of (JwtUtils.refreshToken Sample.hmac Sample.ms
                            Sample.config Sample.expired_signed None 2000
                            Sample.empty_world))
     = Some (PlainError "Failed to refresh token")
  /\ error_of (result_of (JwtUtils.refreshToken Sample.hmac Sample.ms
                            Sample.config Sample.expired_signed None 2000
                            Sample.empty_world))
     <> error_of (result_of (JwtUtils.verifyToken Sample.hmac Sample.config
                               Sample.expired_signed 2000
                               Sample.empty_world)).
Proof.
  repeat split; try reflexivity. vm_compute. discriminate.
Qed.

Lemma refreshToken_rejects_witness :
  result_of (JwtUtils.refreshToken Sample.hmac Sample.ms Sample.config
               Sample.expired_forged None 2000 Sample.empty_world)
  = Throw (PlainError "Failed to refresh token")
  /\ result_of (JwtUtils.refreshToken Sample.hmac Sample.ms Sample.config
                  Sample.expired_signed (Some "7d") 2000 Sample.empty_world)
     = Throw (PlainError "Failed to refresh token").
Proof.
  split.
  - apply (proj1 (refreshToken_rejects Sample.hmac Sample.ms Sample.config
                    Sample.expired_forged None 2000 Sample.empty_world)
             (PlainError "Invalid authentication token")).
    reflexivity.
  - apply (proj2 (refreshToken_rejects Sample.hmac Sample.ms Sample.config
                    Sample.expired_signed (Some "7d") 2000
                    Sample.empty_world)
             (Jsonwebtoken.mkJws "HS256" Sample.expired_payload
                (Sample.hmac "s3cret" "HS256" Sample.expired_payload))
             1000).
    + reflexivity.
    + reflexivity.
    + lia.
Defined.

(** ** Integrity rules: likes *)

Section ListFacts.

Context {A : Type}.
Variable f : A -> bool.

Lemma find_none_filter (l : list A) :
  find f l = None -> filter f l = [].
Proof.
  induction l as [| a l IH]; cbn; [reflexivity |].
  destruct (f a); [discriminate | exact IH].
Qed.

Lemma find_some_filter (l : list A) (x : A) :
  find f l = Some x -> (1 <= length (filter f l))%nat.
Proof.
  induction l as [| a l IH]; cbn; [discriminate |].
  destruct (f a); cbn; [lia | exact IH].
Qed.

Lemma find_none_existsb (l : list A) :
  find f l = None -> existsb f l = false.
Proof.
  induction l as [| a l IH]; cbn; [reflexivity |].
  destruct (f a); [discriminate | exact IH].
Qed.

Lemma find_some_existsb (l : list A) (x : A) :
  find f l = Some x -> existsb f l = true.
Proof.
  induction l as [| a l IH]; cbn; [discriminate |].
  destruct (f a); [reflexivity | exact IH].
Qed.

Lemma find_app_none (l l' : list A) :
  find f l = None -> find f (l ++ l') = find f l'.
Proof.
  induction l as [| a l IH]; cbn; [reflexivity |].
  destruct (f a); [discriminate | exact IH].
Qed.

Lemma find_app_some (l l' : list A) (x : A) :
  find f l = Some x -> find f (l ++ l') = Some x.
Proof.
  induction l as [| a l IH]; cbn; [discriminate |].
  destruct (f a); [trivial | exact IH].
Qed.

(** A row update that keeps the searched columns keeps what is found. *)
Lemma find_map_preserving (g : A -> A) (l : list A) :
  (forall x, f (g x) = f x) ->
  find f (map g l) = option_map g (find f l).
Proof.
  intros Hg. induction l as [| a l IH]; cbn; [reflexivity |].
  rewrite Hg. destruct (f a); [reflexivity | exact IH].
Qed.

Lemma filter_map_preserving (g : A -> A) (l : list A) :
  (forall x, f (g x) = f x) ->
  filter f (map g l) = map g (filter f l).
Proof.
  intros Hg. induction l as [| a l IH]; cbn; [reflexivity |].
  rewrite Hg. destruct (f a); cbn; rewrite IH; reflexivity.
Qed.

End ListFacts.

Section Likes.

Import LikeService.

Lemma likePost_existing (g : Generated) (postId userId : string)
    (w : World) (p : PostRow) (l : Like) :
  find (fun p => String.eqb (post_id p) postId) (posts (db w)) = Some p ->
  stored_like userId postId (db w) = Some l ->
  likePost g postId userId w = (Ok l, w).
Proof.
  intros Hpost Hlike.
  unfold likePost, Prisma.post.findUnique, Prisma.like.findFirst,
    bind, get_db, ret.
  rewrite Hpost. unfold stored_like in Hlike. rewrite Hlike. reflexivity.
Qed.

Lemma likePost_creates (g : Generated) (postId userId : string)
    (w : World) (p : PostRow) :
  find (fun p => String.eqb (post_id p) postId) (posts (db w)) = Some p ->
  stored_like userId postId (db w) = None ->
  Prisma.user_exists (db w) userId = true ->
  existsb (fun l => String.eqb (like_id l) (uuid g)) (likes (db w))
  = false ->
  likePost g postId userId w
  = (Ok (Prisma.like.new_row g userId postId),
     mkWorld
       (with_likes (db w) (likes (db w) ++ [Prisma.like.new_row g userId postId]))
       (log w ++ [(info, "Post liked: " ++ postId
                         ++ " by user: " ++ userId)])).
Proof.
  intros Hpost Hlike Huser Hfresh.
  unfold likePost, Prisma.post.findUnique, Prisma.like.findFirst,
    Prisma.like.create, bind, get_db, put_db, logger, ret.
  rewrite Hpost. unfold stored_like in Hlike. rewrite Hlike.
  cbn [db]. rewrite Hfresh.
  rewrite (find_none_existsb _ _ Hlike), Huser.
  unfold Prisma.post_exists. rewrite (find_some_existsb _ _ _ Hpost).
  reflexivity.
Qed.

Lemma like_matches_new_row (g : Generated) (userId postId : string) :
  Prisma.like.matches userId postId (Prisma.like.new_row g userId postId) = true.
Proof.
  unfold Prisma.like.matches, Prisma.like.new_row. cbn.
  rewrite !String.eqb_refl. reflexivity.
Qed.

(** One call, from a database that satisfies the uniqueness constraint:
    it returns the like that is stored for the pair afterwards, and that
    like is the only one. *)
Lemma likePost_outcome (g : Generated) (postId userId : string)
    (w : World) (p : PostRow) :
  find (fun p => String.eqb (post_id p) postId) (posts (db w)) = Some p ->
  likes_unique (db w) ->
  (stored_like userId postId (db w) = None ->
   Prisma.user_exists (db w) userId = true
   /\ existsb (fun l => String.eqb (like_id l) (uuid g)) (likes (db w))
      = false) ->
  exists (l : Like) (w' : World),
    likePost g postId userId w = (Ok l, w')
    /\ stored_like userId postId (db w') = Some l
    /\ like_count userId postId (db w') = 1%nat
    /\ posts (db w') = posts (db w).
Proof.
  intros Hpost Huniq Hnew.
  destruct (stored_like userId postId (db w)) as [l |] eqn:Hlike.
  - exists l, w. split; [| split; [| split]].
    + exact (likePost_existing g postId userId w p l Hpost Hlike).
    + exact Hlike.
    + specialize (Huniq userId postId).
      pose proof (find_some_filter _ _ _ Hlike) as Hpos.
      unfold like_count in *. lia.
    + reflexivity.
  - destruct (Hnew eq_refl) as [Huser Hfresh].
    eexists. eexists. split; [| split; [| split]].
    + exact (likePost_creates g postId userId w p Hpost Hlike Huser Hfresh).
    + unfold stored_like in *. cbn.
      rewrite (find_app_none _ _ _ Hlike). cbn.
      rewrite like_matches_new_row. reflexivity.
    + unfold like_count, stored_like in *. cbn.
      rewrite filter_app, (find_none_filter _ _ Hlike). cbn.
      rewrite like_matches_new_row. reflexivity.
    + reflexivity.
Qed.

End Likes.

(** C6. On an existing post, in a database that satisfies the uniqueness
    constraint of Like: when a like of the user on the post is stored,
    likePost returns that very record and changes nothing, and it is the
    only like of the pair; and two calls in a row (the first of which may
    have to create the like, for a stored user and with an unused uuid)
    return the same record, the second call changes nothing, and exactly
    one like of the pair is stored afterwards. *)
Theorem likePost_idempotent :
  forall (w : World) (postId userId : string) (p : PostRow),
    find (fun p => String.eqb (post_id p) postId) (posts (db w)) = Some p ->
    likes_unique (db w) ->
    (forall (g : Generated) (l : Like),
        stored_like userId postId (db w) = Some l ->
        LikeService.likePost g postId userId w = (Ok l, w)
        /\ like_count userId postId (db w) = 1%nat)
    /\ (forall g1 g2 : Generated,
          (stored_like userId postId (db w) = None ->
           Prisma.user_exists (db w) userId = true
           /\ existsb (fun l => String.eqb (like_id l) (uuid g1))
                (likes (db w)) = false) ->
          exists (l : Like) (w1 : World),
            LikeService.likePost g1 postId userId w = (Ok l, w1)
            /\ LikeService.likePost g2 postId userId w1 = (Ok l, w1)
            /\ like_count userId postId (db w1) = 1%nat).
Proof.
  intros w postId userId p Hpost Huniq. split.
  - intros g l Hlike. split.
    + exact (likePost_existing g postId userId w p l Hpost Hlike).
    + specialize (Huniq userId postId).
      pose proof (find_some_filter _ _ _ Hlike) as Hpos.
      unfold like_count in *. lia.
  - intros g1 g2 Hnew.
    destruct (likePost_outcome g1 postId userId w p Hpost Huniq Hnew)
      as [l [w1 [Hfirst [Hstored [Hcount Hposts]]]]].
    exists l, w1. split; [exact Hfirst | split; [| exact Hcount]].
    apply (likePost_existing g2 postId userId w1 p l); [| exact Hstored].
    rewrite Hposts. exact Hpost.
Qed.

Lemma sample_likes_unique : likes_unique Sample.database.
Proof.
  intros userId postId. unfold like_count. cbn.
  destruct (Prisma.like.matches userId postId _); cbn; lia.
Qed.

Lemma likePost_idempotent_witness :
  (LikeService.likePost (mkGenerated "l-2" 30) "p-1" "u-bob" Sample.world
   = (Ok (mkLike "l-1" "u-bob" "p-1" 20), Sample.world)
   /\ like_count "u-bob" "p-1" (db Sample.world) = 1%nat)
  /\ (exists (l : Like) (w1 : World),
        LikeService.likePost (mkGenerated "l-2" 30) "p-1" "u-alice"
          Sample.world = (Ok l, w1)
        /\ LikeService.likePost (mkGenerated "l-3" 31) "p-1" "u-alice" w1
           = (Ok l, w1)
        /\ like_count "u-alice" "p-1" (db w1) = 1%nat).
Proof.
  split.
  - apply (proj1 (likePost_idempotent Sample.world "p-1" "u-bob"
                    (mkPost "p-1" "u-alice") eq_refl sample_likes_unique)).
    reflexivity.
  - apply (proj2 (likePost_idempotent Sample.world "p-1" "u-alice"
                    (mkPost "p-1" "u-alice") eq_refl sample_likes_unique)).
    intros _. split; reflexivity.
Defined.

(** ** Integrity rules: ratings *)

Section Ratings.

Import RatingService.

Lemma in_range_test (value : Z) :
  1 <= value <= 5 -> (value <? 1) || (5 <? value) = false.
Proof.
  intros [Hlo Hhi]. apply orb_false_iff. split; apply Z.ltb_ge; lia.
Qed.

Lemma out_of_range_test (value : Z) :
  value < 1 \/ 5 < value -> (value <? 1) || (5 <? value) = true.
Proof.
  intros [H | H]; apply orb_true_iff; [left | right]; apply Z.ltb_lt; lia.
Qed.

Lemma ratePost_out_of_range (g : Generated) (postId userId : string)
    (value : Z) (w : World) :
  value < 1 \/ 5 < value ->
  ratePost g postId userId value w
  = (Throw (GraphQLErr "Rating must be between 1 and 5"
              ErrorCodes.BAD_USER_INPUT), w).
Proof.
  intros H. unfold ratePost. rewrite (out_of_range_test value H).
  reflexivity.
Qed.

Lemma ratePost_missing_post (g : Generated) (postId userId : string)
    (value : Z) (w : World) :
  1 <= value <= 5 ->
  find (fun p => String.eqb (post_id p) postId) (posts (db w)) = None ->
  ratePost g postId userId value w
  = (Throw (GraphQLErr "Post not found" ErrorCodes.NOT_FOUND), w).
Proof.
  intros Hrange Hpost. unfold ratePost.
  rewrite (in_range_test value Hrange).
  unfold Prisma.post.findUnique, bind, get_db, ret. rewrite Hpost.
  reflexivity.
Qed.

Lemma ratePost_updates (g : Generated) (postId userId : string)
    (value : Z) (w : World) (p : PostRow) (existing : Rating) :
  1 <= value <= 5 ->
  find (fun p => String.eqb (post_id p) postId) (posts (db w)) = Some p ->
  stored_rating userId postId (db w) = Some existing ->
  exists r0 : Rating,
    rating_id r0 = rating_id existing
    /\ ratePost g postId userId value w
       = (Ok (Prisma.rating.set_value value (now g) r0),
          mkWorld
            (with_ratings (db w)
               (Prisma.rating.updated_rows (rating_id existing) value (now g)
                  (ratings (db w))))
            (log w ++ [(info, "Rating updated for post: " ++ postId
                              ++ " by user: " ++ userId
                              ++ ", value: " ++ show_value value)])).
Proof.
  intros Hrange Hpost Hstored.
  destruct (find (fun r => String.eqb (rating_id r) (rating_id existing))
              (ratings (db w))) as [r0 |] eqn:Hid.
  - exists r0. split.
    + apply find_some in Hid as [_ Hid]. apply String.eqb_eq. exact Hid.
    + unfold ratePost. rewrite (in_range_test value Hrange).
      unfold Prisma.post.findUnique, Prisma.rating.findFirst,
        Prisma.rating.update, bind, get_db, put_db, logger, ret.
      rewrite Hpost. unfold stored_rating in Hstored. rewrite Hstored.
      cbn [db]. rewrite Hid. reflexivity.
  - exfalso. unfold stored_rating in Hstored.
    apply find_some in Hstored as [Hin _].
    pose proof (find_none _ _ Hid existing Hin) as Hneq. cbn in Hneq.
    rewrite String.eqb_refl in Hneq. discriminate.
Qed.

Lemma ratePost_creates (g : Generated) (postId userId : string)
    (value : Z) (w : World) (p : PostRow) :
  1 <= value <= 5 ->
  find (fun p => String.eqb (post_id p) postId) (posts (db w)) = Some p ->
  stored_rating userId postId (db w) = None ->
  Prisma.user_exists (db w) userId = true ->
  existsb (fun r => String.eqb (rating_id r) (uuid g)) (ratings (db w))
  = false ->
  ratePost g postId userId value w
  = (Ok (Prisma.rating.new_row g userId postId value),
     mkWorld
       (with_ratings (db w)
          (ratings (db w) ++ [Prisma.rating.new_row g userId postId value]))
       (log w ++ [(info, "Post rated: " ++ postId ++ " by user: " ++ userId
                         ++ ", value: " ++ show_value value)])).
Proof.
  intros Hrange Hpost Hstored Huser Hfresh.
  unfold ratePost. rewrite (in_range_test value Hrange).
  unfold Prisma.post.findUnique, Prisma.rating.findFirst,
    Prisma.rating.create, bind, get_db, put_db, logger, ret.
  rewrite Hpost. unfold stored_rating in Hstored. rewrite Hstored.
  cbn [db]. rewrite Hfresh.
  rewrite (find_none_existsb _ _ Hstored), Huser.
  unfold Prisma.post_exists. rewrite (find_some_existsb _ _ _ Hpost).
  reflexivity.
Qed.

Lemma rating_matches_set_value (userId postId : string)
    (value updatedAt : Z) (ratingId : string) (r : Rating) :
  Prisma.rating.matches userId postId
    (if String.eqb (rating_id r) ratingId
     then Prisma.rating.set_value value updatedAt r else r)
  = Prisma.rating.matches userId postId r.
Proof. destruct (String.eqb (rating_id r) ratingId); reflexivity. Qed.

Lemma rating_matches_new_row (g : Generated) (userId postId : string)
    (value : Z) :
  Prisma.rating.matches userId postId
    (Prisma.rating.new_row g userId postId value) = true.
Proof.
  unfold Prisma.rating.matches, Prisma.rating.new_row. cbn.
  rewrite !String.eqb_refl. reflexivity.
Qed.

Lemma rating_matches_new_row_inv (g : Generated)
    (userId postId userId' postId' : string) (value : Z) :
  Prisma.rating.matches userId' postId'
    (Prisma.rating.new_row g userId postId value) = true ->
  userId' = userId /\ postId' = postId.
Proof.
  unfold Prisma.rating.matches, Prisma.rating.new_row. cbn.
  intros H. apply andb_true_iff in H as [H1 H2].
  apply String.eqb_eq in H1, H2. split; congruence.
Qed.

(** One successful submission, from a database that satisfies the
    uniqueness constraint. *)
Lemma ratePost_outcome (g : Generated) (postId userId : string)
    (value : Z) (w : World) (p : PostRow) :
  1 <= value <= 5 ->
  find (fun p => String.eqb (post_id p) postId) (posts (db w)) = Some p ->
  ratings_unique (db w) ->
  (stored_rating userId postId (db w) = None ->
   Prisma.user_exists (db w) userId = true
   /\ existsb (fun r => String.eqb (rating_id r) (uuid g)) (ratings (db w))
      = false) ->
  exists (r : Rating) (w' : World),
    ratePost g postId userId value w = (Ok r, w')
    /\ rating_value r = value
    /\ (forall existing,
          stored_rating userId postId (db w) = Some existing ->
          rating_id r = rating_id existing
          /\ stored_rating userId postId (db w')
             = Some (Prisma.rating.set_value value (now g) existing)
          /\ length (ratings (db w')) = length (ratings (db w)))
    /\ (stored_rating userId postId (db w) = None ->
        r = Prisma.rating.new_row g userId postId value
        /\ ratings (db w') = (ratings (db w) ++ [r])%list)
    /\ rating_count userId postId (db w') = 1%nat
    /\ (exists stored,
          stored_rating userId postId (db w') = Some stored
          /\ rating_value stored = value
          /\ rating_id stored = rating_id r)
    /\ posts (db w') = posts (db w)
    /\ ratings_unique (db w').
Proof.
  intros Hrange Hpost Huniq Hnew.
  destruct (stored_rating userId postId (db w)) as [existing |] eqn:Hst.
  - destruct (ratePost_updates g postId userId value w p existing
                Hrange Hpost Hst) as [r0 [Hr0 Hrun]].
    assert (Hfound :
      stored_rating userId postId
        (with_ratings (db w)
           (Prisma.rating.updated_rows (rating_id existing) value (now g)
              (ratings (db w))))
      = Some (Prisma.rating.set_value value (now g) existing)).
    { unfold stored_rating, Prisma.rating.updated_rows in *. cbn.
      rewrite find_map_preserving
        by (intros x; apply rating_matches_set_value).
      rewrite Hst. cbn. rewrite String.eqb_refl. reflexivity. }
    assert (Hcounts : forall u q,
      rating_count u q
        (with_ratings (db w)
           (Prisma.rating.updated_rows (rating_id existing) value (now g)
              (ratings (db w))))
      = rating_count u q (db w)).
    { intros u q. unfold rating_count, Prisma.rating.updated_rows. cbn.
      rewrite filter_map_preserving
        by (intros x; apply rating_matches_set_value).
      apply length_map. }
    eexists. eexists. split; [exact Hrun |].
    split; [reflexivity |].
    split.
    { intros existing' Heq. inversion Heq; subst existing'.
      split; [exact Hr0 |]. split; [exact Hfound |].
      cbn. unfold Prisma.rating.updated_rows. apply length_map. }
    split; [discriminate |].
    split.
    { cbn [db]. rewrite Hcounts. specialize (Huniq userId postId).
      pose proof (find_some_filter _ _ _ Hst) as Hpos.
      unfold rating_count in *. lia. }
    split.
    { eexists. split; [exact Hfound |]. split; [reflexivity |].
      cbn. symmetry. exact Hr0. }
    split; [reflexivity |].
    intros u q. cbn [db]. rewrite Hcounts. apply Huniq.
  - destruct (Hnew eq_refl) as [Huser Hfresh].
    assert (Hfound :
      stored_rating userId postId
        (with_ratings (db w)
           (ratings (db w)
            ++ [Prisma.rating.new_row g userId postId value]))
      = Some (Prisma.rating.new_row g userId postId value)).
    { unfold stored_rating in *. cbn.
      rewrite (find_app_none _ _ _ Hst). cbn.
      rewrite rating_matches_new_row. reflexivity. }
    eexists. eexists.
    split;
      [exact (ratePost_creates g postId userId value w p
                Hrange Hpost Hst Huser Hfresh) |].
    split; [reflexivity |].
    split; [discriminate |].
    split; [intros _; split; reflexivity |].
    split.
    { unfold rating_count, stored_rating in *. cbn.
      rewrite filter_app, (find_none_filter _ _ Hst). cbn.
      rewrite rating_matches_new_row. reflexivity. }
    split.
    { eexists. split; [exact Hfound |]. split; reflexivity. }
    split; [reflexivity |].
    intros u q. unfold rating_count. cbn. rewrite filter_app, length_app.
    cbn.
    destruct (Prisma.rating.matches u q
                (Prisma.rating.new_row g userId postId value)) eqn:Hm.
    + apply rating_matches_new_row_inv in Hm as [-> ->].
      unfold stored_rating in Hst.
      rewrite (find_none_filter _ _ Hst). cbn. lia.
    + cbn. specialize (Huniq u q). unfold rating_count in Huniq. lia.
Qed.

End Ratings.

(** C7. ratePost with a value outside [1,5] fails with BAD_USER_INPUT;
    with a value in [1,5] and a missing post it fails with NOT_FOUND; in
    both cases nothing is written.  With a value in [1,5] and an existing
    post, in a database that satisfies the uniqueness constraint of Rating
    (and, when a rating has to be created, for a stored user and with an
    unused uuid), it succeeds: a stored rating of the pair keeps its id
    and creation time and gets the submitted value, and no row is added;
    when there is none, a row with the submitted value is appended.
    Afterwards exactly one rating of the pair is stored and it carries the
    submitted value.  Two submissions in a row leave one rating, with the
    id the first one returned and the value of the second. *)
Theorem ratePost_upsert :
  forall (w : World) (g : Generated) (postId userId : string) (value : Z),
    (value < 1 \/ 5 < value ->
     RatingService.ratePost g postId userId value w
     = (Throw (GraphQLErr "Rating must be between 1 and 5" "BAD_USER_INPUT"),
        w))
    /\ (1 <= value <= 5 ->
        find (fun p => String.eqb (post_id p) postId) (posts (db w)) = None ->
        RatingService.ratePost g postId userId value w
        = (Throw (GraphQLErr "Post not found" "NOT_FOUND"), w))
    /\ (forall p : PostRow,
          1 <= value <= 5 ->
          find (fun p => String.eqb (post_id p) postId) (posts (db w))
          = Some p ->
          ratings_unique (db w) ->
          (stored_rating userId postId (db w) = None ->
           Prisma.user_exists (db w) userId = true
           /\ existsb (fun r => String.eqb (rating_id r) (uuid g))
                (ratings (db w)) = false) ->
          (exists (r : Rating) (w' : World),
              RatingService.ratePost g postId userId value w = (Ok r, w')
              /\ rating_value r = value
              /\ (forall existing,
                    stored_rating userId postId (db w) = Some existing ->
                    rating_id r = rating_id existing
                    /\ stored_rating userId postId (db w')
                       = Some (mkRating (rating_id existing)
                                 (rating_userId existing)
                                 (rating_postId existing)
                                 value
                                 (rating_createdAt existing) (now g))
                    /\ length (ratings (db w')) = length (ratings (db w)))
              /\ (stored_rating userId postId (db w) = None ->
                  ratings (db w') = (ratings (db w) ++ [r])%list)
              /\ rating_count userId postId (db w') = 1%nat
              /\ (exists stored,
                    stored_rating userId postId (db w') = Some stored
                    /\ rating_value stored = value))
          /\ (forall (g2 : Generated) (value2 : Z),
                1 <= value2 <= 5 ->
                exists (r1 r2 : Rating) (w1 w2 : World),
                  RatingService.ratePost g postId userId value w
                  = (Ok r1, w1)
                  /\ RatingService.ratePost g2 postId userId value2 w1
                     = (Ok r2, w2)
                  /\ rating_id r2 = rating_id r1
                  /\ rating_count userId postId (db w2) = 1%nat
                  /\ (exists stored,
                        stored_rating userId postId (db w2) = Some stored
                        /\ rating_value stored = value2))).
Proof.
  intros w g postId userId value. split; [| split].
  - apply ratePost_out_of_range.
  - apply ratePost_missing_post.
  - intros p Hrange Hpost Huniq Hnew.
    destruct (ratePost_outcome g postId userId value w p
                Hrange Hpost Huniq Hnew)
      as [r [w' [Hrun [Hval [Hupd [Hcre [Hcount [Hstored [Hposts Huniq']]]]]]]]].
    split.
    + exists r, w'. split; [exact Hrun |]. split; [exact Hval |].
      split; [exact Hupd |].
      split; [intros Hnone; exact (proj2 (Hcre Hnone)) |].
      split; [exact Hcount |].
      destruct Hstored as [stored [Hs [Hv _]]]. exists stored. now split.
    + intros g2 value2 Hrange2.
      destruct Hstored as [stored [Hs [_ Hid]]].
      assert (Hpost' :
        find (fun p => String.eqb (post_id p) postId) (posts (db w'))
        = Some p) by (rewrite Hposts; exact Hpost).
      destruct (ratePost_outcome g2 postId userId value2 w' p
                  Hrange2 Hpost' Huniq')
        as [r2 [w2 [Hrun2 [_ [Hupd2 [_ [Hcount2 [Hstored2 _]]]]]]]].
      { rewrite Hs. discriminate. }
      exists r, r2, w', w2. split; [exact Hrun |]. split; [exact Hrun2 |].
      split.
      { destruct (Hupd2 stored Hs) as [Hid2 _]. congruence. }
      split; [exact Hcount2 |].
      destruct Hstored2 as [stored2 [Hs2 [Hv2 _]]]. exists stored2. now split.
Qed.

Lemma sample_ratings_unique : ratings_unique Sample.database.
Proof.
  intros userId postId. unfold rating_count. cbn.
  destruct (Prisma.rating.matches userId postId _); cbn; lia.
Qed.

(** bob, who rated the first post 3, rates it 5; out of range and missing
    post; alice rates it 3 and then 5. *)
Lemma ratePost_upsert_witness :
  RatingService.ratePost (mkGenerated "r-2" 40) "p-1" "u-bob" 6 Sample.world
  = (Throw (GraphQLErr "Rating must be between 1 and 5" "BAD_USER_INPUT"),
     Sample.world)
  /\ RatingService.ratePost (mkGenerated "r-2" 40) "p-9" "u-bob" 5
       Sample.world
     = (Throw (GraphQLErr "Post not found" "NOT_FOUND"), Sample.world)
  /\ (exists (r : Rating) (w' : World),
        RatingService.ratePost (mkGenerated "r-2" 40) "p-1" "u-bob" 5
          Sample.world = (Ok r, w')
        /\ stored_rating "u-bob" "p-1" (db w')
           = Some (mkRating "r-1" "u-bob" "p-1" 5 21 40)
        /\ rating_count "u-bob" "p-1" (db w') = 1%nat)
  /\ (exists (r1 r2 : Rating) (w1 w2 : World),
        RatingService.ratePost (mkGenerated "r-2" 40) "p-1" "u-alice" 3
          Sample.world = (Ok r1, w1)
        /\ RatingService.ratePost (mkGenerated "r-3" 41) "p-1" "u-alice" 5 w1
           = (Ok r2, w2)
        /\ rating_id r2 = rating_id r1
        /\ rating_count "u-alice" "p-1" (db w2) = 1%nat
        /\ (exists stored,
              stored_rating "u-alice" "p-1" (db w2) = Some stored
              /\ rating_value stored = 5)).
Proof.
  split; [| split; [| split]].
  - apply (proj1 (ratePost_upsert Sample.world (mkGenerated "r-2" 40)
                    "p-1" "u-bob" 6)).
    right. lia.
  - apply (proj1 (proj2 (ratePost_upsert Sample.world (mkGenerated "r-2" 40)
                           "p-9" "u-bob" 5))).
    + lia.
    + reflexivity.
  - destruct (proj1 (proj2 (proj2 (ratePost_upsert Sample.world
                                     (mkGenerated "r-2" 40) "p-1" "u-bob" 5))
                       (mkPost "p-1" "u-alice")
                       ltac:(lia) eq_refl sample_ratings_unique
                       ltac:(discriminate)))
      as [r [w' [Hrun [_ [Hupd [_ [Hcount _]]]]]]].
    exists r, w'. split; [exact Hrun |]. split; [| exact Hcount].
    exact (proj1 (proj2 (Hupd (mkRating "r-1" "u-bob" "p-1" 3 21 21)
                           eq_refl))).
  - apply (proj2 (proj2 (proj2 (ratePost_upsert Sample.world
                                  (mkGenerated "r-2" 40) "p-1" "u-alice" 3))
                    (mkPost "p-1" "u-alice")
                    ltac:(lia) eq_refl sample_ratings_unique
                    ltac:(intros _; split; reflexivity))
             (mkGenerated "r-3" 41) 5).
    lia.
Defined.

(** ** Integrity rules: comments *)

Section Comments.

Import CommentService.

Lemma createComment_missing_post (g : Generated)
    (input : CreateCommentInput) (userId : string) (w : World) :
  find (fun p => String.eqb (post_id p) (postId input)) (posts (db w))
  = None ->
  createComment g input userId w
  = (Throw (GraphQLErr "Post not found" ErrorCodes.NOT_FOUND), w).
Proof.
  intros Hpost.
  unfold createComment, Prisma.post.findUnique, bind, get_db, ret.
  rewrite Hpost. reflexivity.
Qed.

Lemma createComment_missing_parent (g : Generated)
    (input : CreateCommentInput) (userId : string) (w : World)
    (p : PostRow) (parent : string) :
  find (fun p => String.eqb (post_id p) (postId input)) (posts (db w))
  = Some p ->
  parentId input = Some parent ->
  parent <> "" ->
  find (fun c => String.eqb (comment_id c) parent) (comments (db w))
  = None ->
  createComment g input userId w
  = (Throw (GraphQLErr "Parent comment not found" ErrorCodes.NOT_FOUND),
     w).
Proof.
  intros Hpost Hparent Hne Hfind.
  unfold createComment, Prisma.post.findUnique, Prisma.comment.findUnique,
    bind, get_db, ret.
  rewrite Hpost, Hparent. cbn [truthy_opt]. unfold truthy.
  apply String.eqb_neq in Hne. rewrite Hne. cbn [negb].
  rewrite Hfind. reflexivity.
Qed.

Lemma createComment_foreign_parent (g : Generated)
    (input : CreateCommentInput) (userId : string) (w : World)
    (p : PostRow) (parent : string) (parentComment : Comment) :
  find (fun p => String.eqb (post_id p) (postId input)) (posts (db w))
  = Some p ->
  parentId input = Some parent ->
  parent <> "" ->
  find (fun c => String.eqb (comment_id c) parent) (comments (db w))
  = Some parentComment ->
  comment_postId parentComment <> postId input ->
  createComment g input userId w
  = (Throw (GraphQLErr "Parent comment does not belong to this post"
              ErrorCodes.BAD_USER_INPUT), w).
Proof.
  intros Hpost Hparent Hne Hfind Hdiff.
  unfold createComment, Prisma.post.findUnique, Prisma.comment.findUnique,
    bind, get_db, ret.
  rewrite Hpost, Hparent. cbn [truthy_opt]. unfold truthy.
  apply String.eqb_neq in Hne. rewrite Hne. cbn [negb].
  rewrite Hfind. apply String.eqb_neq in Hdiff. rewrite Hdiff.
  reflexivity.
Qed.

Lemma createComment_creates (g : Generated)
    (input : CreateCommentInput) (userId : string) (w : World)
    (p : PostRow) :
  find (fun p => String.eqb (post_id p) (postId input)) (posts (db w))
  = Some p ->
  parent_admissible input (db w) ->
  Prisma.user_exists (db w) userId = true ->
  Prisma.comment_exists (db w) (uuid g) = false ->
  createComment g input userId w
  = (Ok (Prisma.comment.new_row g userId (postId input) (content input)
           (parentId input)),
     mkWorld
       (with_comments (db w)
          (comments (db w)
           ++ [Prisma.comment.new_row g userId (postId input)
                 (content input) (parentId input)]))
       (log w ++ [(info, "Comment created: " ++ uuid g
                         ++ " by user: " ++ userId)])).
Proof.
  intros Hpost Hadm Huser Hfresh.
  unfold createComment, Prisma.post.findUnique, Prisma.comment.findUnique,
    Prisma.comment.create, bind, get_db, put_db, logger, ret.
  rewrite Hpost. unfold parent_admissible in Hadm.
  assert (Hpe : Prisma.post_exists (db w) (postId input) = true)
    by (unfold Prisma.post_exists;
        exact (find_some_existsb _ _ _ Hpost)).
  destruct (parentId input) as [parent |] eqn:Hparent.
  - destruct Hadm as [Hne [parentComment [Hfind Hsame]]].
    cbn [truthy_opt]. unfold truthy.
    apply String.eqb_neq in Hne. rewrite Hne. cbn [negb].
    rewrite Hfind, Hsame, String.eqb_refl. cbn [negb db].
    rewrite Hfresh, Huser, Hpe. cbn [negb].
    unfold Prisma.comment_exists.
    rewrite (find_some_existsb _ _ _ Hfind). reflexivity.
  - cbn [truthy_opt db]. rewrite Hfresh, Huser, Hpe. reflexivity.
Qed.

Lemma deleteComment_deletes (commentId userId userRole : string)
    (w : World) (c : Comment) :
  find (fun c => String.eqb (comment_id c) commentId) (comments (db w))
  = Some c ->
  userId = comment_userId c \/ userRole = "ADMIN" ->
  deleteComment commentId userId userRole w
  = (Ok true,
     mkWorld
       (with_comments (db w)
          (map (Prisma.comment.set_null commentId)
             (filter (fun c' => negb (String.eqb (comment_id c') commentId))
                (comments (db w)))))
       (log w ++ [(info, "Comment deleted: " ++ commentId
                         ++ " by user: " ++ userId)])).
Proof.
  intros Hfind Hauth.
  unfold deleteComment, Prisma.comment.findUnique, Prisma.comment.delete,
    AuthMiddleware.authorize, bind, get_db, put_db, logger, ret.
  rewrite Hfind.
  assert (Hok : negb (String.eqb userId (comment_userId c))
                && negb (opt_is (Some userRole) "ADMIN") = false).
  { destruct Hauth as [-> | ->].
    - rewrite String.eqb_refl. reflexivity.
    - cbn. apply andb_false_r. }
  rewrite Hok. cbn [db]. rewrite Hfind. reflexivity.
Qed.

End Comments.

(** A comment request on a stored post whose parent id is admissible, by a
    stored user and with an unused uuid, creates the comment with the
    parent id as given; a missing post, a missing parent and a parent of
    another post are rejected with NOT_FOUND, NOT_FOUND and BAD_USER_INPUT,
    for every parent id that is a non-empty string. *)
Lemma createComment_integrity :
  forall (g : Generated) (input : CommentService.CreateCommentInput)
         (userId : string) (w : World),
    (find (fun p => String.eqb (post_id p) (CommentService.postId input))
       (posts (db w)) = None ->
     CommentService.createComment g input userId w
     = (Throw (GraphQLErr "Post not found" "NOT_FOUND"), w))
    /\ (forall (p : PostRow) (parent : string),
          find (fun p => String.eqb (post_id p) (CommentService.postId input))
            (posts (db w)) = Some p ->
          CommentService.parentId input = Some parent ->
          parent <> "" ->
          match find (fun c => String.eqb (comment_id c) parent)
                  (comments (db w)) with
          | None =>
              CommentService.createComment g input userId w
              = (Throw (GraphQLErr "Parent comment not found" "NOT_FOUND"), w)
          | Some parentComment =>
              comment_postId parentComment <> CommentService.postId input ->
              CommentService.createComment g input userId w
              = (Throw (GraphQLErr
                          "Parent comment does not belong to this post"
                          "BAD_USER_INPUT"), w)
          end)
    /\ (forall p : PostRow,
          find (fun p => String.eqb (post_id p) (CommentService.postId input))
            (posts (db w)) = Some p ->
          parent_admissible input (db w) ->
          Prisma.user_exists (db w) userId = true ->
          Prisma.comment_exists (db w) (uuid g) = false ->
          exists (c : Comment) (w' : World),
            CommentService.createComment g input userId w = (Ok c, w')
            /\ comment_parentId c = CommentService.parentId input
            /\ comments (db w') = (comments (db w) ++ [c])%list).
Proof.
  intros g input userId w. split; [| split].
  - apply createComment_missing_post.
  - intros p parent Hpost Hparent Hne.
    destruct (find (fun c => String.eqb (comment_id c) parent)
                (comments (db w))) as [parentComment |] eqn:Hfind.
    + intros Hdiff.
      exact (createComment_foreign_parent g input userId w p parent
               parentComment Hpost Hparent Hne Hfind Hdiff).
    + exact (createComment_missing_parent g input userId w p parent
               Hpost Hparent Hne Hfind).
  - intros p Hpost Hadm Huser Hfresh.
    eexists. eexists. split.
    + exact (createComment_creates g input userId w p
               Hpost Hadm Huser Hfresh).
    + split; reflexivity.
Qed.

(** C8, at the input where the code departs from it.  The request names
    the stored post p-1 and supplies the empty string as parent id.  No
    comment has that id, so the claim asks for NOT_FOUND; createComment
    skips the parent checks (the empty string is falsy), hands the empty
    parent id to [create], and fails with the foreign-key error of the
    database. *)
Theorem createComment_empty_parent_id :
  CommentService.createComment (mkGenerated "c-new" 50)
    (CommentService.mkCreateCommentInput "p-1" "hello" (Some ""))
    "u-bob" Sample.world
  = (Throw (PrismaClientKnownRequestError "P2003"
              "Foreign key constraint failed on the field: `parentId`"),
     Sample.world)
  /\ find (fun c => String.eqb (comment_id c) "") (comments Sample.database)
     = None
  /\ Throw (A := Comment)
       (PrismaClientKnownRequestError "P2003"
          "Foreign key constraint failed on the field: `parentId`")
     <> Throw (GraphQLErr "Parent comment not found" "NOT_FOUND").
Proof.
  split; [reflexivity | split; [reflexivity | discriminate]].
Qed.

Lemma opt_is_false (a : option string) (b : string) :
  a <> Some b -> opt_is a b = false.
Proof.
  destruct a as [s |]; [| reflexivity]. intros H. cbn.
  apply String.eqb_neq. congruence.
Qed.

(** C9. deleteComment by the author of a stored comment, or by an
    administrator, succeeds and removes that comment only.  Every other
    stored comment is still stored afterwards: a reply to the deleted
    comment as the same row with its parent id cleared, any other comment
    (a top-level one, a reply to another comment, a reply to a reply)
    exactly as it was.  No other row appears or disappears, and the other
    tables are untouched. *)
Theorem deleteComment_orphans_replies :
  forall (w : World) (commentId userId userRole : string) (c : Comment),
    find (fun c => String.eqb (comment_id c) commentId) (comments (db w))
    = Some c ->
    userId = comment_userId c \/ userRole = "ADMIN" ->
    exists w' : World,
      CommentService.deleteComment commentId userId userRole w = (Ok true, w')
      /\ (forall c', In c' (comments (db w')) -> comment_id c' <> commentId)
      /\ (forall c',
            In c' (comments (db w)) -> comment_id c' <> commentId ->
            (comment_parentId c' = Some commentId ->
             In (orphaned c') (comments (db w')))
            /\ (comment_parentId c' <> Some commentId ->
                In c' (comments (db w'))))
      /\ comments (db w')
         = map (fun c' => if opt_is (comment_parentId c') commentId
                          then orphaned c' else c')
             (filter (fun c' => negb (String.eqb (comment_id c') commentId))
                (comments (db w)))
      /\ users (db w') = users (db w)
      /\ posts (db w') = posts (db w)
      /\ likes (db w') = likes (db w)
      /\ ratings (db w') = ratings (db w).
Proof.
  intros w commentId userId userRole c Hfind Hauth.
  eexists. split.
  - exact (deleteComment_deletes commentId userId userRole w c Hfind Hauth).
  - cbn [db with_comments comments users posts likes ratings].
    split; [| split; [| repeat split]].
    + intros c' Hin. apply in_map_iff in Hin as [c0 [Heq Hin]].
      apply filter_In in Hin as [_ Hne].
      apply negb_true_iff, String.eqb_neq in Hne.
      subst c'. unfold Prisma.comment.set_null.
      destruct (opt_is (comment_parentId c0) commentId); exact Hne.
    + intros c' Hin Hne.
      assert (Hkept :
        In c' (filter (fun c' => negb (String.eqb (comment_id c') commentId))
                 (comments (db w)))).
      { apply filter_In. split; [exact Hin |].
        apply negb_true_iff, String.eqb_neq. exact Hne. }
      apply (in_map (Prisma.comment.set_null commentId)) in Hkept.
      unfold Prisma.comment.set_null in Hkept at 1. split.
      * intros Hparent. rewrite Hparent in Hkept. cbn in Hkept.
        rewrite String.eqb_refl in Hkept. exact Hkept.
      * intros Hparent. rewrite (opt_is_false _ _ Hparent) in Hkept.
        exact Hkept.
Qed.

(** alice deletes her root comment, which has two replies, one of which
    has a reply of its own. *)
Lemma deleteComment_orphans_replies_witness :
  exists w' : World,
    CommentService.deleteComment "c-root" "u-alice" "USER" Sample.world
    = (Ok true, w')
    /\ comments (db w')
       = [mkComment "c-r1" "u-bob" "p-1" "reply one" None 11 11;
          mkComment "c-r2" "u-carol" "p-1" "reply two" None 12 13;
          Sample.nested_reply].
Proof.
  destruct (deleteComment_orphans_replies Sample.world "c-root" "u-alice"
              "USER" Sample.root_comment eq_refl (or_introl eq_refl))
    as [w' [Hrun [_ [_ [Hcomments _]]]]].
  exists w'. split; [exact Hrun |]. rewrite Hcomments. reflexivity.
Defined.

(** ** Request context *)

Section RequestContext.

Import Jsonwebtoken.

Variable hmacSHA256 : string -> string -> Payload -> string.
Variable config : Config.

(** verifyToken either returns, leaving the world as it was, or throws
    a plain [Error] after one log line; the database is never written. *)
Lemma verifyToken_cases (token : Token) (clock : Z) (w : World) :
  (exists p, JwtUtils.verifyToken hmacSHA256 config token clock w
             = (Ok p, w))
  \/ (exists message,
        JwtUtils.verifyToken hmacSHA256 config token clock w
        = (Throw (PlainError message),
           mkWorld (db w) (log w ++ [(error, "JWT verification failed")]))).
Proof.
  destruct (token_truthy token) eqn:Htruthy.
  - destruct (verify hmacSHA256 token (jwtSecret config)
                (JwtUtils.default_issuer config)
                (JwtUtils.default_audience config) clock)
      as [p | x] eqn:Hverify.
    + left. eexists.
      exact (verifyToken_returns hmacSHA256 config token clock w p
               Htruthy Hverify).
    + right. eexists.
      apply (verifyToken_throws hmacSHA256 config token clock w x).
      rewrite Htruthy. exact Hverify.
  - right. eexists.
    apply (verifyToken_throws hmacSHA256 config token clock w
             (PlainError "No token provided")).
    rewrite Htruthy. reflexivity.
Qed.

(** C10. The context builder returns a context for every request: no
    problem with the credential makes it throw, and it never writes to
    the database.  The caller is anonymous when there is no bearer
    token, when verifyToken rejects the token, when the verified payload
    has no subject id, and when the subject id is the id of no stored
    user; in each of these cases the context is the one that the same
    request without an authorization header gets. *)
Theorem context_anonymous_on_credential_problems :
  forall (h : Server.Headers) (randomUUID : string) (clock : Z)
         (w : World),
    let anonymous :=
      mkContext None (or_else (Server.x_request_id h) randomUUID) in
    exists (ctx : Context) (w' : World),
      Server.context hmacSHA256 config h randomUUID clock w = (Ok ctx, w')
      /\ db w' = db w
      /\ result_of
           (Server.context hmacSHA256 config
              (Server.mkHeaders None (Server.x_request_id h))
              randomUUID clock w)
         = Ok anonymous
      /\ (token_truthy (Server.bearer h) = false -> ctx = anonymous)
      /\ (forall x,
            result_of (JwtUtils.verifyToken hmacSHA256 config
                         (Server.bearer h) clock w) = Throw x ->
            ctx = anonymous)
      /\ (forall decoded,
            result_of (JwtUtils.verifyToken hmacSHA256 config
                         (Server.bearer h) clock w) = Ok decoded ->
            truthy_opt (JwtUtils.userId decoded) = false ->
            ctx = anonymous)
      /\ (forall decoded subject,
            result_of (JwtUtils.verifyToken hmacSHA256 config
                         (Server.bearer h) clock w) = Ok decoded ->
            JwtUtils.userId decoded = Some subject ->
            find (fun u => String.eqb (user_id u) subject) (users (db w))
            = None ->
            ctx = anonymous).
Proof.
  intros h randomUUID clock w anonymous.
  unfold Server.context.
  destruct (token_truthy (Server.bearer h)) eqn:Htruthy.
  - destruct (verifyToken_cases (Server.bearer h) clock w)
      as [[p Hrun] | [message Hrun]].
    + unfold try_catch, bind. rewrite Hrun.
      destruct (truthy_opt (JwtUtils.userId p)) eqn:Hsubject.
      * cbn [negb]. unfold Prisma.user.findUnique, bind, get_db, ret.
        destruct (find
                    (fun u =>
                       String.eqb (user_id u)
                         match JwtUtils.userId p with
                         | Some u0 => u0
                         | None => ""
                         end) (users (db w))) as [row |] eqn:Hrow.
        -- cbn. eexists. eexists.
           split; [reflexivity |]. split; [reflexivity |].
           split; [reflexivity |]. split; [discriminate |].
           split; [discriminate |]. split.
           ++ intros decoded Hd Hno. cbn in Hd. inversion Hd; subst.
              congruence.
           ++ intros decoded subject Hd Hs Hnone. cbn in Hd.
              inversion Hd; subst. rewrite Hs in Hrow. congruence.
        -- cbn. eexists. eexists.
           split; [reflexivity |]. split; [reflexivity |].
           split; [reflexivity |]. repeat split.
      * cbn. eexists. eexists.
        split; [reflexivity |]. split; [reflexivity |].
        split; [reflexivity |]. repeat split.
    + unfold try_catch, bind. rewrite Hrun. cbn.
      eexists. eexists.
      split; [reflexivity |]. split; [reflexivity |].
      split; [reflexivity |]. repeat split.
  - cbn. eexists. eexists.
    split; [reflexivity |]. split; [reflexivity |].
    split; [reflexivity |]. repeat split.
Qed.

End RequestContext.

(** A request with a correctly signed, unexpired token whose subject is
    not a stored user, and a request with an expired token. *)
Lemma context_anonymous_witness :
  result_of (Server.context Sample.hmac Sample.config
               (Sample.bearer_header Sample.dave_token) "req-1" 2000
               Sample.world)
  = Ok (mkContext None "req-1")
  /\ result_of (Server.context Sample.hmac Sample.config
                  (Sample.bearer_header Sample.expired_signed) "req-2" 2000
                  Sample.world)
     = Ok (mkContext None "req-2").
Proof.
  split.
  - destruct (context_anonymous_on_credential_problems Sample.hmac
                Sample.config (Sample.bearer_header Sample.dave_token)
                "req-1" 2000 Sample.world)
      as [ctx [w' [Hrun [_ [_ [_ [_ [_ Hdeleted]]]]]]]].
    rewrite Hrun.
    rewrite (Hdeleted (JwtUtils.as_JwtPayload Sample.dave_payload) "u-dave"
               eq_refl eq_refl eq_refl).
    reflexivity.
  - destruct (context_anonymous_on_credential_problems Sample.hmac
                Sample.config (Sample.bearer_header Sample.expired_signed)
                "req-2" 2000 Sample.world)
      as [ctx [w' [Hrun [_ [_ [_ [Hrejected _]]]]]]].
    rewrite Hrun.
    rewrite (Hrejected (PlainError "Authentication token expired") eq_refl).
    reflexivity.
Defined.

(** ** Worked examples *)

(** The errors that the services throw are [GraphQLError]s, not
    [ServiceError]s: handed to [handle] they take the fallback branch. *)
Example handle_graphql_error :
  result_of (ErrorHandler.handle
               (AnError "GraphQLError" "Post not found"
                  "GraphQLError: Post not found at LikeService.likePost")
               Sample.empty_world)
  = Ok ErrorHandler.internalServerError.
Proof. reflexivity. Qed.

Example handle_service_error :
  result_of (ErrorHandler.handle
               (AServiceError (NotFoundError "Post" None "NotFoundError: at"))
               Sample.empty_world)
  = Ok (mkGraphQLError "Post not found" (Some "NOT_FOUND") (Some 404) None).
Proof. reflexivity. Qed.

Example handle_unique_violation :
  result_of (ErrorHandler.handle
               (AnError "PrismaClientKnownRequestError"
                  "Unique constraint failed on the constraint: `PRIMARY`" "")
               Sample.empty_world)
  = Ok ErrorHandler.conflict.
Proof. reflexivity. Qed.

(** A request with bob's unexpired token is bob's. *)
Example context_authenticated :
  result_of (Server.context Sample.hmac Sample.config
               (Sample.bearer_header Sample.bob_token) "req-3" 2000
               Sample.world)
  = Ok (mkContext (Some (mkCtxUser "u-bob" "bob" "bob@example.com" "USER"))
          "req-3").
Proof. reflexivity. Qed.

(** A token issued for another issuer does not verify here. *)
Example verify_other_issuer :
  exists token,
    JwtUtils.generateToken Sample.hmac Sample.ms Sample.config
      Sample.alice_claims
      (JwtUtils.mkTokenOptions None (Some "another-app") None)
      1700000000 Sample.empty_world
    = (Ok token, Sample.empty_world)
    /\ result_of (JwtUtils.verifyToken Sample.hmac Sample.config token
                    1700000001 Sample.empty_world)
       = Throw (PlainError "Invalid authentication token").
Proof. eexists. split; reflexivity. Qed.

(** A correctly signed token without a subject id passes verifyToken (the
    subject is checked by the context builder), and refreshToken reissues
    it. *)
Example refresh_without_subject :
  let body :=
    Jsonwebtoken.mkPayload None None None (Some 0) (Some 5000) None
      (Some "your-app-name") (Some "your-app-client") in
  let token :=
    Jsonwebtoken.Compact
      (Jsonwebtoken.mkJws "HS256" body (Sample.hmac "s3cret" "HS256" body)) in
  result_of (JwtUtils.verifyToken Sample.hmac Sample.config token 2000
               Sample.empty_world)
  = Ok (JwtUtils.mkJwtPayload None None None (Some 0) (Some 5000))
  /\ exists reissued,
       result_of (JwtUtils.refreshToken Sample.hmac Sample.ms Sample.config
                    token None 2000 Sample.empty_world)
       = Ok reissued.
Proof. split; [reflexivity | eexists; reflexivity]. Qed.

(** unlikePost without a stored like fails with NOT_FOUND. *)
Example unlikePost_not_found :
  LikeService.unlikePost "p-2" "u-alice" Sample.world
  = (Throw (GraphQLErr "Like not found" "NOT_FOUND"), Sample.world).
Proof. reflexivity. Qed.

(* ================================================================== *)
(** * Further properties of the modelled code *)

(** ** Authorization policy: the administrator gate *)

(** X1. isAdmin never writes.  Without a caller it fails with
    UNAUTHENTICATED; with a caller whose role is not ["ADMIN"] it fails
    with UNAUTHORIZED; otherwise it returns the caller.  Whoever passes
    isAdmin passes authorize for every resource owner. *)
Theorem isAdmin_decision :
  forall (context : Context) (w : World),
    world_of (AuthMiddleware.isAdmin context w) = w
    /\ (user context = None ->
        result_of (AuthMiddleware.isAdmin context w)
        = Throw (GraphQLErr "Not authenticated" "UNAUTHENTICATED"))
    /\ (forall u, user context = Some u -> role u <> "ADMIN" ->
        result_of (AuthMiddleware.isAdmin context w)
        = Throw (GraphQLErr "Admin access required" "UNAUTHORIZED"))
    /\ (forall u,
          result_of (AuthMiddleware.isAdmin context w) = Ok u
          <-> user context = Some u /\ role u = "ADMIN")
    /\ (forall u owner w',
          result_of (AuthMiddleware.isAdmin context w) = Ok u ->
          AuthMiddleware.authorize (id u) owner (Some (role u)) w'
          = (Ok tt, w')).
Proof.
  intros context w.
  unfold AuthMiddleware.isAdmin, AuthMiddleware.authenticate, bind, ret,
    throw, result_of, world_of.
  destruct (user context) as [u0 |].
  - destruct (String.eqb_spec (role u0) "ADMIN") as [Hadmin | Hother]; cbn.
    + split; [reflexivity |]. split; [discriminate |].
      split; [intros u Hu; inversion Hu; subst; contradiction |].
      split.
      * intros u. split.
        -- intros Hu. inversion Hu; subst. split; [reflexivity | exact Hadmin].
        -- intros [Hu _]. inversion Hu; subst. reflexivity.
      * intros u owner w' Hu. inversion Hu; subst.
        unfold AuthMiddleware.authorize. rewrite Hadmin. cbn.
        rewrite andb_false_r. reflexivity.
    + split; [reflexivity |]. split; [discriminate |].
      split; [reflexivity |].
      split.
      * intros u. split; [discriminate |].
        intros [Hu Hrole]. inversion Hu; subst. contradiction.
      * discriminate.
  - cbn. split; [reflexivity |]. split; [reflexivity |].
    split; [discriminate |].
    split; [| discriminate].
    intros u. split; [discriminate | intros [Hu _]; discriminate].
Qed.

(** ** Error classifier: the recognized shapes *)

(** X2. The result of [handle] does not depend on the stack of the
    failure: two errors with the same name and message are classified
    alike; two service errors with the same message, code, status and
    details are classified alike, whatever their class names and stacks;
    and all values that are not errors get the same result. *)
Theorem handle_ignores_stack :
  forall (w w' : World),
    (forall name message stack stack',
        result_of (ErrorHandler.handle (AnError name message stack) w)
        = result_of (ErrorHandler.handle (AnError name message stack') w'))
    /\ (forall e e',
          se_message e = se_message e' -> se_code e = se_code e' ->
          se_statusCode e = se_statusCode e' ->
          se_details e = se_details e' ->
          result_of (ErrorHandler.handle (AServiceError e) w)
          = result_of (ErrorHandler.handle (AServiceError e') w'))
    /\ (forall repr repr',
          result_of (ErrorHandler.handle (NotAnError repr) w)
          = result_of (ErrorHandler.handle (NotAnError repr') w')).
Proof.
  intros w w'. split; [| split].
  - intros name message stack stack'.
    unfold ErrorHandler.handle, ErrorHandler.handle_rest. cbn.
    destruct (String.eqb name "PrismaClientKnownRequestError");
      destruct (String.eqb name "ValidationError");
      destruct (includes message "Unique constraint failed");
      destruct (includes message "Record to update not found");
      reflexivity.
  - intros e e' Hm Hc Hs Hd. cbn. rewrite Hm, Hc, Hs, Hd. reflexivity.
  - reflexivity.
Qed.

Lemma handle_ignores_stack_witness :
  result_of (ErrorHandler.handle
               (AServiceError (NotFoundError "Post" None "at a"))
               Sample.empty_world)
  = result_of (ErrorHandler.handle
                 (AServiceError
                    (mkServiceError "Custom" "Post not found" "NOT_FOUND" 404
                       None "at b"))
                 Sample.world).
Proof.
  apply (proj1 (proj2 (handle_ignores_stack Sample.empty_world Sample.world)));
    reflexivity.
Defined.

(** X3. A Prisma known-request error whose message mentions a failed
    unique constraint is classified as CONFLICT with status 409 and the
    fixed message, whatever else its message and stack contain, also when
    the message mentions a missing record to update; one that only
    mentions the missing record to update is classified as NOT_FOUND with
    status 404.  The message of the database never reaches the result. *)
Theorem handle_prisma_mapping :
  forall (message stack : string) (w : World),
    (includes message "Unique constraint failed" = true ->
     result_of (ErrorHandler.handle
                  (AnError "PrismaClientKnownRequestError" message stack) w)
     = Ok (mkGraphQLError "Resource already exists"
             (Some "CONFLICT") (Some 409) None))
    /\ (includes message "Unique constraint failed" = false ->
        includes message "Record to update not found" = true ->
        result_of (ErrorHandler.handle
                     (AnError "PrismaClientKnownRequestError" message stack) w)
        = Ok (mkGraphQLError "Resource not found"
                (Some "NOT_FOUND") (Some 404) None)).
Proof.
  intros message stack w.
  unfold ErrorHandler.handle, ErrorHandler.handle_rest. cbn. split.
  - intros H. rewrite H. reflexivity.
  - intros H1 H2. rewrite H1, H2. reflexivity.
Qed.

Lemma handle_prisma_mapping_witness :
  result_of (ErrorHandler.handle
               (AnError "PrismaClientKnownRequestError"
                  "Unique constraint failed on the constraint: `Like_userId_postId_key`"
                  "at like.create")
               Sample.empty_world)
  = Ok (mkGraphQLError "Resource already exists"
          (Some "CONFLICT") (Some 409) None)
  /\ result_of (ErrorHandler.handle
                  (AnError "PrismaClientKnownRequestError"
                     "An operation failed. Record to update not found."
                     "at rating.update")
                  Sample.empty_world)
     = Ok (mkGraphQLError "Resource not found"
             (Some "NOT_FOUND") (Some 404) None).
Proof.
  split.
  - apply (proj1 (handle_prisma_mapping _ _ _)). reflexivity.
  - apply (proj2 (handle_prisma_mapping _ _ _)); reflexivity.
Defined.

(** X4. withErrorHandling returns what [fn] returns, with the world [fn]
    left.  When [fn] throws one of the [GraphQLError]s of the services,
    whatever its code (NOT_FOUND, BAD_USER_INPUT, UNAUTHORIZED, ...), the
    error that comes out is the generic INTERNAL_SERVER_ERROR with status
    500: a [GraphQLError] is not a [ServiceError].  When [fn] throws the
    unique-constraint error of the Prisma client, CONFLICT comes out.
    [handle] itself never throws. *)
Theorem withErrorHandling_outcomes :
  forall (A : Type) (stack_of : Exn -> string) (fn : M A) (w : World),
    (forall a w', fn w = (Ok a, w') ->
       ErrorHandler.withErrorHandling stack_of fn w = (ErrorHandler.Returned a, w'))
    /\ (forall message code w', fn w = (Throw (GraphQLErr message code), w') ->
        fst (ErrorHandler.withErrorHandling stack_of fn w)
        = ErrorHandler.Rethrown (mkGraphQLError "Internal server error"
                      (Some "INTERNAL_SERVER_ERROR") (Some 500) None))
    /\ (forall constraint w',
          fn w = (Throw (Prisma.uniqueConstraintFailed constraint), w') ->
          fst (ErrorHandler.withErrorHandling stack_of fn w)
          = ErrorHandler.Rethrown (mkGraphQLError "Resource already exists"
                        (Some "CONFLICT") (Some 409) None))
    /\ (forall e,
          fst (ErrorHandler.withErrorHandling stack_of fn w) <> ErrorHandler.Escaped e).
Proof.
  intros A stack_of fn w. unfold ErrorHandler.withErrorHandling.
  split; [| split; [| split]].
  - intros a w' H. rewrite H. reflexivity.
  - intros message code w' H. rewrite H. reflexivity.
  - intros constraint w' H. rewrite H. reflexivity.
  - intros e. destruct (fn w) as [[a | x] w']; [discriminate |].
    unfold ErrorHandler.as_unknown, ErrorHandler.handle,
      ErrorHandler.handle_rest.
    destruct x; cbn; try discriminate.
    destruct (includes message "Unique constraint failed");
      [discriminate |].
    destruct (includes message "Record to update not found"); discriminate.
Qed.

(** unlikePost without a stored like, and likePost with a uuid that is
    already the id of a like. *)
Lemma withErrorHandling_outcomes_witness :
  fst (ErrorHandler.withErrorHandling (fun _ => "")
         (LikeService.unlikePost "p-2" "u-alice") Sample.world)
  = ErrorHandler.Rethrown (mkGraphQLError "Internal server error"
                (Some "INTERNAL_SERVER_ERROR") (Some 500) None)
  /\ fst (ErrorHandler.withErrorHandling (fun _ => "")
            (LikeService.likePost (mkGenerated "l-1" 30) "p-1" "u-alice")
            Sample.world)
     = ErrorHandler.Rethrown (mkGraphQLError "Resource already exists"
                   (Some "CONFLICT") (Some 409) None).
Proof.
  split.
  - apply (proj1 (proj2 (withErrorHandling_outcomes bool (fun _ => "")
                           (LikeService.unlikePost "p-2" "u-alice")
                           Sample.world))
             "Like not found" "NOT_FOUND" Sample.world).
    reflexivity.
  - apply (proj1 (proj2 (proj2 (withErrorHandling_outcomes Like (fun _ => "")
                                  (LikeService.likePost
                                     (mkGenerated "l-1" 30) "p-1" "u-alice")
                                  Sample.world)))
             "PRIMARY" Sample.world).
    reflexivity.
Defined.

(** ** Credential codec: acceptance, failures, options, reissue *)

Section CredentialCodecMore.

Import Jsonwebtoken JwtUtils.

Variable hmacSHA256 : string -> string -> Payload -> string.
Variable ms : string -> option Z.
Variable config : Config.

(** The claims of a payload pass the checks of [jwt.verify] for an issuer
    and an audience at a clock reading. *)
Lemma verify_claims_ok (p : Payload) (issuer audience : string) (clock : Z) :
  truthy issuer = true -> truthy audience = true ->
  forall p',
    verify_claims p issuer audience clock = Ok p'
    <-> (match nbf p with Some n => n <= clock | None => True end
         /\ match Jsonwebtoken.exp p with
            | Some e => clock < e
            | None => True
            end
         /\ aud p = Some audience
         /\ iss p = Some issuer
         /\ p' = p).
Proof.
  intros Hi Ha p'. unfold verify_claims, opt_is. rewrite Hi, Ha. cbn [andb].
  destruct (nbf p) as [n |];
    [destruct (Z.ltb_spec clock n) as [Hn | Hn] |];
    (destruct (Jsonwebtoken.exp p) as [e |];
     [destruct (Z.leb_spec e clock) as [He | He] |]);
    (destruct (aud p) as [a |];
     [destruct (String.eqb_spec a audience) as [Ha' | Ha'] |]);
    (destruct (iss p) as [i |];
     [destruct (String.eqb_spec i issuer) as [Hi' | Hi'] |]);
    cbn;
    (split;
     [ intros Heq; try discriminate Heq; inversion Heq; subst;
       repeat split; auto; lia
     | intros (H1 & H2 & H3 & H4 & H5); subst;
       try lia; try congruence; reflexivity ]).
Qed.

(** The body of the [try] block of verifyToken. *)
Lemma verifyToken_body_not_jws (s : string) (clock : Z) :
  exists e,
    (if negb (token_truthy (NotJws s))
     then Throw (PlainError "No token provided")
     else verify hmacSHA256 (NotJws s) (jwtSecret config)
            (default_issuer config) (default_audience config) clock)
    = Throw e.
Proof.
  cbn. destruct (truthy s); cbn; eexists; reflexivity.
Qed.

(** A token that verifyToken accepts is a compact JWS that passed every
    check, and the call has left the world as it was. *)
Lemma verifyToken_ok_inv :
  forall (token : Token) (clock : Z) (w : World) (p : JwtPayload),
    result_of (verifyToken hmacSHA256 config token clock w) = Ok p ->
    verifyToken hmacSHA256 config token clock w = (Ok p, w)
    /\ exists j,
         token = Compact j
         /\ signature_accepted hmacSHA256 config j = true
         /\ match nbf (payload j) with Some n => n <= clock | None => True end
         /\ match Jsonwebtoken.exp (payload j) with
            | Some e => clock < e
            | None => True
            end
         /\ aud (payload j) = Some (default_audience config)
         /\ iss (payload j) = Some (default_issuer config)
         /\ p = as_JwtPayload (payload j).
Proof.
  intros token clock w p Hok.
  destruct token as [s | j].
  - destruct (verifyToken_body_not_jws s clock) as [e He].
    rewrite (verifyToken_throws hmacSHA256 config (NotJws s) clock w e He)
      in Hok.
    discriminate Hok.
  - destruct (signature_accepted hmacSHA256 config j) eqn:Hacc.
    + pose proof (verify_accepted hmacSHA256 config j (default_issuer config)
                    (default_audience config) clock Hacc) as Hverify.
      destruct (verify_claims (payload j) (default_issuer config)
                  (default_audience config) clock) as [p' | x] eqn:Hclaims.
      * pose proof (verifyToken_returns hmacSHA256 config (Compact j) clock w
                      p' eq_refl Hverify) as Hrun.
        rewrite Hrun in Hok. cbn [result_of fst] in Hok.
        inversion Hok; subst p.
        apply (verify_claims_ok (payload j) _ _ clock
                 (default_issuer_truthy config)
                 (default_audience_truthy config)) in Hclaims.
        destruct Hclaims as (Hn & He & Ha & Hi & ->).
        split; [exact Hrun |]. exists j. repeat split; auto.
      * rewrite (verifyToken_throws hmacSHA256 config (Compact j) clock w x)
          in Hok by (cbn [token_truthy negb]; exact Hverify).
        discriminate Hok.
    + destruct (verify_not_accepted hmacSHA256 config j
                  (default_issuer config) (default_audience config) clock Hacc)
        as [x [Hx _]].
      rewrite (verifyToken_throws hmacSHA256 config (Compact j) clock w x)
        in Hok by (cbn [token_truthy negb]; exact Hx).
      discriminate Hok.
Qed.

(** A compact JWS that passes every check is accepted, and its payload is
    what verifyToken returns. *)
Lemma verifyToken_ok_intro :
  forall (j : Jws) (clock : Z) (w : World),
    signature_accepted hmacSHA256 config j = true ->
    match nbf (payload j) with Some n => n <= clock | None => True end ->
    match Jsonwebtoken.exp (payload j) with
    | Some e => clock < e
    | None => True
    end ->
    aud (payload j) = Some (default_audience config) ->
    iss (payload j) = Some (default_issuer config) ->
    verifyToken hmacSHA256 config (Compact j) clock w
    = (Ok (as_JwtPayload (payload j)), w).
Proof.
  intros j clock w Hacc Hn He Ha Hi.
  apply (verifyToken_returns hmacSHA256 config (Compact j) clock w (payload j)
           eq_refl).
  rewrite (verify_accepted hmacSHA256 config j (default_issuer config)
             (default_audience config) clock Hacc).
  apply (verify_claims_ok (payload j) _ _ clock
           (default_issuer_truthy config) (default_audience_truthy config)).
  repeat split; assumption.
Qed.

(** An accepted token is a non-empty one, and the call is a pure read. *)
Lemma verifyToken_ok_run :
  forall (token : Token) (clock : Z) (w : World) (p : JwtPayload),
    result_of (verifyToken hmacSHA256 config token clock w) = Ok p ->
    token_truthy token = true
    /\ verifyToken hmacSHA256 config token clock w = (Ok p, w).
Proof.
  intros token clock w p Hok.
  destruct (verifyToken_ok_inv token clock w p Hok) as [Hrun (j & -> & _)].
  split; [reflexivity | exact Hrun].
Qed.

(** X5. verifyToken accepts a token exactly when all of its checks pass
    together: the token is a compact JWS whose header names HS256 and
    whose signature part is the keyed hash under the configured secret,
    a not-before claim (if any) has been reached, an expiry claim (if
    any) has not, and audience and issuer are the configured ones.  What
    it returns is then the payload of the token, and the world is left as
    it was. *)
Theorem verifyToken_accepts_iff :
  forall (token : Token) (clock : Z) (w : World) (p : JwtPayload),
    (result_of (verifyToken hmacSHA256 config token clock w) = Ok p
     <-> exists j,
           token = Compact j
           /\ signature_accepted hmacSHA256 config j = true
           /\ match nbf (payload j) with Some n => n <= clock | None => True end
           /\ match Jsonwebtoken.exp (payload j) with
              | Some e => clock < e
              | None => True
              end
           /\ aud (payload j) = Some (default_audience config)
           /\ iss (payload j) = Some (default_issuer config)
           /\ p = as_JwtPayload (payload j))
    /\ (result_of (verifyToken hmacSHA256 config token clock w) = Ok p ->
        world_of (verifyToken hmacSHA256 config token clock w) = w).
Proof.
  intros token clock w p. split; [split |].
  - intros Hok. exact (proj2 (verifyToken_ok_inv token clock w p Hok)).
  - intros (j & -> & Hacc & Hn & He & Ha & Hi & ->).
    rewrite (verifyToken_ok_intro j clock w Hacc Hn He Ha Hi). reflexivity.
  - intros Hok. rewrite (proj1 (verifyToken_ok_inv token clock w p Hok)).
    reflexivity.
Qed.

(** X6. Every failure of verifyToken is a plain [Error] with one of three
    messages, thrown after exactly one line has been logged and without a
    write to the database.  For the empty token the message is the
    generic one: the error ["No token provided"] raised inside the [try]
    block is caught by the same block and never comes out. *)
Theorem verifyToken_failure_messages :
  forall (token : Token) (clock : Z) (w : World),
    (forall x,
        result_of (verifyToken hmacSHA256 config token clock w) = Throw x ->
        (x = PlainError "Authentication token expired"
         \/ x = PlainError "Invalid authentication token"
         \/ x = PlainError "Authentication verification failed")
        /\ world_of (verifyToken hmacSHA256 config token clock w)
           = mkWorld (db w) (log w ++ [(error, "JWT verification failed")]))
    /\ (token_truthy token = false ->
        result_of (verifyToken hmacSHA256 config token clock w)
        = Throw (PlainError "Authentication verification failed")).
Proof.
  intros token clock w. split.
  - intros x Hx.
    destruct (if negb (token_truthy token)
              then Throw (PlainError "No token provided")
              else verify hmacSHA256 token (jwtSecret config)
                     (default_issuer config) (default_audience config) clock)
      as [p | e] eqn:Hbody.
    + destruct (token_truthy token) eqn:Ht; [| discriminate Hbody].
      cbn in Hbody.
      rewrite (verifyToken_returns hmacSHA256 config token clock w p Ht Hbody)
        in Hx.
      discriminate Hx.
    + rewrite (verifyToken_throws hmacSHA256 config token clock w e Hbody)
        in Hx |- *.
      cbn in Hx. inversion Hx; subst x. split; [| reflexivity].
      destruct (instanceof_TokenExpiredError e); [now left |].
      destruct (instanceof_JsonWebTokenError e); [right; now left |].
      right; now right.
  - intros Ht.
    rewrite (verifyToken_throws hmacSHA256 config token clock w
               (PlainError "No token provided")).
    + reflexivity.
    + rewrite Ht. reflexivity.
Qed.

(** The token that generateToken issues under a usable configuration. *)
Lemma generateToken_issues :
  forall (claims : Claims) (options : TokenOptions) (clock : Z) (w : World)
         (secret : string) (span : Z),
    let lifetime := merged (expiresIn options) (default_expiresIn config) in
    let issuer' := merged (issuer options) (default_issuer config) in
    let audience' := merged (audience options) (default_audience config) in
    jwtSecret config = Some secret -> truthy secret = true ->
    truthy lifetime = true -> ms lifetime = Some span ->
    generateToken hmacSHA256 ms config claims options clock w
    = (Ok (Compact
             (mkJws "HS256"
                (mkPayload (claim_userId claims) (claim_username claims)
                   (claim_role claims) (Some clock)
                   (Some (clock + span / 1000)) None
                   (Some issuer') (Some audience'))
                (hmacSHA256 secret "HS256"
                   (mkPayload (claim_userId claims)
                      (claim_username claims) (claim_role claims)
                      (Some clock) (Some (clock + span / 1000)) None
                      (Some issuer') (Some audience'))))),
       w).
Proof.
  intros claims options clock w secret span lifetime issuer' audience'
    Hs Ht Hl Hms.
  unfold generateToken, try_catch, lift, sign.
  fold lifetime issuer' audience'.
  rewrite Hs, Ht, Hl, Hms. reflexivity.
Qed.


(** X8. A token issued with an issuer or an audience option that differs
    from the configured one is rejected by verifyToken as invalid at any
    moment before its expiry. *)
Theorem generateToken_foreign_issuer_rejected :
  forall (claims : Claims) (options : TokenOptions) (secret : string)
         (span clock clock' : Z) (w : World),
    jwtSecret config = Some secret ->
    truthy secret = true ->
    truthy (merged (expiresIn options) (default_expiresIn config)) = true ->
    ms (merged (expiresIn options) (default_expiresIn config)) = Some span ->
    clock' < clock + span / 1000 ->
    merged (issuer options) (default_issuer config) <> default_issuer config
    \/ merged (audience options) (default_audience config)
       <> default_audience config ->
    exists token,
      generateToken hmacSHA256 ms config claims options clock w
      = (Ok token, w)
      /\ result_of (verifyToken hmacSHA256 config token clock' w)
         = Throw (PlainError "Invalid authentication token").
Proof.
  intros claims options secret span clock clock' w Hs Ht Hl Hms Hfresh Hdiff.
  eexists. split.
  - exact (generateToken_issues claims options clock w secret span
             Hs Ht Hl Hms).
  - set (body := mkPayload _ _ _ _ _ _ _ _).
    assert (Hbody : exists e,
      verify hmacSHA256 (Compact (mkJws "HS256" body
                                    (hmacSHA256 secret "HS256" body)))
        (jwtSecret config) (default_issuer config) (default_audience config)
        clock' = Throw e
      /\ instanceof_TokenExpiredError e = false
      /\ instanceof_JsonWebTokenError e = true).
    { unfold verify. rewrite Hs. cbn [signature alg payload truthy_opt].
      rewrite Ht. cbn [negb andb].
      destruct (truthy (hmacSHA256 secret "HS256" body));
        [| eexists; repeat split].
      cbn. rewrite String.eqb_refl.
      unfold verify_claims, body. cbn.
      replace (clock + span / 1000 <=? clock') with false
        by (symmetry; apply Z.leb_gt; exact Hfresh).
      rewrite default_audience_truthy, default_issuer_truthy. cbn.
      destruct (String.eqb_spec
                  (merged (audience options) (default_audience config))
                  (default_audience config)) as [Ha | Ha]; cbn;
        [| eexists; repeat split].
      destruct (String.eqb_spec
                  (merged (issuer options) (default_issuer config))
                  (default_issuer config)) as [Hi | Hi]; cbn;
        [| eexists; repeat split].
      destruct Hdiff; contradiction. }
    destruct Hbody as [e [He [Hexp Hjwt]]].
    rewrite (verifyToken_throws hmacSHA256 config _ clock' w e)
      by (cbn [token_truthy negb]; exact He).
    cbn. rewrite Hexp, Hjwt. reflexivity.
Qed.

(** X9. refreshToken of a token that verifyToken accepts returns a new
    token with the same subject id, username and role, issued at the
    moment of the call and expiring after the given lifetime, or after
    the default one when none (or the empty string) is given; until then
    verifyToken accepts the new token and returns those claims. *)
Theorem refreshToken_roundtrip :
  forall (token : Token) (newExpiry : option string) (old : JwtPayload)
         (span clock clock' : Z) (w : World),
    (forall key a p, truthy (hmacSHA256 key a p) = true) ->
    result_of (verifyToken hmacSHA256 config token clock w) = Ok old ->
    ms (or_else newExpiry (default_expiresIn config)) = Some span ->
    clock' < clock + span / 1000 ->
    exists token',
      refreshToken hmacSHA256 ms config token newExpiry clock w
      = (Ok token', w)
      /\ verifyToken hmacSHA256 config token' clock' w
         = (Ok (mkJwtPayload (userId old) (username old) (role old)
                  (Some clock) (Some (clock + span / 1000))), w).
Proof.
  intros token newExpiry old span clock clock' w Hmac Hold Hms Hfresh.
  destruct (verifyToken_ok_inv token clock w old Hold)
    as [Hrun (j & -> & Hacc & _)].
  assert (Hsecret : exists secret,
            jwtSecret config = Some secret /\ truthy secret = true).
  { unfold signature_accepted in Hacc.
    destruct (jwtSecret config) as [secret |]; [| discriminate].
    exists secret. split; [reflexivity |].
    destruct (truthy secret); [reflexivity | discriminate]. }
  destruct Hsecret as [secret [Hs Ht]].
  assert (Hl : truthy (or_else newExpiry (default_expiresIn config)) = true)
    by (apply truthy_or_else, default_expiresIn_truthy).
  eexists. split.
  - unfold refreshToken, try_catch, bind. rewrite Hrun.
    rewrite (generateToken_issues
               (mkClaims (userId old) (username old) (role old))
               (mkTokenOptions
                  (Some (or_else newExpiry (default_expiresIn config)))
                  None None)
               clock w secret span Hs Ht Hl Hms).
    reflexivity.
  - apply (verifyToken_returns hmacSHA256 config _ clock' w
             (mkPayload (userId old) (username old) (role old)
                (Some clock) (Some (clock + span / 1000)) None
                (Some (default_issuer config))
                (Some (default_audience config))));
      [reflexivity |].
    rewrite verify_accepted.
    + unfold verify_claims. cbn.
      replace (clock + span / 1000 <=? clock') with false
        by (symmetry; apply Z.leb_gt; exact Hfresh).
      rewrite default_audience_truthy, default_issuer_truthy.
      rewrite !String.eqb_refl. reflexivity.
    + unfold signature_accepted. rewrite Hs, Ht. cbn.
      rewrite Hmac, String.eqb_refl. reflexivity.
Qed.

End CredentialCodecMore.

(** bob's sample token, valid until 5000, read at 2000. *)
Lemma verifyToken_accepts_iff_witness :
  result_of (JwtUtils.verifyToken Sample.hmac Sample.config Sample.bob_token
               2000 Sample.empty_world)
  = Ok (JwtUtils.as_JwtPayload Sample.bob_payload).
Proof.
  apply (proj1 (verifyToken_accepts_iff Sample.hmac Sample.config
                  Sample.bob_token 2000 Sample.empty_world
                  (JwtUtils.as_JwtPayload Sample.bob_payload))).
  exists (Jsonwebtoken.mkJws "HS256" Sample.bob_payload
            (Sample.hmac "s3cret" "HS256" Sample.bob_payload)).
  repeat split; reflexivity.
Defined.

Lemma verifyToken_failure_messages_witness :
  (PlainError "Invalid authentication token"
   = PlainError "Authentication token expired"
   \/ PlainError "Invalid authentication token"
      = PlainError "Invalid authentication token"
   \/ PlainError "Invalid authentication token"
      = PlainError "Authentication verification failed")
  /\ world_of (JwtUtils.verifyToken Sample.hmac Sample.config
                 Sample.expired_forged 2000 Sample.empty_world)
     = mkWorld (db Sample.empty_world)
         (log Sample.empty_world ++ [(error, "JWT verification failed")]).
Proof.
  apply (proj1 (verifyToken_failure_messages Sample.hmac Sample.config
                  Sample.expired_forged 2000 Sample.empty_world)
           (PlainError "Invalid authentication token")).
  reflexivity.
Defined.


Lemma generateToken_foreign_issuer_rejected_witness :
  exists token,
    JwtUtils.generateToken Sample.hmac Sample.ms Sample.config
      Sample.alice_claims
      (JwtUtils.mkTokenOptions None (Some "another-app") None)
      1700000000 Sample.empty_world
    = (Ok token, Sample.empty_world)
    /\ result_of (JwtUtils.verifyToken Sample.hmac Sample.config token
                    1700000001 Sample.empty_world)
       = Throw (PlainError "Invalid authentication token").
Proof.
  apply (generateToken_foreign_issuer_rejected Sample.hmac Sample.ms
           Sample.config Sample.alice_claims
           (JwtUtils.mkTokenOptions None (Some "another-app") None)
           "s3cret" 3600000 1700000000 1700000001 Sample.empty_world);
    try reflexivity.
  left. discriminate.
Defined.

(** bob's sample token is refreshed at 2000 for seven days. *)
Lemma refreshToken_roundtrip_witness :
  exists token',
    JwtUtils.refreshToken Sample.hmac Sample.ms Sample.config
      Sample.bob_token (Some "7d") 2000 Sample.empty_world
    = (Ok token', Sample.empty_world)
    /\ JwtUtils.verifyToken Sample.hmac Sample.config token' 600000
         Sample.empty_world
       = (Ok (JwtUtils.mkJwtPayload (Some "u-bob") (Some "bob") (Some "USER")
                (Some 2000) (Some (2000 + 604800000 / 1000))),
          Sample.empty_world).
Proof.
  apply (refreshToken_roundtrip Sample.hmac Sample.ms Sample.config
           Sample.bob_token (Some "7d")
           (JwtUtils.as_JwtPayload Sample.bob_payload)
           604800000 2000 600000 Sample.empty_world).
  - intros key a p. reflexivity.
  - reflexivity.
  - reflexivity.
  - reflexivity.
Defined.

(** ** Request context: the authenticated caller *)

Section RequestContextMore.

Import Jsonwebtoken.

Variable hmacSHA256 : string -> string -> Payload -> string.
Variable ms : string -> option Z.
Variable config : Config.

(** The context built after a successful verification of the bearer
    token, for a subject that is stored. *)
Lemma context_stored_subject_run :
  forall (h : Server.Headers) (randomUUID : string) (clock : Z) (w : World)
         (decoded : JwtUtils.JwtPayload) (subject : string) (row : UserRow),
    token_truthy (Server.bearer h) = true ->
    JwtUtils.verifyToken hmacSHA256 config (Server.bearer h) clock w
    = (Ok decoded, w) ->
    JwtUtils.userId decoded = Some subject ->
    subject <> "" ->
    find (fun u => String.eqb (user_id u) subject) (users (db w)) = Some row ->
    Server.context hmacSHA256 config h randomUUID clock w
    = (Ok (mkContext
             (Some (mkCtxUser (user_id row) (user_username row)
                      (user_email row) (role_string (user_role row))))
             (or_else (Server.x_request_id h) randomUUID)),
       w).
Proof.
  intros h randomUUID clock w decoded subject row Htok Hrun Hsub Hne Hrow.
  unfold Server.context. rewrite Htok.
  unfold try_catch, bind. rewrite Hrun, Hsub. cbn [truthy_opt].
  unfold truthy. apply String.eqb_neq in Hne. rewrite Hne. cbn [negb].
  unfold Prisma.user.findUnique, bind, get_db, ret. rewrite Hrow.
  reflexivity.
Qed.

(** X10. When verifyToken accepts the bearer token and its subject id is
    the id of a stored user, the caller of the context is that user as
    the database has it: id, username, email and role come from the stored
    row, not from the claims of the token.  Nothing is written or logged. *)
Theorem context_authenticated_from_database :
  forall (h : Server.Headers) (randomUUID : string) (clock : Z) (w : World)
         (decoded : JwtUtils.JwtPayload) (subject : string) (row : UserRow),
    result_of (JwtUtils.verifyToken hmacSHA256 config (Server.bearer h)
                 clock w) = Ok decoded ->
    JwtUtils.userId decoded = Some subject ->
    subject <> "" ->
    find (fun u => String.eqb (user_id u) subject) (users (db w)) = Some row ->
    Server.context hmacSHA256 config h randomUUID clock w
    = (Ok (mkContext
             (Some (mkCtxUser (user_id row) (user_username row)
                      (user_email row) (role_string (user_role row))))
             (or_else (Server.x_request_id h) randomUUID)),
       w).
Proof.
  intros h randomUUID clock w decoded subject row Hok Hsub Hne Hrow.
  destruct (verifyToken_ok_run hmacSHA256 config (Server.bearer h) clock w
              decoded Hok) as [Htok Hrun].
  exact (context_stored_subject_run h randomUUID clock w decoded subject row
           Htok Hrun Hsub Hne Hrow).
Qed.

(** X11. A token that generateToken issues, with the default options, for
    the id of a stored user authenticates a request as that user at any
    moment before the token expires, whatever username and role were put
    into the token. *)
Theorem issued_token_authenticates :
  forall (row : UserRow) (name role' : option string) (secret : string)
         (span clock clock' : Z) (xid : option string) (randomUUID : string)
         (w : World),
    (forall key a p, truthy (hmacSHA256 key a p) = true) ->
    jwtSecret config = Some secret ->
    truthy secret = true ->
    ms (JwtUtils.default_expiresIn config) = Some span ->
    clock' < clock + span / 1000 ->
    user_id row <> "" ->
    find (fun u => String.eqb (user_id u) (user_id row)) (users (db w))
    = Some row ->
    exists token,
      JwtUtils.generateToken hmacSHA256 ms config
        (JwtUtils.mkClaims (Some (user_id row)) name role')
        JwtUtils.no_options clock w
      = (Ok token, w)
      /\ Server.context hmacSHA256 config
           (Server.mkHeaders (Some [NotJws "Bearer"; token]) xid)
           randomUUID clock' w
         = (Ok (mkContext
                  (Some (mkCtxUser (user_id row) (user_username row)
                           (user_email row) (role_string (user_role row))))
                  (or_else xid randomUUID)),
            w).
Proof.
  intros row name role' secret span clock clock' xid randomUUID w
    Hmac Hs Ht Hms Hfresh Hne Hrow.
  eexists. split.
  - exact (generateToken_default hmacSHA256 ms config _ secret span clock w
             Hs Ht Hms).
  - apply (context_stored_subject_run
             (Server.mkHeaders (Some [NotJws "Bearer"; _]) xid)
             randomUUID clock' w
             (JwtUtils.mkJwtPayload (Some (user_id row)) name role'
                (Some clock) (Some (clock + span / 1000)))
             (user_id row) row);
      [reflexivity | | reflexivity | exact Hne | exact Hrow].
    cbn [Server.bearer Server.authorization nth_error token_truthy].
    apply (verifyToken_returns hmacSHA256 config _ clock' w
             (mkPayload (Some (user_id row)) name role'
                (Some clock) (Some (clock + span / 1000)) None
                (Some (JwtUtils.default_issuer config))
                (Some (JwtUtils.default_audience config)))).
    + reflexivity.
    + rewrite verify_accepted.
      * unfold verify_claims. cbn.
        replace (clock + span / 1000 <=? clock') with false
          by (symmetry; apply Z.leb_gt; exact Hfresh).
        rewrite default_audience_truthy, default_issuer_truthy.
        rewrite !String.eqb_refl. reflexivity.
      * unfold JwtUtils.signature_accepted. rewrite Hs, Ht. cbn.
        rewrite Hmac, String.eqb_refl. reflexivity.
Qed.

End RequestContextMore.

(** A token that claims the role ADMIN for bob, correctly signed: the
    caller of the context has the role USER that the database stores. *)
Lemma context_authenticated_from_database_witness :
  let claims :=
    Jsonwebtoken.mkPayload (Some "u-bob") (Some "root") (Some "ADMIN")
      (Some 0) (Some 5000) None
      (Some "your-app-name") (Some "your-app-client") in
  Server.context Sample.hmac Sample.config
    (Sample.bearer_header
       (Jsonwebtoken.Compact
          (Jsonwebtoken.mkJws "HS256" claims
             (Sample.hmac "s3cret" "HS256" claims))))
    "req-4" 2000 Sample.world
  = (Ok (mkContext
           (Some (mkCtxUser "u-bob" "bob" "bob@example.com" "USER")) "req-4"),
     Sample.world).
Proof.
  intros claims.
  apply (context_authenticated_from_database Sample.hmac Sample.config
           (Sample.bearer_header
              (Jsonwebtoken.Compact
                 (Jsonwebtoken.mkJws "HS256" claims
                    (Sample.hmac "s3cret" "HS256" claims))))
           "req-4" 2000 Sample.world
           (JwtUtils.as_JwtPayload claims) "u-bob" Sample.bob).
  - reflexivity.
  - reflexivity.
  - discriminate.
  - reflexivity.
Defined.

Lemma issued_token_authenticates_witness :
  exists token,
    JwtUtils.generateToken Sample.hmac Sample.ms Sample.config
      (JwtUtils.mkClaims (Some "u-carol") (Some "carol") (Some "ADMIN"))
      JwtUtils.no_options 1700000000 Sample.world
    = (Ok token, Sample.world)
    /\ Server.context Sample.hmac Sample.config
         (Server.mkHeaders (Some [Jsonwebtoken.NotJws "Bearer"; token]) None)
         "req-5" 1700000100 Sample.world
       = (Ok (mkContext
                (Some (mkCtxUser "u-carol" "carol" "carol@example.com"
                         "ADMIN"))
                "req-5"),
          Sample.world).
Proof.
  apply (issued_token_authenticates Sample.hmac Sample.ms Sample.config
           Sample.carol (Some "carol") (Some "ADMIN") "s3cret" 3600000
           1700000000 1700000100 None "req-5" Sample.world).
  - intros key a p. reflexivity.
  - reflexivity.
  - reflexivity.
  - reflexivity.
  - reflexivity.
  - discriminate.
  - reflexivity.
Defined.

(** ** Likes: removal, round trip, constraints *)

Section ListFactsMore.

Context {A : Type}.

Lemma filter_singleton (f : A -> bool) (l : list A) (x : A) :
  find f l = Some x -> (length (filter f l) <= 1)%nat -> filter f l = [x].
Proof.
  induction l as [| a l IH]; cbn; [discriminate |].
  destruct (f a) eqn:Hfa.
  - intros Hx Hlen. inversion Hx; subst a. cbn in Hlen.
    destruct (filter f l); [reflexivity | cbn in Hlen; lia].
  - exact IH.
Qed.

Lemma filter_all (f : A -> bool) (l : list A) :
  existsb f l = false -> filter (fun x => negb (f x)) l = l.
Proof.
  induction l as [| a l IH]; cbn; [reflexivity |].
  destruct (f a); cbn; [discriminate |].
  intros H. rewrite (IH H). reflexivity.
Qed.

(** Rows with distinct keys: equal keys, equal rows. *)
Lemma nodup_key_injective {K : Type} (key : A -> K) (l : list A) (a b : A) :
  NoDup (map key l) -> In a l -> In b l -> key a = key b -> a = b.
Proof.
  induction l as [| x l IH]; cbn; [contradiction |].
  intros Hnd Ha Hb Hkey. inversion Hnd as [| ? ? Hnotin Hnd']; subst.
  destruct Ha as [-> | Ha], Hb as [-> | Hb].
  - reflexivity.
  - exfalso. apply Hnotin. rewrite Hkey. apply in_map. exact Hb.
  - exfalso. apply Hnotin. rewrite <- Hkey. apply in_map. exact Ha.
  - exact (IH Hnd' Ha Hb Hkey).
Qed.

Lemma existsb_false_not_in (f : A -> bool) (l : list A) (x : A) :
  existsb f l = false -> In x l -> f x = false.
Proof.
  intros H Hin. destruct (f x) eqn:Hfx; [| reflexivity].
  assert (existsb f l = true) by (apply existsb_exists; eauto). congruence.
Qed.

End ListFactsMore.

Section LikesMore.

Import LikeService.



End LikesMore.

(** X12. unlikePost without a stored like of the pair fails with
    NOT_FOUND and writes nothing.  With one, in a database that satisfies
    the uniqueness constraint of Like, it returns true; afterwards no like
    of the pair is stored, every like with another id is still stored and
    the other tables are as before. *)
Theorem unlikePost_removes :
  forall (w : World) (postId userId : string),
    (stored_like userId postId (db w) = None ->
     LikeService.unlikePost postId userId w
     = (Throw (GraphQLErr "Like not found" "NOT_FOUND"), w))
    /\ (forall l,
          stored_like userId postId (db w) = Some l ->
          likes_unique (db w) ->
          exists w',
            LikeService.unlikePost postId userId w = (Ok true, w')
            /\ stored_like userId postId (db w') = None
            /\ like_count userId postId (db w') = 0%nat
            /\ (forall l', In l' (likes (db w)) -> like_id l' <> like_id l ->
                  In l' (likes (db w')))
            /\ (forall l', In l' (likes (db w')) -> In l' (likes (db w)))
            /\ users (db w') = users (db w)
            /\ posts (db w') = posts (db w)
            /\ comments (db w') = comments (db w)
            /\ ratings (db w') = ratings (db w)).
Proof.
  intros w postId userId. split.
  - intros Hnone.
    unfold LikeService.unlikePost, Prisma.like.findFirst, bind, get_db, ret.
    unfold stored_like in Hnone. rewrite Hnone. reflexivity.
  - intros l Hsome Huniq.
    assert (Hid : exists l0,
      find (fun l' => String.eqb (like_id l') (like_id l)) (likes (db w))
      = Some l0).
    { destruct (find (fun l' => String.eqb (like_id l') (like_id l))
                  (likes (db w))) as [l0 |] eqn:Hf; [eauto |].
      exfalso. unfold stored_like in Hsome.
      apply find_some in Hsome as [Hin _].
      pose proof (find_none _ _ Hf l Hin) as Hno. cbn in Hno.
      rewrite String.eqb_refl in Hno. discriminate. }
    destruct Hid as [l0 Hl0].
    assert (Honly :
      filter (Prisma.like.matches userId postId) (likes (db w)) = [l])
      by (apply filter_singleton; [exact Hsome | apply Huniq]).
    assert (Hgone :
      filter (Prisma.like.matches userId postId)
        (filter (fun l' => negb (String.eqb (like_id l') (like_id l)))
           (likes (db w))) = []).
    { destruct (filter (Prisma.like.matches userId postId)
                  (filter (fun l' => negb (String.eqb (like_id l') (like_id l)))
                     (likes (db w)))) as [| y ys] eqn:Hf; [reflexivity |].
      exfalso.
      assert (Hy : In y (y :: ys)) by (left; reflexivity).
      rewrite <- Hf in Hy. apply filter_In in Hy as [Hy Hm].
      apply filter_In in Hy as [Hy Hne].
      assert (Hy' : In y [l])
        by (rewrite <- Honly; apply filter_In; split; assumption).
      destruct Hy' as [<- | []].
      rewrite String.eqb_refl in Hne. discriminate. }
    eexists. split.
    + unfold LikeService.unlikePost, Prisma.like.findFirst, Prisma.like.delete,
        bind, get_db, put_db, logger, ret.
      unfold stored_like in Hsome. rewrite Hsome. cbn [db]. rewrite Hl0.
      reflexivity.
    + cbn [db with_likes likes users posts comments ratings].
      split.
      { unfold stored_like. cbn.
        destruct (find (Prisma.like.matches userId postId)
                    (filter (fun l' => negb (String.eqb (like_id l') (like_id l)))
                       (likes (db w)))) as [y |] eqn:Hf; [| reflexivity].
        pose proof (find_some_filter _ _ _ Hf) as Hpos.
        rewrite Hgone in Hpos. cbn in Hpos. lia. }
      split; [unfold like_count; cbn; rewrite Hgone; reflexivity |].
      split.
      { intros l' Hin Hne. apply filter_In. split; [exact Hin |].
        apply negb_true_iff, String.eqb_neq. exact Hne. }
      split; [intros l' Hin; apply filter_In in Hin as [Hin _]; exact Hin |].
      repeat split.
Qed.

Lemma unlikePost_removes_witness :
  exists w',
    LikeService.unlikePost "p-1" "u-bob" Sample.world = (Ok true, w')
    /\ stored_like "u-bob" "p-1" (db w') = None
    /\ like_count "u-bob" "p-1" (db w') = 0%nat.
Proof.
  destruct (proj2 (unlikePost_removes Sample.world "p-1" "u-bob")
              (mkLike "l-1" "u-bob" "p-1" 20) eq_refl sample_likes_unique)
    as [w' [Hrun [Hnone [Hcount _]]]].
  exists w'. auto.
Defined.

(** X13. Liking a post and then removing the like restores the database:
    when the user has no like on the stored post (and the user is stored
    and the generated uuid unused), likePost followed by unlikePost leaves
    every table exactly as it was before the two calls. *)
Theorem like_unlike_roundtrip :
  forall (w : World) (g : Generated) (postId userId : string) (p : PostRow),
    find (fun p => String.eqb (post_id p) postId) (posts (db w)) = Some p ->
    stored_like userId postId (db w) = None ->
    Prisma.user_exists (db w) userId = true ->
    existsb (fun l => String.eqb (like_id l) (uuid g)) (likes (db w)) = false ->
    exists l w1 w2,
      LikeService.likePost g postId userId w = (Ok l, w1)
      /\ LikeService.unlikePost postId userId w1 = (Ok true, w2)
      /\ db w2 = db w.
Proof.
  intros w g postId userId p Hpost Hnone Huser Hfresh.
  eexists. eexists. eexists. split.
  - exact (likePost_creates g postId userId w p Hpost Hnone Huser Hfresh).
  - unfold LikeService.unlikePost, Prisma.like.findFirst, Prisma.like.delete,
      bind, get_db, put_db, logger, ret.
    cbn [db with_likes likes].
    unfold stored_like in Hnone.
    rewrite (find_app_none _ _ _ Hnone). cbn [find].
    rewrite like_matches_new_row.
    change (like_id (Prisma.like.new_row g userId postId)) with (uuid g).
    assert (Hfind :
      find (fun l => String.eqb (like_id l) (uuid g))
        (likes (db w) ++ [Prisma.like.new_row g userId postId])
      = Some (Prisma.like.new_row g userId postId)).
    { rewrite find_app_none.
      - cbn. rewrite String.eqb_refl. reflexivity.
      - destruct (find (fun l => String.eqb (like_id l) (uuid g))
                    (likes (db w))) eqn:Hf; [| reflexivity].
        apply find_some_existsb in Hf. congruence. }
    cbn [db with_likes likes]. rewrite Hfind. split; [reflexivity |].
    cbn [db with_likes likes users posts comments ratings].
    rewrite filter_app. cbn [filter].
    change (like_id (Prisma.like.new_row g userId postId)) with (uuid g).
    rewrite String.eqb_refl. cbn [negb].
    rewrite (filter_all _ _ Hfresh), app_nil_r.
    destruct (db w); reflexivity.
Qed.

Lemma like_unlike_roundtrip_witness :
  exists l w1 w2,
    LikeService.likePost (mkGenerated "l-2" 30) "p-1" "u-alice" Sample.world
    = (Ok l, w1)
    /\ LikeService.unlikePost "p-1" "u-alice" w1 = (Ok true, w2)
    /\ db w2 = db Sample.world.
Proof.
  apply (like_unlike_roundtrip Sample.world (mkGenerated "l-2" 30)
           "p-1" "u-alice" (mkPost "p-1" "u-alice")); reflexivity.
Defined.




(** ** Ratings: constraints and frame *)

Section RatingsMore.

Import RatingService.

(** What a call of ratePost does to the world: nothing to the database,
    or an update of the rows with the id of the stored rating of the pair,
    or one appended row for a pair without a rating, with an unused id;
    the last two only with a value from 1 to 5. *)
Lemma ratePost_world (g : Generated) (postId userId : string) (value : Z)
    (w : World) :
  db (world_of (ratePost g postId userId value w)) = db w
  \/ (1 <= value <= 5
      /\ exists existing,
           stored_rating userId postId (db w) = Some existing
           /\ db (world_of (ratePost g postId userId value w))
              = with_ratings (db w)
                  (Prisma.rating.updated_rows (rating_id existing) value
                     (now g) (ratings (db w))))
  \/ (1 <= value <= 5
      /\ stored_rating userId postId (db w) = None
      /\ existsb (fun r => String.eqb (rating_id r) (uuid g)) (ratings (db w))
         = false
      /\ db (world_of (ratePost g postId userId value w))
         = with_ratings (db w)
             (ratings (db w)
              ++ [Prisma.rating.new_row g userId postId value])).
Proof.
  unfold ratePost.
  destruct ((value <? 1) || (5 <? value)) eqn:Hrange; [left; reflexivity |].
  assert (Hv : 1 <= value <= 5).
  { apply orb_false_iff in Hrange as [H1 H2].
    apply Z.ltb_ge in H1, H2. lia. }
  unfold Prisma.post.findUnique, Prisma.rating.findFirst,
    Prisma.rating.update, Prisma.rating.create, bind, get_db, put_db, logger,
    ret, throw, world_of, stored_rating.
  destruct (find (fun p => String.eqb (post_id p) postId) (posts (db w)));
    [| left; reflexivity].
  destruct (find (Prisma.rating.matches userId postId) (ratings (db w)))
    as [existing |] eqn:Hst.
  - cbn [db].
    destruct (find (fun r => String.eqb (rating_id r) (rating_id existing))
                (ratings (db w))); [| left; reflexivity].
    right; left. split; [exact Hv |]. exists existing. split; reflexivity.
  - cbn [db].
    destruct (existsb (fun r => String.eqb (rating_id r) (uuid g))
                (ratings (db w))) eqn:Hfresh; [left; reflexivity |].
    rewrite (find_none_existsb _ _ Hst).
    destruct (Prisma.user_exists (db w) userId); [| left; reflexivity].
    destruct (Prisma.post_exists (db w) postId); [| left; reflexivity].
    right; right. cbn. auto.
Qed.

Lemma updated_rows_ids (ratingId : string) (value updatedAt : Z)
    (rs : list Rating) :
  map rating_id (Prisma.rating.updated_rows ratingId value updatedAt rs)
  = map rating_id rs.
Proof.
  unfold Prisma.rating.updated_rows. rewrite map_map.
  apply map_ext. intros r.
  destruct (String.eqb (rating_id r) ratingId); reflexivity.
Qed.

Lemma updated_rows_counts (userId postId ratingId : string)
    (value updatedAt : Z) (rs : list Rating) :
  length (filter (Prisma.rating.matches userId postId)
            (Prisma.rating.updated_rows ratingId value updatedAt rs))
  = length (filter (Prisma.rating.matches userId postId) rs).
Proof.
  unfold Prisma.rating.updated_rows.
  rewrite filter_map_preserving
    by (intros x; apply rating_matches_set_value).
  apply length_map.
Qed.

End RatingsMore.

(** X15. ratePost keeps the constraints of the Rating table, whatever its
    arguments and its outcome: if before the call no pair has two ratings,
    no two ratings share an id and every stored value is from 1 to 5,
    then the same holds after it; the other tables are never written. *)
Theorem ratePost_preserves_constraints :
  forall (w : World) (g : Generated) (postId userId : string) (value : Z),
    ratings_unique (db w) ->
    rating_ids_unique (db w) ->
    ratings_in_range (db w) ->
    let w' := world_of (RatingService.ratePost g postId userId value w) in
    ratings_unique (db w')
    /\ rating_ids_unique (db w')
    /\ ratings_in_range (db w')
    /\ users (db w') = users (db w)
    /\ posts (db w') = posts (db w)
    /\ comments (db w') = comments (db w)
    /\ likes (db w') = likes (db w).
Proof.
  intros w g postId userId value Huniq Hids Hrange w'. subst w'.
  destruct (ratePost_world g postId userId value w)
    as [Hsame | [[Hv [existing [Hst Hupd]]] | [Hv [Hnone [Hfresh Hnew]]]]].
  - rewrite Hsame.
    split; [exact Huniq | split; [exact Hids | split; [exact Hrange |]]].
    repeat split.
  - rewrite Hupd. cbn [with_ratings ratings users posts comments likes].
    split; [| split; [| split; [| repeat split]]].
    + intros u q. unfold rating_count. cbn.
      rewrite updated_rows_counts. apply Huniq.
    + unfold rating_ids_unique in *. cbn. rewrite updated_rows_ids.
      exact Hids.
    + intros r Hin. cbn in Hin. unfold Prisma.rating.updated_rows in Hin.
      apply in_map_iff in Hin as [r0 [Hr Hin]].
      destruct (String.eqb (rating_id r0) (rating_id existing));
        subst r; [cbn; exact Hv | apply Hrange; exact Hin].
  - rewrite Hnew. cbn [with_ratings ratings users posts comments likes].
    split; [| split; [| split; [| repeat split]]].
    + intros u q. unfold rating_count. cbn. rewrite filter_app, length_app.
      cbn.
      destruct (Prisma.rating.matches u q
                  (Prisma.rating.new_row g userId postId value)) eqn:Hm.
      * apply rating_matches_new_row_inv in Hm as [-> ->].
        unfold stored_rating in Hnone.
        rewrite (find_none_filter _ _ Hnone). cbn. lia.
      * cbn. specialize (Huniq u q). unfold rating_count in Huniq. lia.
    + unfold rating_ids_unique in *. cbn. rewrite map_app. cbn.
      apply NoDup_app; [exact Hids | repeat constructor; intros [] |].
      intros x Hin [<- | []].
      apply in_map_iff in Hin as [r [Hr Hin]].
      pose proof (existsb_false_not_in _ _ r Hfresh Hin) as Hno.
      cbn in Hno. rewrite Hr, String.eqb_refl in Hno. discriminate.
    + intros r Hin. cbn in Hin. apply in_app_or in Hin as [Hin | [<- | []]].
      * apply Hrange; exact Hin.
      * cbn. exact Hv.
Qed.

Lemma sample_rating_ids_unique : rating_ids_unique Sample.database.
Proof. repeat constructor. intros []. Qed.

Lemma sample_ratings_in_range : ratings_in_range Sample.database.
Proof. intros r [<- | []]. cbn. lia. Qed.

Lemma ratePost_preserves_constraints_witness :
  ratings_unique
    (db (world_of (RatingService.ratePost (mkGenerated "r-2" 40)
                     "p-1" "u-alice" 4 Sample.world)))
  /\ ratings_in_range
       (db (world_of (RatingService.ratePost (mkGenerated "r-2" 40)
                        "p-1" "u-alice" 4 Sample.world))).
Proof.
  destruct (ratePost_preserves_constraints Sample.world
              (mkGenerated "r-2" 40) "p-1" "u-alice" 4
              sample_ratings_unique sample_rating_ids_unique
              sample_ratings_in_range)
    as [Huniq [_ [Hrange _]]].
  split; assumption.
Defined.

(** X16. ratePost touches the rating of its own pair only: in a database
    where no two ratings share an id, every stored rating of another user
    or another post is stored unchanged after the call, whatever the
    arguments and the outcome. *)
Theorem ratePost_frame :
  forall (w : World) (g : Generated) (postId userId : string) (value : Z)
         (r : Rating),
    rating_ids_unique (db w) ->
    In r (ratings (db w)) ->
    Prisma.rating.matches userId postId r = false ->
    In r (ratings
            (db (world_of
                   (RatingService.ratePost g postId userId value w)))).
Proof.
  intros w g postId userId value r Hids Hin Hother.
  destruct (ratePost_world g postId userId value w)
    as [Hsame | [[Hv [existing [Hst Hupd]]] | [Hv [Hnone [Hfresh Hnew]]]]].
  - rewrite Hsame. exact Hin.
  - rewrite Hupd. cbn. unfold Prisma.rating.updated_rows.
    apply in_map_iff. exists r. split; [| exact Hin].
    destruct (String.eqb_spec (rating_id r) (rating_id existing))
      as [Heq | Hne]; [| reflexivity].
    exfalso. unfold stored_rating in Hst.
    apply find_some in Hst as [Hin' Hm].
    assert (r = existing)
      by exact (nodup_key_injective rating_id _ r existing Hids Hin Hin' Heq).
    subst r. congruence.
  - rewrite Hnew. cbn. apply in_or_app. left. exact Hin.
Qed.

(** alice rates the first post; bob's rating of it stays. *)
Lemma ratePost_frame_witness :
  In (mkRating "r-1" "u-bob" "p-1" 3 21 21)
    (ratings
       (db (world_of
              (RatingService.ratePost (mkGenerated "r-2" 40) "p-1" "u-alice"
                 5 Sample.world)))).
Proof.
  apply (ratePost_frame Sample.world (mkGenerated "r-2" 40) "p-1" "u-alice" 5
           (mkRating "r-1" "u-bob" "p-1" 3 21 21) sample_rating_ids_unique).
  - left. reflexivity.
  - reflexivity.
Defined.

(** ** Comments: the forest of replies *)

Section CommentsMore.

Import CommentService.

(** What a call of createComment does to the world, in a database where
    no comment has the empty id: nothing to the database, or one appended
    row with an unused id whose parent, if any, is a stored comment of the
    target post. *)
Lemma createComment_world (g : Generated) (input : CreateCommentInput)
    (userId : string) (w : World) :
  Prisma.comment_exists (db w) "" = false ->
  db (world_of (createComment g input userId w)) = db w
  \/ (Prisma.comment_exists (db w) (uuid g) = false
      /\ match parentId input with
         | None => True
         | Some parent =>
             exists parentComment,
               In parentComment (comments (db w))
               /\ comment_id parentComment = parent
               /\ comment_postId parentComment = postId input
         end
      /\ db (world_of (createComment g input userId w))
         = with_comments (db w)
             (comments (db w)
              ++ [Prisma.comment.new_row g userId (postId input)
                    (content input) (parentId input)])).
Proof.
  intros Hempty.
  unfold createComment, Prisma.post.findUnique, Prisma.comment.findUnique,
    Prisma.comment.create, bind, get_db, put_db, logger, ret, throw,
    world_of.
  destruct (find (fun p => String.eqb (post_id p) (postId input))
              (posts (db w))); [| left; reflexivity].
  destruct (parentId input) as [parent |] eqn:Hparent.
  - cbn [truthy_opt]. destruct (truthy parent) eqn:Htruthy.
    + destruct (find (fun c => String.eqb (comment_id c) parent)
                  (comments (db w))) as [pc |] eqn:Hpc; [| left; reflexivity].
      destruct (String.eqb_spec (comment_postId pc) (postId input))
        as [Hsame | Hdiff]; [| left; reflexivity].
      cbn [negb db].
      destruct (Prisma.comment_exists (db w) (uuid g)) eqn:Hfresh;
        [left; reflexivity |].
      destruct (Prisma.user_exists (db w) userId); [| left; reflexivity].
      destruct (Prisma.post_exists (db w) (postId input));
        [| left; reflexivity].
      cbn [negb].
      assert (Hex : Prisma.comment_exists (db w) parent = true)
        by exact (find_some_existsb _ _ _ Hpc).
      rewrite Hex. cbn [negb].
      right. split; [reflexivity |]. split; [| reflexivity].
      exists pc. apply find_some in Hpc as [Hin Hid].
      apply String.eqb_eq in Hid. auto.
    + cbn [db].
      destruct (Prisma.comment_exists (db w) (uuid g)); [left; reflexivity |].
      destruct (Prisma.user_exists (db w) userId); [| left; reflexivity].
      destruct (Prisma.post_exists (db w) (postId input));
        [| left; reflexivity].
      cbn [negb].
      assert (parent = "") as ->.
      { unfold truthy in Htruthy. apply negb_false_iff in Htruthy.
        apply String.eqb_eq. exact Htruthy. }
      rewrite Hempty. left. reflexivity.
  - cbn [truthy_opt db].
    destruct (Prisma.comment_exists (db w) (uuid g)) eqn:Hfresh;
      [left; reflexivity |].
    destruct (Prisma.user_exists (db w) userId); [| left; reflexivity].
    destruct (Prisma.post_exists (db w) (postId input));
      [| left; reflexivity].
    right. cbn. auto.
Qed.

(** What a call of deleteComment does to the world: nothing to the
    database, or the removal of the rows with the id and the clearing of
    the parent reference of their replies. *)
Lemma deleteComment_world (commentId userId userRole : string) (w : World) :
  db (world_of (deleteComment commentId userId userRole w)) = db w
  \/ db (world_of (deleteComment commentId userId userRole w))
     = with_comments (db w)
         (map (Prisma.comment.set_null commentId)
            (filter (fun c' => negb (String.eqb (comment_id c') commentId))
               (comments (db w)))).
Proof.
  unfold deleteComment, Prisma.comment.findUnique, Prisma.comment.delete,
    AuthMiddleware.authorize, bind, get_db, put_db, logger, ret, throw,
    world_of.
  destruct (find (fun c => String.eqb (comment_id c) commentId)
              (comments (db w))) as [c |] eqn:Hfind; [| left; reflexivity].
  destruct (negb (String.eqb userId (comment_userId c))
            && negb (opt_is (Some userRole) "ADMIN"));
    [left; reflexivity |].
  cbn [db]. rewrite Hfind. right. reflexivity.
Qed.

Lemma set_null_keeps (deletedId : string) (c : Comment) :
  comment_id (Prisma.comment.set_null deletedId c) = comment_id c
  /\ comment_postId (Prisma.comment.set_null deletedId c) = comment_postId c
  /\ (forall parent,
        comment_parentId (Prisma.comment.set_null deletedId c) = Some parent
        -> comment_parentId c = Some parent /\ parent <> deletedId).
Proof.
  unfold Prisma.comment.set_null.
  destruct (comment_parentId c) as [q |] eqn:Hq; cbn.
  - destruct (String.eqb_spec q deletedId) as [-> | Hne]; cbn.
    + repeat split; discriminate.
    + repeat split; auto; congruence.
  - rewrite Hq. repeat split; auto; discriminate.
Qed.

End CommentsMore.

(** X17. createComment keeps the comments a forest, whatever its
    arguments and its outcome.  In a database where no comment has the
    empty id: if every parent reference names a stored comment of the same
    post and the references have no cycle, the same holds after the call;
    the other tables are never written. *)
Theorem createComment_preserves_forest :
  forall (w : World) (g : Generated)
         (input : CommentService.CreateCommentInput) (userId : string),
    Prisma.comment_exists (db w) "" = false ->
    comment_parents_ok (db w) ->
    comments_acyclic (db w) ->
    let w' := world_of (CommentService.createComment g input userId w) in
    comment_parents_ok (db w')
    /\ comments_acyclic (db w')
    /\ users (db w') = users (db w)
    /\ posts (db w') = posts (db w)
    /\ likes (db w') = likes (db w)
    /\ ratings (db w') = ratings (db w).
Proof.
  intros w g input userId Hempty Hparents [rank Hrank] w'. subst w'.
  destruct (createComment_world g input userId w Hempty)
    as [Hsame | [Hfresh [Hparent Hnew]]].
  - rewrite Hsame.
    split; [exact Hparents | split; [exists rank; exact Hrank |]].
    repeat split.
  - rewrite Hnew. cbn [with_comments comments users posts likes ratings].
    assert (Hold_id : forall c, In c (comments (db w)) ->
                                comment_id c <> uuid g).
    { intros c Hin Heq.
      pose proof (existsb_false_not_in _ _ c Hfresh Hin) as Hno.
      cbn in Hno. rewrite Heq, String.eqb_refl in Hno. discriminate. }
    split; [| split; [| repeat split]].
    + intros c parent Hin Hp. cbn in Hin.
      apply in_app_or in Hin as [Hin | [<- | []]].
      * destruct (Hparents c parent Hin Hp) as [pc [Hpc [Hid Hpost]]].
        exists pc. split; [cbn; apply in_or_app; left; exact Hpc | auto].
      * cbn in Hp. rewrite Hp in Hparent.
        destruct Hparent as [pc [Hpc [Hid Hpost]]].
        exists pc. split; [cbn; apply in_or_app; left; exact Hpc | auto].
    + exists (fun i =>
                if String.eqb i (uuid g)
                then match CommentService.parentId input with
                     | Some parent => S (rank parent)
                     | None => 0%nat
                     end
                else rank i).
      intros c parent Hin Hp. cbn in Hin.
      apply in_app_or in Hin as [Hin | [<- | []]].
      * destruct (Hparents c parent Hin Hp) as [pc [Hpc [Hid _]]].
        pose proof (Hold_id c Hin) as Hc. pose proof (Hold_id pc Hpc) as Hq.
        rewrite Hid in Hq.
        apply String.eqb_neq in Hc, Hq. rewrite Hc, Hq.
        exact (Hrank c parent Hin Hp).
      * cbn in Hp. cbn [comment_id Prisma.comment.new_row].
        rewrite String.eqb_refl, Hp.
        rewrite Hp in Hparent. destruct Hparent as [pc [Hpc [Hid _]]].
        pose proof (Hold_id pc Hpc) as Hq. rewrite Hid in Hq.
        apply String.eqb_neq in Hq. rewrite Hq. lia.
Qed.

(** X18. deleteComment keeps the comments a forest, whatever its
    arguments and its outcome: parent references still name stored
    comments of the same post, and no cycle appears; the other tables are
    never written. *)
Theorem deleteComment_preserves_forest :
  forall (w : World) (commentId userId userRole : string),
    comment_parents_ok (db w) ->
    comments_acyclic (db w) ->
    let w' :=
      world_of (CommentService.deleteComment commentId userId userRole w) in
    comment_parents_ok (db w')
    /\ comments_acyclic (db w')
    /\ users (db w') = users (db w)
    /\ posts (db w') = posts (db w)
    /\ likes (db w') = likes (db w)
    /\ ratings (db w') = ratings (db w).
Proof.
  intros w commentId userId userRole Hparents [rank Hrank] w'. subst w'.
  destruct (deleteComment_world commentId userId userRole w)
    as [Hsame | Hnew].
  - rewrite Hsame.
    split; [exact Hparents | split; [exists rank; exact Hrank |]].
    repeat split.
  - rewrite Hnew. cbn [with_comments comments users posts likes ratings].
    assert (Hfrom : forall c,
      In c (map (Prisma.comment.set_null commentId)
              (filter (fun c' => negb (String.eqb (comment_id c') commentId))
                 (comments (db w)))) ->
      exists c0, In c0 (comments (db w)) /\ comment_id c0 <> commentId
                 /\ c = Prisma.comment.set_null commentId c0).
    { intros c Hin. apply in_map_iff in Hin as [c0 [Heq Hin]].
      apply filter_In in Hin as [Hin Hne].
      apply negb_true_iff, String.eqb_neq in Hne. eauto. }
    split; [| split; [| repeat split]].
    + intros c parent Hin Hp. cbn in Hin.
      destruct (Hfrom c Hin) as [c0 [Hin0 [Hne0 ->]]].
      destruct (set_null_keeps commentId c0) as [_ [Hpost Hpar]].
      destruct (Hpar parent Hp) as [Hp0 Hneq].
      destruct (Hparents c0 parent Hin0 Hp0) as [pc [Hpc [Hid Hpp]]].
      exists (Prisma.comment.set_null commentId pc).
      destruct (set_null_keeps commentId pc) as [Hid' [Hpost' _]].
      split.
      * cbn. apply in_map. apply filter_In. split; [exact Hpc |].
        apply negb_true_iff, String.eqb_neq. congruence.
      * rewrite Hid', Hpost', Hpost. auto.
    + exists rank. intros c parent Hin Hp. cbn in Hin.
      destruct (Hfrom c Hin) as [c0 [Hin0 [_ ->]]].
      destruct (set_null_keeps commentId c0) as [Hid [_ Hpar]].
      destruct (Hpar parent Hp) as [Hp0 _]. rewrite Hid.
      exact (Hrank c0 parent Hin0 Hp0).
Qed.

Lemma sample_comment_parents_ok : comment_parents_ok Sample.database.
Proof.
  intros c parent Hin Hp. cbn in Hin.
  destruct Hin as [<- | [<- | [<- | [<- | []]]]]; cbn in Hp;
    try discriminate Hp; inversion Hp; subst parent.
  - exists Sample.root_comment. cbn. auto.
  - exists Sample.root_comment. cbn. auto.
  - exists Sample.reply_one. cbn. auto.
Qed.

Lemma sample_comments_acyclic : comments_acyclic Sample.database.
Proof.
  exists (fun i => if String.eqb i "c-root" then 0%nat
                   else if String.eqb i "c-r1a" then 2%nat else 1%nat).
  intros c parent Hin Hp. cbn in Hin.
  destruct Hin as [<- | [<- | [<- | [<- | []]]]]; cbn in Hp;
    try discriminate Hp; inversion Hp; subst parent; cbn; lia.
Qed.

(** bob replies to the nested reply of the sample thread. *)
Lemma createComment_preserves_forest_witness :
  comment_parents_ok
    (db (world_of
           (CommentService.createComment (mkGenerated "c-new" 50)
              (CommentService.mkCreateCommentInput "p-1" "deeper"
                 (Some "c-r1a"))
              "u-bob" Sample.world)))
  /\ comments_acyclic
       (db (world_of
              (CommentService.createComment (mkGenerated "c-new" 50)
                 (CommentService.mkCreateCommentInput "p-1" "deeper"
                    (Some "c-r1a"))
                 "u-bob" Sample.world)))
  /\ length
       (comments
          (db (world_of
                 (CommentService.createComment (mkGenerated "c-new" 50)
                    (CommentService.mkCreateCommentInput "p-1" "deeper"
                       (Some "c-r1a"))
                    "u-bob" Sample.world))))
     = 5%nat.
Proof.
  destruct (createComment_preserves_forest Sample.world
              (mkGenerated "c-new" 50)
              (CommentService.mkCreateCommentInput "p-1" "deeper"
                 (Some "c-r1a"))
              "u-bob" eq_refl sample_comment_parents_ok
              sample_comments_acyclic)
    as [Hparents [Hacyclic _]].
  split; [exact Hparents | split; [exact Hacyclic | reflexivity]].
Defined.

(** bob deletes his reply, which has a reply of its own. *)
Lemma deleteComment_preserves_forest_witness :
  comment_parents_ok
    (db (world_of
           (CommentService.deleteComment "c-r1" "u-bob" "USER" Sample.world)))
  /\ comments_acyclic
       (db (world_of
              (CommentService.deleteComment "c-r1" "u-bob" "USER"
                 Sample.world)))
  /\ length
       (comments
          (db (world_of
                 (CommentService.deleteComment "c-r1" "u-bob" "USER"
                    Sample.world))))
     = 3%nat.
Proof.
  destruct (deleteComment_preserves_forest Sample.world "c-r1" "u-bob" "USER"
              sample_comment_parents_ok sample_comments_acyclic)
    as [Hparents [Hacyclic _]].
  split; [exact Hparents | split; [exact Hacyclic | reflexivity]].
Defined.

(** X19. updateComment fails with NOT_FOUND for a comment that is not
    stored and with UNAUTHORIZED for a caller who is neither the author
    nor an administrator, in both cases without a write.  For the author
    or an administrator it returns the stored comment with the new content
    and the time of the update, every other column unchanged; the comments
    with another id and the other tables stay as they were, and the parent
    references are untouched, so the comments remain a forest. *)
Theorem updateComment_effect :
  forall (w : World) (g : Generated)
         (commentId content userId userRole : string),
    (find (fun c => String.eqb (comment_id c) commentId) (comments (db w))
     = None ->
     CommentService.updateComment g commentId content userId userRole w
     = (Throw (GraphQLErr "Comment not found" "NOT_FOUND"), w))
    /\ (forall c,
          find (fun c => String.eqb (comment_id c) commentId)
            (comments (db w)) = Some c ->
          userId <> comment_userId c -> userRole <> "ADMIN" ->
          CommentService.updateComment g commentId content userId userRole w
          = (Throw (GraphQLErr "Not authorized" "UNAUTHORIZED"), w))
    /\ (forall c,
          find (fun c => String.eqb (comment_id c) commentId)
            (comments (db w)) = Some c ->
          userId = comment_userId c \/ userRole = "ADMIN" ->
          exists w',
            CommentService.updateComment g commentId content userId userRole w
            = (Ok (mkComment (comment_id c) (comment_userId c)
                     (comment_postId c) content (comment_parentId c)
                     (comment_createdAt c) (now g)), w')
            /\ (forall c', In c' (comments (db w)) ->
                  comment_id c' <> commentId -> In c' (comments (db w')))
            /\ map comment_id (comments (db w'))
               = map comment_id (comments (db w))
            /\ map comment_parentId (comments (db w'))
               = map comment_parentId (comments (db w))
            /\ (comment_parents_ok (db w) -> comment_parents_ok (db w'))
            /\ (comments_acyclic (db w) -> comments_acyclic (db w'))
            /\ users (db w') = users (db w)
            /\ posts (db w') = posts (db w)
            /\ likes (db w') = likes (db w)
            /\ ratings (db w') = ratings (db w)).
Proof.
  intros w g commentId content userId userRole.
  unfold CommentService.updateComment, Prisma.comment.findUnique,
    Prisma.comment.update, AuthMiddleware.authorize, bind, get_db, put_db,
    logger, ret, throw.
  split; [| split].
  - intros Hnone. rewrite Hnone. reflexivity.
  - intros c Hc Hu Hr. rewrite Hc.
    apply String.eqb_neq in Hu, Hr. cbn. rewrite Hu, Hr. reflexivity.
  - intros c Hc Hauth. rewrite Hc.
    assert (Hok : negb (String.eqb userId (comment_userId c))
                  && negb (opt_is (Some userRole) "ADMIN") = false).
    { destruct Hauth as [-> | ->].
      - rewrite String.eqb_refl. reflexivity.
      - cbn. apply andb_false_r. }
    rewrite Hok. cbn [db]. rewrite Hc.
    set (upd := fun c' =>
                  if String.eqb (comment_id c') commentId
                  then Prisma.comment.set_content content (now g) c' else c').
    assert (Hupd : forall c',
              comment_id (upd c') = comment_id c'
              /\ comment_parentId (upd c') = comment_parentId c'
              /\ comment_postId (upd c') = comment_postId c').
    { intros c'. unfold upd.
      destruct (String.eqb (comment_id c') commentId); repeat split. }
    eexists. split; [reflexivity |].
    cbn [db with_comments comments users posts likes ratings].
    split.
    { intros c' Hin Hne. apply in_map_iff. exists c'. split; [| exact Hin].
      unfold upd. apply String.eqb_neq in Hne. rewrite Hne. reflexivity. }
    split; [rewrite map_map; apply map_ext; intros c'; apply (Hupd c') |].
    split; [rewrite map_map; apply map_ext; intros c'; apply (Hupd c') |].
    split.
    { intros Hparents c' parent Hin Hp.
      apply in_map_iff in Hin as [c0 [<- Hin0]].
      fold (upd c0) in Hp |- *.
      destruct (Hupd c0) as [_ [Hpar Hpost]]. rewrite Hpar in Hp.
      destruct (Hparents c0 parent Hin0 Hp) as [pc [Hpc [Hid Hpp]]].
      exists (upd pc). destruct (Hupd pc) as [Hid' [_ Hpost']].
      split; [apply in_map; exact Hpc |].
      rewrite Hid', Hpost', Hpost. auto. }
    split.
    { intros [rank Hrank]. exists rank. intros c' parent Hin Hp.
      apply in_map_iff in Hin as [c0 [<- Hin0]].
      fold (upd c0) in Hp |- *.
      destruct (Hupd c0) as [Hid [Hpar _]]. rewrite Hpar in Hp. rewrite Hid.
      exact (Hrank c0 parent Hin0 Hp). }
    repeat split.
Qed.

(** carol, an administrator, edits bob's reply. *)
Lemma updateComment_effect_witness :
  exists w',
    CommentService.updateComment (mkGenerated "" 60) "c-r1" "edited"
      "u-carol" "ADMIN" Sample.world
    = (Ok (mkComment "c-r1" "u-bob" "p-1" "edited" (Some "c-root") 11 60), w')
    /\ comment_parents_ok (db w').
Proof.
  destruct (proj2 (proj2 (updateComment_effect Sample.world
                            (mkGenerated "" 60) "c-r1" "edited"
                            "u-carol" "ADMIN"))
              Sample.reply_one eq_refl (or_intror eq_refl))
    as [w' [Hrun [_ [_ [_ [Hparents _]]]]]].
  exists w'. split; [exact Hrun | exact (Hparents sample_comment_parents_ok)].
Defined.

(** X20. A caller who is neither the owner nor an administrator cannot
    delete a comment or a post: deleteComment and deletePost fail with
    UNAUTHORIZED and leave database and log as they were.  For an id that
    is not stored both fail with NOT_FOUND, whoever calls, also without a
    write. *)
Theorem unauthorized_delete_never_writes :
  forall (w : World) (targetId userId userRole : string),
    (find (fun c => String.eqb (comment_id c) targetId) (comments (db w))
     = None ->
     CommentService.deleteComment targetId userId userRole w
     = (Throw (GraphQLErr "Comment not found" "NOT_FOUND"), w))
    /\ (forall c,
          find (fun c => String.eqb (comment_id c) targetId)
            (comments (db w)) = Some c ->
          userId <> comment_userId c -> userRole <> "ADMIN" ->
          CommentService.deleteComment targetId userId userRole w
          = (Throw (GraphQLErr "Not authorized" "UNAUTHORIZED"), w))
    /\ (find (fun p => String.eqb (post_id p) targetId) (posts (db w))
        = None ->
        PostService.deletePost targetId userId userRole w
        = (Throw (GraphQLErr "Post not found" "NOT_FOUND"), w))
    /\ (forall p,
          find (fun p => String.eqb (post_id p) targetId) (posts (db w))
          = Some p ->
          userId <> post_userId p -> userRole <> "ADMIN" ->
          PostService.deletePost targetId userId userRole w
          = (Throw (GraphQLErr "Not authorized" "UNAUTHORIZED"), w)).
Proof.
  intros w targetId userId userRole.
  unfold CommentService.deleteComment, PostService.deletePost,
    Prisma.comment.findUnique, Prisma.post.findUnique,
    AuthMiddleware.authorize, bind, get_db, ret, throw.
  split; [| split; [| split]].
  - intros H. rewrite H. reflexivity.
  - intros c Hc Hu Hr. rewrite Hc.
    apply String.eqb_neq in Hu, Hr. cbn. rewrite Hu, Hr. reflexivity.
  - intros H. rewrite H. reflexivity.
  - intros p Hp Hu Hr. rewrite Hp.
    apply String.eqb_neq in Hu, Hr. cbn. rewrite Hu, Hr. reflexivity.
Qed.

(** bob tries to delete alice's root comment and alice's post. *)
Lemma unauthorized_delete_never_writes_witness :
  CommentService.deleteComment "c-root" "u-bob" "USER" Sample.world
  = (Throw (GraphQLErr "Not authorized" "UNAUTHORIZED"), Sample.world)
  /\ PostService.deletePost "p-1" "u-bob" "USER" Sample.world
     = (Throw (GraphQLErr "Not authorized" "UNAUTHORIZED"), Sample.world).
Proof.
  split.
  - apply (proj1 (proj2 (unauthorized_delete_never_writes Sample.world
                           "c-root" "u-bob" "USER"))
             Sample.root_comment); [reflexivity | | ]; discriminate.
  - apply (proj2 (proj2 (proj2 (unauthorized_delete_never_writes Sample.world
                                  "p-1" "u-bob" "USER")))
             (mkPost "p-1" "u-alice")); [reflexivity | | ]; discriminate.
Defined.

Lemma reply_count_after_delete (commentId : string) (cs : list Comment) :
  filter (fun c => opt_is (comment_parentId c) commentId)
    (map (Prisma.comment.set_null commentId)
       (filter (fun c' => negb (String.eqb (comment_id c') commentId)) cs))
  = [].
Proof.
  induction cs as [| c cs IH]; [reflexivity |]. cbn.
  destruct (String.eqb (comment_id c) commentId); cbn; [exact IH |].
  unfold Prisma.comment.set_null at 1.
  destruct (opt_is (comment_parentId c) commentId) eqn:Hp; cbn.
  - exact IH.
  - rewrite Hp. exact IH.
Qed.

(** X21. The reply count follows the mutations.  After a comment has been
    created as a reply, getNestedCommentCount of its parent is one more
    than before and the count of every other comment is unchanged; after
    a comment has been deleted, getNestedCommentCount of its id is 0. *)
Theorem reply_count_tracks :
  forall (w : World),
    (forall (g : Generated) (input : CommentService.CreateCommentInput)
            (userId parent : string) (p : PostRow),
        find (fun p => String.eqb (post_id p) (CommentService.postId input))
          (posts (db w)) = Some p ->
        parent_admissible input (db w) ->
        Prisma.user_exists (db w) userId = true ->
        Prisma.comment_exists (db w) (uuid g) = false ->
        CommentService.parentId input = Some parent ->
        exists c w',
          CommentService.createComment g input userId w = (Ok c, w')
          /\ CommentService.getNestedCommentCount parent w'
             = (Ok (S (reply_count parent (db w))), w')
          /\ (forall other, other <> parent ->
                reply_count other (db w') = reply_count other (db w)))
    /\ (forall (commentId userId userRole : string) (c : Comment),
          find (fun c => String.eqb (comment_id c) commentId)
            (comments (db w)) = Some c ->
          userId = comment_userId c \/ userRole = "ADMIN" ->
          exists w',
            CommentService.deleteComment commentId userId userRole w
            = (Ok true, w')
            /\ CommentService.getNestedCommentCount commentId w'
               = (Ok 0%nat, w')).
Proof.
  intros w. split.
  - intros g input userId parent p Hpost Hadm Huser Hfresh Hparent.
    eexists. eexists. split.
    + exact (createComment_creates g input userId w p Hpost Hadm Huser Hfresh).
    + unfold CommentService.getNestedCommentCount, Prisma.comment.count,
        bind, get_db, ret, reply_count.
      cbn [db with_comments comments]. split.
      * rewrite filter_app, length_app. cbn. rewrite Hparent. cbn.
        rewrite String.eqb_refl. cbn. f_equal. f_equal. lia.
      * intros other Hne. rewrite filter_app, length_app. cbn.
        rewrite Hparent. cbn.
        assert (Hno : String.eqb parent other = false)
          by (apply String.eqb_neq; congruence).
        rewrite Hno. cbn. lia.
  - intros commentId userId userRole c Hfind Hauth.
    eexists. split.
    + exact (deleteComment_deletes commentId userId userRole w c Hfind Hauth).
    + unfold CommentService.getNestedCommentCount, Prisma.comment.count,
        bind, get_db, ret.
      cbn [db with_comments comments].
      rewrite reply_count_after_delete. reflexivity.
Qed.

(** bob replies to the root comment of the sample thread, which has two
    replies; alice deletes the root comment. *)
Lemma reply_count_tracks_witness :
  (exists c w',
      CommentService.createComment (mkGenerated "c-new" 50)
        (CommentService.mkCreateCommentInput "p-1" "third" (Some "c-root"))
        "u-bob" Sample.world = (Ok c, w')
      /\ CommentService.getNestedCommentCount "c-root" w' = (Ok 3%nat, w'))
  /\ (exists w',
        CommentService.deleteComment "c-root" "u-alice" "USER" Sample.world
        = (Ok true, w')
        /\ CommentService.getNestedCommentCount "c-root" w' = (Ok 0%nat, w')).
Proof.
  split.
  - destruct (proj1 (reply_count_tracks Sample.world)
                (mkGenerated "c-new" 50)
                (CommentService.mkCreateCommentInput "p-1" "third"
                   (Some "c-root"))
                "u-bob" "c-root" (mkPost "p-1" "u-alice") eq_refl)
      as [c [w' [Hrun [Hcount _]]]].
    + split; [discriminate |]. exists Sample.root_comment. split; reflexivity.
    + reflexivity.
    + reflexivity.
    + reflexivity.
    + exists c, w'. split; [exact Hrun | exact Hcount].
  - exact (proj2 (reply_count_tracks Sample.world)
             "c-root" "u-alice" "USER" Sample.root_comment
             eq_refl (or_introl eq_refl)).
Defined.

(** ** Posts and users: the cascades of a deletion *)

Section Cascades.

Lemma cascade_comments_from (gone : Comment -> bool) (cs : list Comment)
    (c : Comment) :
  In c (Prisma.cascade_comments gone cs) ->
  exists c0,
    In c0 cs /\ gone c0 = false
    /\ comment_id c = comment_id c0
    /\ comment_userId c = comment_userId c0
    /\ comment_postId c = comment_postId c0.
Proof.
  unfold Prisma.cascade_comments. intros Hin.
  apply in_map_iff in Hin as [c0 [Heq Hin]].
  apply filter_In in Hin as [Hin Hgone]. apply negb_true_iff in Hgone.
  exists c0. subst c.
  destruct (match comment_parentId c0 with
            | Some parent =>
                existsb (String.eqb parent) (map comment_id (filter gone cs))
            | None => false
            end); repeat split; assumption.
Qed.

(** When parent references stay within a post and ids are unique, a
    cascade that deletes whole posts clears no parent reference. *)
Lemma cascade_comments_whole_posts (d : Db) (gone_post : string -> bool) :
  comment_parents_ok d ->
  comment_ids_unique d ->
  Prisma.cascade_comments (fun c => gone_post (comment_postId c)) (comments d)
  = filter (fun c => negb (gone_post (comment_postId c))) (comments d).
Proof.
  intros Hparents Hids. unfold Prisma.cascade_comments.
  transitivity
    (map (fun c => c)
       (filter (fun c => negb (gone_post (comment_postId c))) (comments d)));
    [| apply map_id].
  apply map_ext_in. intros c Hin.
  apply filter_In in Hin as [Hin Hkeep]. apply negb_true_iff in Hkeep.
  destruct (comment_parentId c) as [parent |] eqn:Hp; [| reflexivity].
  destruct (existsb (String.eqb parent)
              (map comment_id
                 (filter (fun c0 => gone_post (comment_postId c0))
                    (comments d)))) eqn:Hex; [| reflexivity].
  exfalso. apply existsb_exists in Hex as [i [Hi Heq]].
  apply String.eqb_eq in Heq. subst i.
  apply in_map_iff in Hi as [c2 [Hid2 Hin2]].
  apply filter_In in Hin2 as [Hin2 Hgone2].
  destruct (Hparents c parent Hin Hp) as [pc [Hpc [Hid Hpost]]].
  assert (pc = c2)
    by (apply (nodup_key_injective comment_id _ pc c2 Hids Hpc Hin2);
        congruence).
  subst pc. congruence.
Qed.

Lemma deletePost_deletes (postId userId userRole : string) (w : World)
    (p : PostRow) :
  find (fun p => String.eqb (post_id p) postId) (posts (db w)) = Some p ->
  userId = post_userId p \/ userRole = "ADMIN" ->
  PostService.deletePost postId userId userRole w
  = (Ok true,
     mkWorld
       (mkDb (users (db w))
          (filter (fun p' => negb (String.eqb (post_id p') postId))
             (posts (db w)))
          (Prisma.cascade_comments
             (fun c => String.eqb (comment_postId c) postId)
             (comments (db w)))
          (filter (fun l => negb (String.eqb (like_postId l) postId))
             (likes (db w)))
          (filter (fun r => negb (String.eqb (rating_postId r) postId))
             (ratings (db w))))
       (log w ++ [(info, "Post deleted: " ++ postId
                         ++ " by user: " ++ userId)])).
Proof.
  intros Hfind Hauth.
  unfold PostService.deletePost, Prisma.post.findUnique, Prisma.post.delete,
    AuthMiddleware.authorize, bind, get_db, put_db, logger, ret.
  rewrite Hfind.
  assert (Hok : negb (String.eqb userId (post_userId p))
                && negb (opt_is (Some userRole) "ADMIN") = false).
  { destruct Hauth as [-> | ->].
    - rewrite String.eqb_refl. reflexivity.
    - cbn. apply andb_false_r. }
  rewrite Hok. cbn [db]. rewrite Hfind. reflexivity.
Qed.

(** A post that exists and is kept by a filter still exists. *)
Lemma post_exists_kept (ps : list PostRow) (keep : PostRow -> bool)
    (postId : string) :
  existsb (fun p => String.eqb (post_id p) postId) ps = true ->
  (forall p, In p ps -> post_id p = postId -> keep p = true) ->
  existsb (fun p => String.eqb (post_id p) postId) (filter keep ps) = true.
Proof.
  intros Hex Hkeep. apply existsb_exists in Hex as [p [Hin Hid]].
  apply existsb_exists. exists p. split; [| exact Hid].
  apply filter_In. split; [exact Hin |].
  apply Hkeep; [exact Hin | apply String.eqb_eq; exact Hid].
Qed.

End Cascades.

(** X22. deletePost by the owner of a stored post, or by an
    administrator, returns true and removes the post with everything on
    it: afterwards the post is not stored, no comment is on it, and the
    likes, ratings and posts are those of the other posts, unchanged;
    users are untouched.  Every comment, like and rating that remains is
    on a stored post if that was so before; and when parent references
    stay within a post and comment ids are unique, the comments of the
    other posts are unchanged as well. *)
Theorem deletePost_cascade :
  forall (w : World) (postId userId userRole : string) (p : PostRow),
    find (fun p => String.eqb (post_id p) postId) (posts (db w)) = Some p ->
    userId = post_userId p \/ userRole = "ADMIN" ->
    exists w',
      PostService.deletePost postId userId userRole w = (Ok true, w')
      /\ Prisma.post_exists (db w') postId = false
      /\ (forall c, In c (comments (db w')) -> comment_postId c <> postId)
      /\ posts (db w')
         = filter (fun p' => negb (String.eqb (post_id p') postId))
             (posts (db w))
      /\ likes (db w')
         = filter (fun l => negb (String.eqb (like_postId l) postId))
             (likes (db w))
      /\ ratings (db w')
         = filter (fun r => negb (String.eqb (rating_postId r) postId))
             (ratings (db w))
      /\ users (db w') = users (db w)
      /\ (post_references_ok (db w) -> post_references_ok (db w'))
      /\ (comment_parents_ok (db w) -> comment_ids_unique (db w) ->
          comments (db w')
          = filter (fun c => negb (String.eqb (comment_postId c) postId))
              (comments (db w))).
Proof.
  intros w postId userId userRole p Hfind Hauth.
  eexists. split;
    [exact (deletePost_deletes postId userId userRole w p Hfind Hauth) |].
  cbn [db users posts comments likes ratings].
  assert (Hkept : forall q,
    q <> postId ->
    Prisma.post_exists (db w) q = true ->
    existsb (fun p0 => String.eqb (post_id p0) q)
      (filter (fun p' => negb (String.eqb (post_id p') postId))
         (posts (db w))) = true).
  { intros q Hq Hex. apply post_exists_kept; [exact Hex |].
    intros p0 _ Hid. apply negb_true_iff, String.eqb_neq. congruence. }
  split.
  { unfold Prisma.post_exists. cbn.
    destruct (existsb (fun p0 => String.eqb (post_id p0) postId)
                (filter (fun p' => negb (String.eqb (post_id p') postId))
                   (posts (db w)))) eqn:Hex; [| reflexivity].
    apply existsb_exists in Hex as [q [Hin Hid]].
    apply filter_In in Hin as [_ Hne]. rewrite Hid in Hne. discriminate. }
  split.
  { intros c Hin. apply cascade_comments_from in Hin
      as [c0 [_ [Hgone [_ [_ Hpost]]]]].
    rewrite Hpost. apply String.eqb_neq. exact Hgone. }
  split; [reflexivity |]. split; [reflexivity |]. split; [reflexivity |].
  split; [reflexivity |]. split.
  - intros [Hc [Hl Hr]]. unfold post_references_ok, Prisma.post_exists.
    cbn [posts comments likes ratings]. split; [| split].
    + intros c Hin. apply cascade_comments_from in Hin
        as [c0 [Hin0 [Hgone [_ [_ Hpost]]]]].
      rewrite Hpost. apply Hkept; [apply String.eqb_neq; exact Hgone |].
      exact (Hc c0 Hin0).
    + intros l Hin. apply filter_In in Hin as [Hin Hne].
      apply Hkept; [apply String.eqb_neq, negb_true_iff; exact Hne |].
      exact (Hl l Hin).
    + intros r Hin. apply filter_In in Hin as [Hin Hne].
      apply Hkept; [apply String.eqb_neq, negb_true_iff; exact Hne |].
      exact (Hr r Hin).
  - intros Hparents Hids.
    exact (cascade_comments_whole_posts (db w)
             (fun q => String.eqb q postId) Hparents Hids).
Qed.

Lemma sample_comment_ids_unique : comment_ids_unique Sample.database.
Proof.
  unfold comment_ids_unique. cbn.
  repeat constructor; cbn; intuition discriminate.
Qed.

(** alice deletes her post p-1, which carries the whole sample thread,
    the like and the rating. *)
Lemma deletePost_cascade_witness :
  exists w',
    PostService.deletePost "p-1" "u-alice" "USER" Sample.world = (Ok true, w')
    /\ db w'
       = mkDb [Sample.alice; Sample.bob; Sample.carol]
           [mkPost "p-2" "u-bob"] [] [] [].
Proof.
  destruct (deletePost_cascade Sample.world "p-1" "u-alice" "USER"
              (mkPost "p-1" "u-alice") eq_refl (or_introl eq_refl))
    as [w' [Hrun [_ [_ [Hposts [Hlikes [Hratings [Husers [_ Hcomments]]]]]]]]].
  exists w'. split; [exact Hrun |].
  specialize (Hcomments sample_comment_parents_ok sample_comment_ids_unique).
  destruct (db w') as [us ps cs ls rs]. cbn in *. subst. reflexivity.
Defined.

Section DeletedUser.

Import Jsonwebtoken.

Variable hmacSHA256 : string -> string -> Payload -> string.
Variable config : Config.

(** A verified token whose subject is not the id of a stored user gives
    an anonymous context. *)
Lemma context_unknown_subject (h : Server.Headers) (randomUUID : string)
    (clock : Z) (w : World) (decoded : JwtUtils.JwtPayload)
    (subject : string) :
  result_of (JwtUtils.verifyToken hmacSHA256 config (Server.bearer h)
               clock w) = Ok decoded ->
  JwtUtils.userId decoded = Some subject ->
  find (fun u => String.eqb (user_id u) subject) (users (db w)) = None ->
  result_of (Server.context hmacSHA256 config h randomUUID clock w)
  = Ok (mkContext None (or_else (Server.x_request_id h) randomUUID)).
Proof.
  intros Hok Hsub Hnone.
  destruct (verifyToken_ok_run hmacSHA256 config (Server.bearer h) clock w
              decoded Hok) as [Htok Hrun].
  unfold Server.context. rewrite Htok.
  unfold try_catch, bind. rewrite Hrun, Hsub. cbn [truthy_opt].
  destruct (truthy subject); cbn [negb].
  - unfold Prisma.user.findUnique, bind, get_db, ret. rewrite Hnone.
    reflexivity.
  - reflexivity.
Qed.

End DeletedUser.

Lemma deleteUser_deletes (userId : string) (w : World) (row : UserRow) :
  find (fun u => String.eqb (user_id u) userId) (users (db w)) = Some row ->
  UserService.deleteUser userId w
  = (Ok true,
     mkWorld
       (mkDb
          (filter (fun u' => negb (String.eqb (user_id u') userId))
             (users (db w)))
          (filter (fun p => negb (String.eqb (post_userId p) userId))
             (posts (db w)))
          (Prisma.cascade_comments
             (fun c =>
                String.eqb (comment_userId c) userId
                || existsb (String.eqb (comment_postId c))
                     (map post_id
                        (filter (fun p => String.eqb (post_userId p) userId)
                           (posts (db w)))))
             (comments (db w)))
          (filter
             (fun l =>
                negb (String.eqb (like_userId l) userId
                      || existsb (String.eqb (like_postId l))
                           (map post_id
                              (filter
                                 (fun p => String.eqb (post_userId p) userId)
                                 (posts (db w))))))
             (likes (db w)))
          (filter
             (fun r =>
                negb (String.eqb (rating_userId r) userId
                      || existsb (String.eqb (rating_postId r))
                           (map post_id
                              (filter
                                 (fun p => String.eqb (post_userId p) userId)
                                 (posts (db w))))))
             (ratings (db w))))
       (log w ++ [(info, "User deleted: " ++ userId)])).
Proof.
  intros Hfind.
  unfold UserService.deleteUser, Prisma.user.delete, bind, get_db, put_db,
    logger, ret.
  rewrite Hfind. reflexivity.
Qed.

(** A post that is kept when a user is deleted is not among the deleted
    posts. *)
Lemma kept_post_exists (d : Db) (userId postId : string) :
  Prisma.post_exists d postId = true ->
  existsb (String.eqb postId)
    (map post_id
       (filter (fun p => String.eqb (post_userId p) userId) (posts d)))
  = false ->
  existsb (fun p => String.eqb (post_id p) postId)
    (filter (fun p => negb (String.eqb (post_userId p) userId)) (posts d))
  = true.
Proof.
  intros Hex Hnot. apply post_exists_kept; [exact Hex |].
  intros p Hin Hid. apply negb_true_iff.
  destruct (String.eqb (post_userId p) userId) eqn:Hown; [| reflexivity].
  exfalso.
  assert (Hin' : In postId
            (map post_id
               (filter (fun p => String.eqb (post_userId p) userId)
                  (posts d)))).
  { rewrite <- Hid. apply in_map. apply filter_In. split; assumption. }
  pose proof (existsb_false_not_in _ _ postId Hnot Hin') as Hno.
  rewrite String.eqb_refl in Hno. discriminate.
Qed.

(** X23. deleteUser of an id that is not stored fails with the
    missing-record error of the Prisma client and writes nothing.  For a
    stored user it returns true; afterwards the user is not stored and no
    post, comment, like or rating of the user remains; the other users are
    kept; every comment, like and rating that remains is on a stored post
    if that was so before.  From then on a request whose bearer token
    verifies with the deleted user as subject gets an anonymous context. *)
Theorem deleteUser_cascade :
  forall (w : World) (userId : string),
    (find (fun u => String.eqb (user_id u) userId) (users (db w)) = None ->
     UserService.deleteUser userId w
     = (Throw (PrismaClientKnownRequestError "P2025"
                 "An operation failed because it depends on one or more records that were required but not found. Record to delete does not exist."),
        w))
    /\ (forall row,
          find (fun u => String.eqb (user_id u) userId) (users (db w))
          = Some row ->
          exists w',
            UserService.deleteUser userId w = (Ok true, w')
            /\ Prisma.user_exists (db w') userId = false
            /\ (forall p, In p (posts (db w')) -> post_userId p <> userId)
            /\ (forall c, In c (comments (db w')) ->
                  comment_userId c <> userId)
            /\ (forall l, In l (likes (db w')) -> like_userId l <> userId)
            /\ (forall r, In r (ratings (db w')) -> rating_userId r <> userId)
            /\ (forall u, In u (users (db w)) -> user_id u <> userId ->
                  In u (users (db w')))
            /\ (post_references_ok (db w) -> post_references_ok (db w'))
            /\ (forall hmacSHA256 config h randomUUID clock decoded,
                  result_of (JwtUtils.verifyToken hmacSHA256 config
                               (Server.bearer h) clock w') = Ok decoded ->
                  JwtUtils.userId decoded = Some userId ->
                  result_of (Server.context hmacSHA256 config h randomUUID
                               clock w')
                  = Ok (mkContext None
                          (or_else (Server.x_request_id h) randomUUID)))).
Proof.
  intros w userId. split.
  - intros Hnone.
    unfold UserService.deleteUser, Prisma.user.delete, bind, get_db, ret.
    rewrite Hnone. reflexivity.
  - intros row Hfind. eexists.
    split; [exact (deleteUser_deletes userId w row Hfind) |].
    cbn [db users posts comments likes ratings].
    assert (Hnouser :
      find (fun u => String.eqb (user_id u) userId)
        (filter (fun u' => negb (String.eqb (user_id u') userId))
           (users (db w))) = None).
    { destruct (find (fun u => String.eqb (user_id u) userId)
                  (filter (fun u' => negb (String.eqb (user_id u') userId))
                     (users (db w)))) as [u |] eqn:Hf; [| reflexivity].
      apply find_some in Hf as [Hin Hid].
      apply filter_In in Hin as [_ Hne]. rewrite Hid in Hne. discriminate. }
    split.
    { unfold Prisma.user_exists. cbn.
      apply find_none_existsb. exact Hnouser. }
    split.
    { intros p Hin. apply filter_In in Hin as [_ Hne].
      apply String.eqb_neq, negb_true_iff. exact Hne. }
    split.
    { intros c Hin. apply cascade_comments_from in Hin
        as [c0 [_ [Hgone [_ [Huser _]]]]].
      apply orb_false_iff in Hgone as [Hgone _].
      rewrite Huser. apply String.eqb_neq. exact Hgone. }
    split.
    { intros l Hin. apply filter_In in Hin as [_ Hne].
      apply negb_true_iff, orb_false_iff in Hne as [Hne _].
      apply String.eqb_neq. exact Hne. }
    split.
    { intros r Hin. apply filter_In in Hin as [_ Hne].
      apply negb_true_iff, orb_false_iff in Hne as [Hne _].
      apply String.eqb_neq. exact Hne. }
    split.
    { intros u Hin Hne. apply filter_In. split; [exact Hin |].
      apply negb_true_iff, String.eqb_neq. exact Hne. }
    split.
    { intros [Hc [Hl Hr]]. unfold post_references_ok, Prisma.post_exists.
      cbn [posts comments likes ratings]. split; [| split].
      - intros c Hin. apply cascade_comments_from in Hin
          as [c0 [Hin0 [Hgone [_ [_ Hpost]]]]].
        apply orb_false_iff in Hgone as [_ Hgone]. rewrite Hpost.
        exact (kept_post_exists (db w) userId _ (Hc c0 Hin0) Hgone).
      - intros l Hin. apply filter_In in Hin as [Hin Hne].
        apply negb_true_iff, orb_false_iff in Hne as [_ Hne].
        exact (kept_post_exists (db w) userId _ (Hl l Hin) Hne).
      - intros r Hin. apply filter_In in Hin as [Hin Hne].
        apply negb_true_iff, orb_false_iff in Hne as [_ Hne].
        exact (kept_post_exists (db w) userId _ (Hr r Hin) Hne). }
    intros hmacSHA256 config h randomUUID clock decoded Hok Hsub.
    apply (context_unknown_subject hmacSHA256 config h randomUUID clock _
             decoded userId Hok Hsub).
    exact Hnouser.
Qed.

(** bob's account is deleted; his unexpired sample token no longer
    authenticates. *)
Lemma deleteUser_cascade_witness :
  exists w',
    UserService.deleteUser "u-bob" Sample.world = (Ok true, w')
    /\ Prisma.user_exists (db w') "u-bob" = false
    /\ result_of (Server.context Sample.hmac Sample.config
                    (Sample.bearer_header Sample.bob_token) "req-6" 2000 w')
       = Ok (mkContext None "req-6").
Proof.
  destruct (proj2 (deleteUser_cascade Sample.world "u-bob") Sample.bob
              eq_refl)
    as [w' [Hrun [Hgone [_ [_ [_ [_ [_ [_ Hctx]]]]]]]]].
  exists w'. split; [exact Hrun |]. split; [exact Hgone |].
  apply (Hctx Sample.hmac Sample.config
           (Sample.bearer_header Sample.bob_token) "req-6" 2000
           (JwtUtils.as_JwtPayload Sample.bob_payload)).
  - change (Server.bearer (Sample.bearer_header Sample.bob_token))
      with (Jsonwebtoken.Compact
              (Jsonwebtoken.mkJws "HS256" Sample.bob_payload
                 (Sample.hmac "s3cret" "HS256" Sample.bob_payload))).
    rewrite (verifyToken_ok_intro Sample.hmac Sample.config _ 2000 w');
      reflexivity.
  - reflexivity.
Defined.

(** ** Resolvers: the authentication gate *)

(** X24. Every mutation resolver, and the query of all users, fails with
    UNAUTHENTICATED for a request without a caller, before the service is
    called: nothing is written and nothing is logged.  The query of all
    users fails with UNAUTHORIZED for a caller whose role is not
    ["ADMIN"], and returns the stored users to an administrator. *)
Theorem resolvers_require_authentication :
  forall (w : World) (context : Context) (g : Generated)
         (targetId content : string) (value : Z)
         (input : CommentService.CreateCommentInput),
    let unauthenticated {A} : outcome A * World :=
      (Throw (GraphQLErr "Not authenticated" "UNAUTHENTICATED"), w) in
    (user context = None ->
     Resolvers.likePost g targetId context w = unauthenticated
     /\ Resolvers.unlikePost targetId context w = unauthenticated
     /\ Resolvers.ratePost g targetId value context w = unauthenticated
     /\ Resolvers.createComment g input context w = unauthenticated
     /\ Resolvers.updateComment g targetId content context w = unauthenticated
     /\ Resolvers.deleteComment targetId context w = unauthenticated
     /\ Resolvers.deletePost targetId context w = unauthenticated
     /\ Resolvers.deleteUser context w = unauthenticated
     /\ Resolvers.users context w = unauthenticated)
    /\ (forall u, user context = Some u -> role u <> "ADMIN" ->
        Resolvers.users context w
        = (Throw (GraphQLErr "Not authorized" "UNAUTHORIZED"), w))
    /\ (forall u, user context = Some u -> role u = "ADMIN" ->
        Resolvers.users context w = (Ok (users (db w)), w)).
Proof.
  intros w context g targetId content value input unauthenticated.
  unfold Resolvers.likePost, Resolvers.unlikePost, Resolvers.ratePost,
    Resolvers.createComment, Resolvers.updateComment,
    Resolvers.deleteComment, Resolvers.deletePost, Resolvers.deleteUser,
    Resolvers.users, AuthMiddleware.authenticate, bind.
  split; [| split].
  - intros Hnone. rewrite Hnone. repeat split.
  - intros u Hu Hrole. rewrite Hu. cbn.
    unfold UserService.getAllUsers.
    apply String.eqb_neq in Hrole. rewrite Hrole. reflexivity.
  - intros u Hu Hrole. rewrite Hu. cbn.
    unfold UserService.getAllUsers. rewrite Hrole. reflexivity.
Qed.

Lemma resolvers_require_authentication_witness :
  Resolvers.deletePost "p-1" (mkContext None "req-7") Sample.world
  = (Throw (GraphQLErr "Not authenticated" "UNAUTHENTICATED"), Sample.world)
  /\ Resolvers.users
       (mkContext (Some (mkCtxUser "u-bob" "bob" "bob@example.com" "USER"))
          "req-8")
       Sample.world
     = (Throw (GraphQLErr "Not authorized" "UNAUTHORIZED"), Sample.world).
Proof.
  split.
  - apply (proj1 (resolvers_require_authentication Sample.world
                    (mkContext None "req-7") (mkGenerated "" 0) "p-1" "" 0
                    (CommentService.mkCreateCommentInput "" "" None))
             eq_refl).
  - apply (proj1 (proj2 (resolvers_require_authentication Sample.world
                           (mkContext
                              (Some (mkCtxUser "u-bob" "bob"
                                       "bob@example.com" "USER")) "req-8")
                           (mkGenerated "" 0) "p-1" "" 0
                           (CommentService.mkCreateCommentInput "" "" None)))
             (mkCtxUser "u-bob" "bob" "bob@example.com" "USER") eq_refl).
    discriminate.
Defined.

(** ** End to end: the role of the caller *)

(** X25. The role that decides a deletion is the stored one.  When
    verifyToken accepts the bearer token of a request and its subject is a
    stored user whose role in the database is USER, the deleteComment
    resolver, run with the context built for that request, refuses to
    delete a comment of another author with UNAUTHORIZED and writes
    nothing, whatever role the claims of the token name. *)
Theorem token_role_claim_is_ignored :
  forall (hmacSHA256 : string -> string -> Jsonwebtoken.Payload -> string)
         (config : Config) (h : Server.Headers) (randomUUID : string)
         (clock : Z) (w : World) (decoded : JwtUtils.JwtPayload)
         (subject commentId : string) (row : UserRow) (c : Comment),
    result_of (JwtUtils.verifyToken hmacSHA256 config (Server.bearer h)
                 clock w) = Ok decoded ->
    JwtUtils.userId decoded = Some subject ->
    subject <> "" ->
    find (fun u => String.eqb (user_id u) subject) (users (db w)) = Some row ->
    user_role row = USER ->
    find (fun c => String.eqb (comment_id c) commentId) (comments (db w))
    = Some c ->
    comment_userId c <> user_id row ->
    exists context,
      Server.context hmacSHA256 config h randomUUID clock w = (Ok context, w)
      /\ Resolvers.deleteComment commentId context w
         = (Throw (GraphQLErr "Not authorized" "UNAUTHORIZED"), w).
Proof.
  intros hmacSHA256 config h randomUUID clock w decoded subject commentId
    row c Hok Hsub Hne Hrow Hrole Hc Hauthor.
  eexists. split.
  - destruct (verifyToken_ok_run hmacSHA256 config (Server.bearer h) clock w
                decoded Hok) as [Htok Hrun].
    exact (context_stored_subject_run hmacSHA256 config h randomUUID clock w
             decoded subject row Htok Hrun Hsub Hne Hrow).
  - unfold Resolvers.deleteComment, AuthMiddleware.authenticate,
      CommentService.deleteComment, Prisma.comment.findUnique,
      AuthMiddleware.authorize, bind, get_db, ret, throw.
    cbn [user id role]. rewrite Hc, Hrole. cbn.
    assert (Hno : String.eqb (user_id row) (comment_userId c) = false)
      by (apply String.eqb_neq; congruence).
    rewrite Hno. reflexivity.
Qed.

(** The token names bob an administrator; bob is a USER in the database
    and may not delete alice's root comment. *)
Lemma token_role_claim_is_ignored_witness :
  let claims :=
    Jsonwebtoken.mkPayload (Some "u-bob") (Some "bob") (Some "ADMIN")
      (Some 0) (Some 5000) None
      (Some "your-app-name") (Some "your-app-client") in
  exists context,
    Server.context Sample.hmac Sample.config
      (Sample.bearer_header
         (Jsonwebtoken.Compact
            (Jsonwebtoken.mkJws "HS256" claims
               (Sample.hmac "s3cret" "HS256" claims))))
      "req-9" 2000 Sample.world = (Ok context, Sample.world)
    /\ Resolvers.deleteComment "c-root" context Sample.world
       = (Throw (GraphQLErr "Not authorized" "UNAUTHORIZED"), Sample.world).
Proof.
  intros claims.
  apply (token_role_claim_is_ignored Sample.hmac Sample.config
           (Sample.bearer_header
              (Jsonwebtoken.Compact
                 (Jsonwebtoken.mkJws "HS256" claims
                    (Sample.hmac "s3cret" "HS256" claims))))
           "req-9" 2000 Sample.world (JwtUtils.as_JwtPayload claims)
           "u-bob" "c-root" Sample.bob Sample.root_comment).
  - reflexivity.
  - reflexivity.
  - discriminate.
  - reflexivity.
  - reflexivity.
  - reflexivity.
  - discriminate.
Defined.

(** ** The error classes and the configuration *)


(** X27. The default lifetime of a token is the value of JWT_EXPIRES_IN
    when that variable is set to a non-empty string, and ["1hr"]
    otherwise; the second fallback of the codec, ["7d"], is never used,
    since the configuration never holds an empty lifetime. *)
Theorem default_lifetime :
  forall env : ProcessEnv,
    JwtUtils.default_expiresIn (config_of env)
    = or_else (JWT_EXPIRES_IN env) "1hr"
    /\ (truthy_opt (JWT_EXPIRES_IN env) = false ->
        JwtUtils.default_expiresIn (config_of env) = "1hr")
    /\ (forall v, JWT_EXPIRES_IN env = Some v -> v <> "" ->
        JwtUtils.default_expiresIn (config_of env) = v).
Proof.
  intros env.
  assert (Hmain : JwtUtils.default_expiresIn (config_of env)
                  = or_else (JWT_EXPIRES_IN env) "1hr").
  { unfold JwtUtils.default_expiresIn, config_of. cbn [jwtExpiresIn].
    unfold or_else at 1.
    rewrite (truthy_or_else (JWT_EXPIRES_IN env) "1hr" eq_refl).
    reflexivity. }
  rewrite Hmain. split; [reflexivity |]. split.
  - intros H. unfold or_else. destruct (JWT_EXPIRES_IN env) as [v |];
      [cbn in H; rewrite H |]; reflexivity.
  - intros v Hv Hne. rewrite Hv. unfold or_else, truthy.
    apply String.eqb_neq in Hne. rewrite Hne. reflexivity.
Qed.

Lemma default_lifetime_witness :
  JwtUtils.default_expiresIn
    (config_of (mkProcessEnv (Some "s3cret") (Some "") None None)) = "1hr"
  /\ JwtUtils.default_expiresIn
       (config_of (mkProcessEnv (Some "s3cret") (Some "2h") None None))
     = "2h".
Proof.
  split.
  - apply (proj1 (proj2 (default_lifetime
                           (mkProcessEnv (Some "s3cret") (Some "") None
                              None)))).
    reflexivity.
  - apply (proj2 (proj2 (default_lifetime
                           (mkProcessEnv (Some "s3cret") (Some "2h") None
                              None)))
             "2h"); [reflexivity | discriminate].
Defined.

(** bob, a USER, is turned away by the administrator gate; carol passes
    it and, with it, authorize for alice's resources. *)
Lemma isAdmin_decision_witness :
  result_of (AuthMiddleware.isAdmin
               (mkContext
                  (Some (mkCtxUser "u-bob" "bob" "bob@example.com" "USER"))
                  "req-10")
               Sample.world)
  = Throw (GraphQLErr "Admin access required" "UNAUTHORIZED")
  /\ AuthMiddleware.authorize "u-carol" "u-alice" (Some "ADMIN") Sample.world
     = (Ok tt, Sample.world).
Proof.
  split.
  - apply (proj1 (proj2 (proj2 (isAdmin_decision
                                  (mkContext
                                     (Some (mkCtxUser "u-bob" "bob"
                                              "bob@example.com" "USER"))
                                     "req-10")
                                  Sample.world)))
             (mkCtxUser "u-bob" "bob" "bob@example.com" "USER") eq_refl).
    discriminate.
  - apply (proj2 (proj2 (proj2 (proj2 (isAdmin_decision
                                         (mkContext
                                            (Some (mkCtxUser "u-carol" "carol"
                                                     "carol@example.com"
                                                     "ADMIN"))
                                            "req-11")
                                         Sample.world))))
             (mkCtxUser "u-carol" "carol" "carol@example.com" "ADMIN")
             "u-alice" Sample.world).
    reflexivity.
Defined.
